(** * MetaQuery: normalisation, de-duplication, search, grouping and export

    A shallow embedding of [metaQuery.py].  Python strings are modelled as
    [string]; a character is one of the first 256 Unicode code points
    (Latin-1), with Python's own classification tables for that range.
    A pandas DataFrame is a list of typed column headers and a list of
    labelled rows. *)

From Stdlib Require Import Bool Arith Lia List ZArith Ascii String Permutation.
From Stdlib Require Import Numbers.DecimalString.
Import ListNotations.
Open Scope string_scope.
Open Scope bool_scope.

(* ===================================================================== *)
(** ** Characters and Python string primitives                            *)
(* ===================================================================== *)

Module PyStr.

Definition code (c : ascii) : nat := nat_of_ascii c.

Definition in_range (lo hi : nat) (c : ascii) : bool :=
  (lo <=? code c)%nat && (code c <=? hi)%nat.

Definition is_code (n : nat) (c : ascii) : bool := (code c =? n)%nat.

(** [str.isspace] and the regex class [\s] agree on this range:
    TAB..CR, FS..US, SPACE, NEL and NBSP. *)
Definition isspace (c : ascii) : bool :=
  in_range 9 13 c || in_range 28 32 c || is_code 133 c || is_code 160 c.

(** [str.isalnum]: letters, decimal digits and the other numeric
    characters of Latin-1. *)
Definition isalnum (c : ascii) : bool :=
  in_range 48 57 c || in_range 65 90 c || in_range 97 122 c
  || is_code 170 c || is_code 178 c || is_code 179 c || is_code 181 c
  || is_code 185 c || is_code 186 c || in_range 188 190 c
  || in_range 192 214 c || in_range 216 246 c || in_range 248 255 c.

(** The regex class [\w]. *)
Definition is_word (c : ascii) : bool := isalnum c || is_code 95 c.

(** [str.lower] on one character: A..Z and the upper-case letters
    U+00C0..U+00DE (except the multiplication sign U+00D7). *)
Definition lower_char (c : ascii) : ascii :=
  if in_range 65 90 c || (in_range 192 222 c && negb (is_code 215 c))
  then ascii_of_nat (code c + 32)
  else c.

Fixpoint lower (s : string) : string :=
  match s with
  | EmptyString => EmptyString
  | String c s' => String (lower_char c) (lower s')
  end.

Fixpoint lstrip (s : string) : string :=
  match s with
  | EmptyString => EmptyString
  | String c s' => if isspace c then lstrip s' else s
  end.

Fixpoint rstrip (s : string) : string :=
  match s with
  | EmptyString => EmptyString
  | String c s' =>
      match rstrip s' with
      | EmptyString => if isspace c then EmptyString else String c EmptyString
      | r => String c r
      end
  end.

Definition strip (s : string) : string := lstrip (rstrip s).

(** [re.sub(cls+, repl, s)] for a one-character class [cls]: a left to
    right scan in which every maximal run of class characters is replaced
    by one [repl].  [in_run] records that the scan is inside a run whose
    replacement has been emitted already. *)
Fixpoint sub_runs_from (cls : ascii -> bool) (repl : string)
    (in_run : bool) (s : string) : string :=
  match s with
  | EmptyString => EmptyString
  | String c s' =>
      if cls c then
        if in_run then sub_runs_from cls repl true s'
        else repl ++ sub_runs_from cls repl true s'
      else String c (sub_runs_from cls repl false s')
  end.

Definition sub_runs (cls : ascii -> bool) (repl s : string) : string :=
  sub_runs_from cls repl false s.

(** [re.sub(cls, repl, s)] for a one-character class without
    repetition: every class character is replaced on its own. *)
Fixpoint sub_each (cls : ascii -> bool) (repl s : string) : string :=
  match s with
  | EmptyString => EmptyString
  | String c s' =>
      if cls c then repl ++ sub_each cls repl s'
      else String c (sub_each cls repl s')
  end.

(** Substring test [needle in hay]. *)
Fixpoint contains (needle hay : string) : bool :=
  prefix needle hay
  || match hay with
     | EmptyString => false
     | String _ hay' => contains needle hay'
     end.

(** [str(n)] for an integer. *)
Definition str_of_Z (n : Z) : string := NilZero.string_of_int (Z.to_int n).

Definition str_of_nat (n : nat) : string := str_of_Z (Z.of_nat n).

Definition truthy (s : string) : bool :=
  match s with EmptyString => false | _ => true end.

End PyStr.

(* ===================================================================== *)
(** ** Text normalisation                                                 *)
(* ===================================================================== *)

(** A cell of a DataFrame: a Python [str], an integer, a boolean, or the
    missing value (NaN / None). *)
Inductive cell : Type :=
| Str (s : string)
| Num (n : Z)
| Bool (b : bool)
| NaN.

Definition isinstance_str (v : cell) : bool :=
  match v with Str _ => true | _ => false end.

Module Normalizer.
Import PyStr.

(** The class [[_\-]]. *)
Definition is_separator (c : ascii) : bool := is_code 95 c || is_code 45 c.

(** The class [[^\w\s()/]]. *)
Definition is_special (c : ascii) : bool :=
  negb (is_word c || isspace c || is_code 40 c || is_code 41 c || is_code 47 c).

(** The string branch of [normalize_text]. *)
Definition normalize (text : string) : string :=
  let text := strip (lower text) in
  let text := sub_runs is_separator " " text in
  let text := sub_runs isspace " " text in
  let text := sub_each is_special EmptyString text in
  text.

End Normalizer.

Definition normalize_text (text : cell) : cell :=
  match text with
  | Str s => Str (Normalizer.normalize s)
  | _ => text
  end.

(* ===================================================================== *)
(** ** DataFrames                                                         *)
(* ===================================================================== *)

(** [select_dtypes(include=["object", "string"])] keeps the [textual]
    columns; every other dtype (integers, booleans) is [other]. *)
Inductive dtype : Type := textual | other.

Definition is_textual (d : dtype) : bool :=
  match d with textual => true | other => false end.

(** A row carries its index label ([row.name]) and one cell per column. *)
Record Row : Type := mkRow { name : nat; values : list cell }.

Record DataFrame : Type := mkDF {
  header : list (string * dtype);
  rows : list Row
}.

Definition cell_eqb (a b : cell) : bool :=
  match a, b with
  | Str s, Str t => String.eqb s t
  | Num n, Num m => Z.eqb n m
  | Bool x, Bool y => Bool.eqb x y
  | NaN, NaN => true
  | _, _ => false
  end.

Module Pandas.
Import PyStr.

Definition columns (df : DataFrame) : list string := map fst (header df).

(** [pd.DataFrame()]. *)
Definition empty_frame : DataFrame := mkDF [] [].

(** [df.shape[0]], [df.shape[1]] and [df.empty]. *)
Definition nrows (df : DataFrame) : nat := List.length (rows df).
Definition ncols (df : DataFrame) : nat := List.length (header df).
Definition empty (df : DataFrame) : bool :=
  (nrows df =? 0)%nat || (ncols df =? 0)%nat.

(** [pd.isna], [str(v)] and [Series.astype(str)]. *)
Definition isna (v : cell) : bool :=
  match v with NaN => true | _ => false end.

Definition str (v : cell) : string :=
  match v with
  | Str s => s
  | Num n => str_of_Z n
  | Bool true => "True"
  | Bool false => "False"
  | NaN => "nan"
  end.

Definition astype_str (v : cell) : cell := Str (str v).

(** [Series.str.lower()]: missing for everything that is not a string. *)
Definition str_lower (v : cell) : cell :=
  match v with Str s => Str (lower s) | _ => NaN end.

(** Position of the first column called [c]. *)
Fixpoint index_of (c : string) (cols : list string) : option nat :=
  match cols with
  | [] => None
  | c' :: cols' =>
      if String.eqb c c' then Some 0
      else option_map S (index_of c cols')
  end.

(** [row.iloc[i]]. *)
Definition iloc (r : Row) (i : nat) : cell := nth i (values r) NaN.

(** [row[c]] for a row of [df]. *)
Definition at_col (df : DataFrame) (r : Row) (c : string) : cell :=
  match index_of c (columns df) with
  | Some i => iloc r i
  | None => NaN
  end.

(** Boolean indexing [xs[mask]]. *)
Fixpoint select_mask {A : Type} (mask : list bool) (xs : list A) : list A :=
  match mask, xs with
  | b :: mask', x :: xs' =>
      if b then x :: select_mask mask' xs' else select_mask mask' xs'
  | _, _ => []
  end.

Definition select_rows (mask : list bool) (df : DataFrame) : DataFrame :=
  mkDF (header df) (select_mask mask (rows df)).

(** Keep the columns whose name satisfies [keep]. *)
Definition keep_columns (keep : string -> bool) (df : DataFrame) : DataFrame :=
  let mask := map keep (columns df) in
  mkDF (select_mask mask (header df))
       (map (fun r => mkRow (name r) (select_mask mask (values r))) (rows df)).

Definition mem (c : string) (cs : list string) : bool :=
  existsb (String.eqb c) cs.

(** [df.drop(columns=cs)]; every name of [cs] that the code passes
    without [errors="ignore"] is a column of [df] when it does. *)
Definition drop (cs : list string) (df : DataFrame) : DataFrame :=
  keep_columns (fun c => negb (mem c cs)) df.

(** [xs[i] = x] inside a row; a row shorter than [i] is left alone. *)
Fixpoint set_nth {A : Type} (i : nat) (x : A) (xs : list A) : list A :=
  match i, xs with
  | 0, _ :: xs' => x :: xs'
  | S i', y :: xs' => y :: set_nth i' x xs'
  | _, [] => []
  end.

(** [df[c] = f(row)]: overwrites the column called [c], or appends it.
    [assign_row] is the effect on one row, [i] being the position of the
    column when it exists. *)
Definition assign_row (i : option nat) (f : Row -> cell) (r : Row) : Row :=
  match i with
  | Some i => mkRow (name r) (set_nth i (f r) (values r))
  | None => mkRow (name r) (values r ++ [f r])
  end.

Definition assign (c : string) (d : dtype) (f : Row -> cell)
    (df : DataFrame) : DataFrame :=
  let i := index_of c (columns df) in
  mkDF (match i with
        | Some i => set_nth i (c, d) (header df)
        | None => header df ++ [(c, d)]
        end)
       (map (assign_row i f) (rows df)).

(** [DataFrame.duplicated(subset=[c], keep="first")] on the key cells of
    the rows: a row is flagged when its key was seen on an earlier row.
    All missing keys count as one key. *)
Fixpoint duplicated_from (seen : list cell) (keys : list cell) : list bool :=
  match keys with
  | [] => []
  | k :: keys' =>
      if existsb (cell_eqb k) seen then true :: duplicated_from seen keys'
      else false :: duplicated_from (k :: seen) keys'
  end.

Definition duplicated (keys : list cell) : list bool := duplicated_from [] keys.

(** [df.groupby(key, sort=False)]: the groups in order of first
    appearance of their key, each with its rows in frame order.  Rows
    whose key is missing are left out ([dropna=True]). *)
Fixpoint add_to_group (k : cell) (r : Row) (gs : list (cell * list Row))
    : list (cell * list Row) :=
  match gs with
  | [] => [(k, [r])]
  | (k', rs) :: gs' =>
      if cell_eqb k k' then (k', (rs ++ [r])%list) :: gs'
      else (k', rs) :: add_to_group k r gs'
  end.

Definition groupby_rows (key : Row -> cell) (rs : list Row)
    : list (cell * list Row) :=
  fold_left (fun gs r => if isna (key r) then gs else add_to_group (key r) r gs)
            rs [].

Definition groupby (c : string) (df : DataFrame) : list (cell * DataFrame) :=
  map (fun g => (fst g, mkDF (header df) (snd g)))
      (groupby_rows (fun r => at_col df r c) (rows df)).

(** [pd.concat(frames, ignore_index=True)] for frames that share their
    columns, as the selection tables do. *)
Definition relabel (rs : list Row) : list Row :=
  map (fun p => mkRow (fst p) (values (snd p))) (combine (seq 0 (List.length rs)) rs).

Definition concat (frames : list DataFrame) : DataFrame :=
  match frames with
  | [] => empty_frame
  | f :: _ => mkDF (header f) (relabel (flat_map rows frames))
  end.

(** [Series.dropna().tolist()]. *)
Definition dropna (vs : list cell) : list cell :=
  filter (fun v => negb (isna v)) vs.

Definition column_values (df : DataFrame) (c : string) : list cell :=
  map (fun r => at_col df r c) (rows df).

End Pandas.

(* ===================================================================== *)
(** ** Regular expressions, as far as the program uses them              *)
(* ===================================================================== *)

(** Patterns made of ordinary characters and the wildcard [.] are
    interpreted here, with [re.IGNORECASE].  For every other pattern the
    answer of Python's [re] module is a parameter of the search (an
    [engine]), so that nothing is said about a pattern beyond what [re]
    itself does with it. *)
Module Regex.
Import PyStr.

Inductive item : Type :=
| Lit (c : ascii)
| AnyChar.

(** The characters with a special meaning in a pattern. *)
Definition is_meta (c : ascii) : bool :=
  existsb (Ascii.eqb c)
          (list_ascii_of_string ".^$*+?{}[]\|()").

(** The patterns read here: [None] says that the pattern uses further
    regex syntax (it says nothing on whether the pattern is valid). *)
Fixpoint simple (pat : string) : option (list item) :=
  match pat with
  | EmptyString => Some []
  | String c pat' =>
      if is_code 46 c then option_map (cons AnyChar) (simple pat')
      else if is_meta c then None
      else option_map (cons (Lit c)) (simple pat')
  end.

(** [re.compile(re.escape(s))]: every character stands for itself. *)
Fixpoint compile_escaped (s : string) : list item :=
  match s with
  | EmptyString => []
  | String c s' => Lit c :: compile_escaped s'
  end.

Definition item_matches (it : item) (c : ascii) : bool :=
  match it with
  | Lit p => Ascii.eqb (lower_char p) (lower_char c)
  | AnyChar => negb (is_code 10 c)
  end.

Fixpoint match_here (items : list item) (text : string) : bool :=
  match items, text with
  | [], _ => true
  | it :: items', String c text' => item_matches it c && match_here items' text'
  | _ :: _, EmptyString => false
  end.

(** [pattern.search(text) is not None]. *)
Fixpoint search (items : list item) (text : string) : bool :=
  match_here items text
  || match text with
     | EmptyString => false
     | String _ text' => search items text'
     end.

(** What [re.compile(pat, re.IGNORECASE)] does with a pattern that uses
    further syntax: [None] when it raises [re.error], otherwise the test
    [search(text) is not None] of the compiled pattern. *)
Definition engine : Type := string -> option (string -> bool).

(** [re.compile(pat, re.IGNORECASE)], as the test it gives on a text. *)
Definition compile (re : engine) (pat : string) : option (string -> bool) :=
  match simple pat with
  | Some items => Some (search items)
  | None => re pat
  end.

Definition close_mark (pending : nat) : string :=
  if (pending =? 0)%nat then "</mark>" else EmptyString.

(** [pattern.sub(lambda m: "<mark>" + m.group(0) + "</mark>", text)] for a
    non-empty pattern: [pending] counts the characters of the current
    match that are still to be copied. *)
Fixpoint sub_mark (items : list item) (pending : nat) (text : string) : string :=
  match text with
  | EmptyString => EmptyString
  | String c text' =>
      match pending with
      | S k => String c (close_mark k ++ sub_mark items k text')
      | O =>
          if match_here items text then
            let k := (List.length items - 1)%nat in
            "<mark>" ++ String c (close_mark k ++ sub_mark items k text')
          else String c (sub_mark items 0 text')
      end
  end.

End Regex.

(* ===================================================================== *)
(** ** Helper functions of the program                                    *)
(* ===================================================================== *)

Definition enumerate {A : Type} (xs : list A) : list (nat * A) :=
  combine (seq 0 (List.length xs)) xs.

Definition join (parts : list string) : string :=
  fold_right String.append EmptyString parts.

(** The positions of the columns of [df.select_dtypes(include=["object",
    "string"])]. *)
Definition textual_columns (df : DataFrame) : list nat :=
  map fst (filter (fun ic => is_textual (snd (snd ic))) (enumerate (header df))).

(** The mask entry of a row once every textual column has been or-ed in. *)
Definition row_hit (found : string -> bool) (cols : list nat) (r : Row) : bool :=
  existsb (fun i => found (Pandas.str (Pandas.iloc r i))) cols.

(** [text_search]: the mask starts all [False] and each textual column
    ors in its [str.contains], which compiles the query; without a
    textual column the query is never compiled.  [None] is the
    [re.error] of a query that is not a valid pattern. *)
Definition text_search (re : Regex.engine) (df : DataFrame) (query : string)
    : option DataFrame :=
  if negb (PyStr.truthy query) then Some df
  else
    match textual_columns df with
    | [] => Some (Pandas.select_rows (map (fun _ => false) (rows df)) df)
    | cols =>
        match Regex.compile re query with
        | None => None
        | Some found =>
            Some (Pandas.select_rows (map (row_hit found cols) (rows df)) df)
        end
    end.

Definition format_cell (value : cell) (search_term : option string) : string :=
  if Pandas.isna value
     || Pandas.mem (PyStr.lower (PyStr.strip (Pandas.str value)))
                   [EmptyString; "nan"; "na"; "none"]
  then "<span style='color:red;'>No Definition</span>"
  else
    let text := Pandas.str value in
    match search_term with
    | Some term =>
        if PyStr.truthy term
        then Regex.sub_mark (Regex.compile_escaped term) 0 text
        else text
    | None => text
    end.

Definition group_key_col : string := "_group_key".

(** [df["_group_key"] = df[parent_col].astype(str).str.lower()]. *)
Definition add_group_key (parent_col : string) (df : DataFrame) : DataFrame :=
  Pandas.assign group_key_col textual
    (fun r => Pandas.str_lower (Pandas.astype_str (Pandas.at_col df r parent_col)))
    df.

Definition header_cell (ic : nat * string) : string :=
  match fst ic with
  | 0 => "<th style='width:20%'>" ++ snd ic ++ "</th>"
  | 1 => "<th style='width:30%'>" ++ snd ic ++ "</th>"
  | 3 => "<th style='width:50%'>" ++ snd ic ++ "</th>"
  | _ => "<th>" ++ snd ic ++ "</th>"
  end.

Definition child_cell (group : DataFrame) (row : Row)
    (search_term : option string) (jc : nat * string) : string :=
  let cell_value := format_cell (Pandas.at_col group row (snd jc)) search_term in
  match fst jc with
  | 0 => "<td style='width:30%'>" ++ cell_value ++ "</td>"
  | 2 => "<td style='width:50%'>" ++ cell_value ++ "</td>"
  | _ => "<td>" ++ cell_value ++ "</td>"
  end.

(** [group.iloc[0][parent_col]]; every group has a first row. *)
Definition first_parent (group : DataFrame) (parent_col : string) : cell :=
  match rows group with
  | r :: _ => Pandas.at_col group r parent_col
  | [] => NaN
  end.

Definition group_html (parent_col : string) (child_cols : list string)
    (search_term : option string) (group : DataFrame) : string :=
  let rowspan := Pandas.nrows group in
  let original_parent := first_parent group parent_col in
  join (map (fun ir =>
               "<tr>"
               ++ (match fst ir with
                   | 0 =>
                       "<td rowspan='" ++ PyStr.str_of_nat rowspan
                       ++ "' style='vertical-align: top; font-weight:bold;'>"
                       ++ format_cell original_parent search_term ++ "</td>"
                   | _ => EmptyString
                   end)
               ++ join (map (child_cell group (snd ir) search_term)
                            (enumerate child_cols))
               ++ "</tr>")
            (enumerate (rows group))).

(** [generate_parent_grouped_html] returns the markup and leaves [df] in
    the second component; [None] is the [IndexError] of [df.columns[0]] on
    a frame without columns. *)
Definition generate_parent_grouped_html (df : DataFrame)
    (search_term : option string) : option (string * DataFrame) :=
  match Pandas.columns df with
  | [] => None
  | parent_col :: child_cols =>
      let html :=
        "<table border='1' style='border-collapse:collapse; width:100%; text-align:left;'>"
        ++ "<tr>"
        ++ join (map header_cell (enumerate (parent_col :: child_cols)))
        ++ "</tr>" in
      let df := add_group_key parent_col df in
      let grouped := Pandas.groupby group_key_col df in
      let html :=
        html
        ++ join (map (fun g => group_html parent_col child_cols search_term (snd g))
                     grouped)
        ++ "</table>" in
      let df := Pandas.drop [group_key_col] df in
      Some (html, df)
  end.

(* ===================================================================== *)
(** ** The application pipeline (module level of the script)              *)
(* ===================================================================== *)

Module App.
Import Pandas.

Definition Source_File : string := "Source_File".
Definition Select : string := "Select".

(** *** De-duplication *)

(** The shadow table: the cells of textual columns become
    [normalize_text(str(cell))], the others are untouched. *)
Definition shadow_cell (d : dtype) (v : cell) : cell :=
  if is_textual d then normalize_text (astype_str v) else v.

Fixpoint normalize_cells (ds : list dtype) (vs : list cell) : list cell :=
  match vs, ds with
  | v :: vs', d :: ds' => shadow_cell d v :: normalize_cells ds' vs'
  | _, _ => vs
  end.

Definition normalize_row (df_working : DataFrame) (r : Row) : Row :=
  mkRow (name r) (normalize_cells (map snd (header df_working)) (values r)).

Definition normalized_df (df_working : DataFrame) : DataFrame :=
  mkDF (header df_working) (map (normalize_row df_working) (rows df_working)).

(** The cells of [normalized_df.columns[1]]. *)
Definition second_col (normalized : DataFrame) : list cell :=
  map (fun r => iloc r 1) (rows normalized).

(** The key under which a row of [df_working] is compared. *)
Definition dedup_key (df_working : DataFrame) (r : Row) : cell :=
  iloc (normalize_row df_working r) 1.

Definition duplicates_mask (df_working : DataFrame) : list bool :=
  duplicated (second_col (normalized_df df_working)).

Definition keep_mask (df_working : DataFrame) : list bool :=
  map negb (duplicates_mask df_working).

Record Dedup : Type := mkDedup {
  df : DataFrame;
  removed_df : DataFrame;
  warnings : list string
}.

Definition deduplication (df_working : DataFrame) : Dedup :=
  if (1 <? ncols (normalized_df df_working))%nat then
    mkDedup (select_rows (keep_mask df_working) df_working)
            (select_rows (duplicates_mask df_working) df_working)
            []
  else
    mkDedup df_working empty_frame
            ["Dataset has only one column; skipping second-column deduplication."].

(** *** Global search and the displayed table *)

Definition display_cols (filtered : DataFrame) : DataFrame :=
  keep_columns (fun c => negb (mem c [Source_File])) filtered.

Definition filtered_df (re : Regex.engine) (df : DataFrame)
    (global_search : string) : option DataFrame :=
  option_map display_cols
    (if PyStr.truthy global_search then text_search re df global_search
     else Some df).

(** *** Selection table *)

(** The answers of the check boxes: label and widget key to state. *)
Definition checkboxes : Type := string -> string -> bool.

Definition display_group (parent_col : string) (group : DataFrame) : DataFrame :=
  let cols_to_hide :=
    parent_col
      :: filter (fun c => PyStr.contains "definition" (PyStr.lower c))
                (columns group) in
  drop (cols_to_hide ++ [group_key_col]) group.

(** One group of the selection table: [Select] is set to [False] on
    every row and then to the state of the row's check box. *)
Definition select_group (checkbox : checkboxes) (parent_col : string)
    (group : DataFrame) : DataFrame :=
  let original_parent := first_parent group parent_col in
  let shown := assign Select other (fun _ => Bool false)
                      (display_group parent_col group) in
  let tick (ir : nat * Row) : Row :=
    let key := (str original_parent ++ "_" ++ PyStr.str_of_nat (fst ir))%string in
    let state := checkbox (str (iloc (snd ir) 0)) key in
    match index_of Select (columns shown) with
    | Some j => mkRow (name (snd ir)) (set_nth j (Bool state) (values (snd ir)))
    | None => snd ir
    end in
  mkDF (header shown) (map tick (enumerate (rows shown))).

(** [filtered_df] after the check-box section: it keeps the
    [_group_key] column that the section adds. *)
Definition keyed (filtered : DataFrame) : DataFrame :=
  if empty filtered then filtered
  else
    match columns filtered with
    | parent_col :: _ => add_group_key parent_col filtered
    | [] => filtered
    end.

Definition editable_rows (checkbox : checkboxes) (filtered : DataFrame)
    : list DataFrame :=
  if empty filtered then []
  else
    match columns filtered with
    | parent_col :: _ =>
        map (fun g => select_group checkbox parent_col (snd g))
            (groupby group_key_col (keyed filtered))
    | [] => []
    end.

Definition editable_table (checkbox : checkboxes) (filtered : DataFrame)
    : DataFrame :=
  match editable_rows checkbox filtered with
  | [] => empty_frame
  | frames => concat frames
  end.

(** *** Export *)

(** [cell == True]. *)
Definition is_True (v : cell) : bool :=
  match v with
  | Bool b => b
  | Num n => Z.eqb n 1
  | _ => false
  end.

Definition final_filtered (editable : DataFrame) : DataFrame :=
  if negb (empty editable) then
    drop [Select]
         (select_rows (map (fun r => is_True (at_col editable r Select))
                           (rows editable))
                      editable)
  else empty_frame.

(** The loop [for c in frame.columns: if c != "Source_File": ...; break]. *)
Definition first_exportable (cols : list string) : option string :=
  find (fun c => negb (String.eqb c Source_File)) cols.

Definition column_to_export (final filtered : DataFrame) : option string :=
  if negb (empty final) then first_exportable (columns final)
  else if negb (empty filtered) then first_exportable (columns filtered)
  else None.

(** The sequence of values handed to the spreadsheet writer. *)
Definition export_values (final : DataFrame) (column : option string)
    : list cell :=
  match column with
  | Some c =>
      if PyStr.truthy c then
        if negb (empty final) then dropna (column_values final c) else []
      else []
  | None => []
  end.

(** [col_data]: [pd.DataFrame([values])], a frame given by its list of
    rows. *)
Definition col_data (final : DataFrame) (column : option string)
    : list (list cell) :=
  [export_values final column].

(** What the download link carries: the workbook written with
    [index=False, header=False] holds the rows of [col_data] and nothing
    else. *)
Record Download : Type := mkDownload {
  download : string;
  sheet_name : string;
  sheet : list (list cell)
}.

(** The export section, from the displayed table and the check boxes. *)
Definition export (checkbox : checkboxes) (filtered : DataFrame) : Download :=
  let editable := editable_table checkbox filtered in
  let final := final_filtered editable in
  let column := column_to_export final (keyed filtered) in
  mkDownload "new_meta_schema.xlsx" "SelectedColumn" (col_data final column).

(** The value sequence of that export on its own. *)
Definition assemble_export (checkbox : checkboxes) (filtered : DataFrame)
    : list cell :=
  let final := final_filtered (editable_table checkbox filtered) in
  export_values final (column_to_export final (keyed filtered)).

End App.

(* ===================================================================== *)
(** ** Statements of the specification                                    *)
(* ===================================================================== *)

(** The notions the specification is worded with, defined on their own
    so that the program can be compared with them. *)
Module Spec.
Import Pandas.

(** Every row has one cell per column. *)
Definition rectangular (df : DataFrame) : Prop :=
  Forall (fun r => List.length (values r) = ncols df) (rows df).

(** [l1] keeps some elements of [l2] in their relative order. *)
Inductive subseq {A : Type} : list A -> list A -> Prop :=
| subseq_nil : subseq [] []
| subseq_skip : forall x l1 l2, subseq l1 l2 -> subseq l1 (x :: l2)
| subseq_take : forall x l1 l2, subseq l1 l2 -> subseq (x :: l1) (x :: l2).

(** The distinct keys of a top-to-bottom scan, each at the place of its
    first occurrence. *)
Fixpoint first_seen (keys : list cell) : list cell :=
  match keys with
  | [] => []
  | k :: keys' => k :: filter (fun x => negb (cell_eqb x k)) (first_seen keys')
  end.

(** The rows of [rs] whose key is [k], in the order of [rs]. *)
Definition members (key : Row -> cell) (k : cell) (rs : list Row) : list Row :=
  filter (fun r => cell_eqb (key r) k) rs.

(** A property of every character of a string. *)
Fixpoint every (P : ascii -> Prop) (s : string) : Prop :=
  match s with
  | EmptyString => True
  | String c s' => P c /\ every P s'
  end.

(** A white-space character is the plain space. *)
Definition blank_ws (c : ascii) : Prop := PyStr.isspace c = true -> c = " "%char.

(** A character that no step of the normaliser changes, a white-space
    character being settled only when it is the plain space. *)
Definition settled (c : ascii) : Prop :=
  PyStr.lower_char c = c
  /\ Normalizer.is_separator c = false
  /\ Normalizer.is_special c = false
  /\ (PyStr.isspace c = true -> c = " "%char).

(** White space at the start or at the end of a string. *)
Definition leading_ws (s : string) : bool :=
  match s with
  | String c _ => PyStr.isspace c
  | EmptyString => false
  end.

Fixpoint trailing_ws (s : string) : bool :=
  match s with
  | EmptyString => false
  | String c EmptyString => PyStr.isspace c
  | String _ s' => trailing_ws s'
  end.

(** A key that is already in canonical shape: no space at either end and
    no two spaces in a row. *)
Definition is_blank (c : ascii) : bool := Ascii.eqb c " ".

Definition starts_with_space (s : string) : bool :=
  match s with
  | String c _ => is_blank c
  | EmptyString => false
  end.

Fixpoint ends_with_space (s : string) : bool :=
  match s with
  | EmptyString => false
  | String c EmptyString => is_blank c
  | String _ s' => ends_with_space s'
  end.

Fixpoint double_space (s : string) : bool :=
  match s with
  | EmptyString => false
  | String c s' => (is_blank c && starts_with_space s') || double_space s'
  end.

Definition tidy (s : string) : bool :=
  negb (starts_with_space s) && negb (ends_with_space s) && negb (double_space s).

(** Search as the specification words it: a row matches when the string
    form of some textual cell contains the query, letter case aside, as
    a plain substring. *)
Definition literal_hit (df : DataFrame) (query : string) (r : Row) : bool :=
  existsb (fun ic =>
             is_textual (snd (snd ic))
             && PyStr.contains (PyStr.lower query)
                               (PyStr.lower (str (iloc r (fst ic)))))
          (enumerate (header df)).

Definition search (df : DataFrame) (query : string) : DataFrame :=
  if PyStr.truthy query then select_rows (map (literal_hit df query) (rows df)) df
  else df.

(** Duplicate detection "by raw equality" on the non-string cells of the
    key column: a row whose key cell is not a string shares its key only
    with rows that hold an equal cell. *)
Definition compares_raw (d : DataFrame) : Prop :=
  forall r r',
    In r (rows d) -> In r' (rows d) ->
    isinstance_str (iloc r 1) = false ->
    App.dedup_key d r = App.dedup_key d r' ->
    iloc r 1 = iloc r' 1.

(** The call [generate_parent_grouped_html(d, search_term)], when it
    returns, leaves in [d] the columns and cells that were there. *)
Definition frame_preserved (d : DataFrame) (search_term : option string) : Prop :=
  forall html d',
    generate_parent_grouped_html d search_term = Some (html, d') -> d' = d.

(** [c] is the first column of [cols] that is not the provenance column. *)
Definition first_non_provenance (cols : list string) (c : string) : Prop :=
  exists before after,
    cols = (before ++ c :: after)%list
    /\ c <> App.Source_File
    /\ Forall (fun x => x = App.Source_File) before.

(** A sheet with one column: one value per row. *)
Definition one_column (vs : list cell) : list (list cell) :=
  map (fun v => [v]) vs.

(** A sheet with one row. *)
Definition one_row (vs : list cell) : list (list cell) := [vs].

(** The non-empty values of column [c], in row order. *)
Definition non_empty_values (df : DataFrame) (c : string) : list cell :=
  dropna (column_values df c).

End Spec.

(* ===================================================================== *)
(** ** Sample tables                                                      *)
(* ===================================================================== *)

Module Samples.

(** The table of the specification's de-duplication example, with a
    provenance column. *)
Definition concepts : DataFrame :=
  mkDF [("Concept", textual); ("Definition", textual); ("Source_File", textual)]
       [mkRow 0 [Str "Age"; Str "years old"; Str "a.csv"];
        mkRow 1 [Str "AGE"; Str "Years_Old"; Str "a.csv"];
        mkRow 2 [Str "Height"; Str "cm"; Str "a.csv"]].

(** Parent values B, A, B, C. *)
Definition parents : DataFrame :=
  mkDF [("Parent", textual); ("Field", textual)]
       [mkRow 0 [Str "B"; Str "b1"];
        mkRow 1 [Str "A"; Str "a1"];
        mkRow 2 [Str "B"; Str "b2"];
        mkRow 3 [Str "C"; Str "c1"]].

(** A displayed table of three rows whose fields are all filled in. *)
Definition displayed : DataFrame :=
  mkDF [("Concept", textual); ("Field", textual)]
       [mkRow 0 [Str "Age"; Str "age_years"];
        mkRow 1 [Str "Height"; Str "height_cm"];
        mkRow 2 [Str "Weight"; Str "weight_kg"]].

Definition none_selected : App.checkboxes := fun _ _ => false.
Definition all_selected : App.checkboxes := fun _ _ => true.

(** One textual column and the single row "abc". *)
Definition letters : DataFrame :=
  mkDF [("Concept", textual)] [mkRow 0 [Str "abc"]].

(** A sheet column read with mixed cell types: the text "5" and the
    number 5. *)
Definition mixed : DataFrame :=
  mkDF [("Concept", textual); ("Code", textual)]
       [mkRow 0 [Str "first"; Str "5"];
        mkRow 1 [Str "second"; Num 5]].

(** A table that has a column called [_group_key] of its own. *)
Definition clash : DataFrame :=
  mkDF [("Concept", textual); ("_group_key", textual)]
       [mkRow 0 [Str "Age"; Str "kept by the user"]].

(** A table whose only column is the provenance column. *)
Definition lonely : DataFrame :=
  mkDF [("Source_File", textual)] [mkRow 0 [Str "a.csv"]; mkRow 1 [Str "a.csv"]].

End Samples.

(* ===================================================================== *)
(** ** The written workbook                                               *)
(* ===================================================================== *)

Module Workbook.

(** A sheet as the cells written to it, each with its row and its column
    counted from 0 (the sheet's cell A1 is row 0, column 0). *)
Definition cells : Type := list (nat * nat * cell).

(** [frame.to_excel(writer, index=False, header=False)] for a frame
    given by its rows: the value at row [i], column [j] of the frame goes
    to row [i], column [j] of the sheet; neither the column labels nor
    the index are written, so a frame without columns leaves the sheet
    without any cell. *)
Definition to_excel (frame : list (list cell)) : cells :=
  flat_map (fun ir =>
              map (fun jv => ((fst ir, fst jv), snd jv)) (enumerate (snd ir)))
           (enumerate frame).

Definition cell_at (sheet : cells) (i j : nat) : option cell :=
  option_map snd
    (find (fun c => Nat.eqb (fst (fst c)) i && Nat.eqb (snd (fst c)) j) sheet).

(** The cells of the sheet [SelectedColumn] of an export. *)
Definition written (checkbox : App.checkboxes) (filtered : DataFrame) : cells :=
  to_excel (App.sheet (App.export checkbox filtered)).

End Workbook.

(* ===================================================================== *)
(** ** Ingest                                                             *)
(* ===================================================================== *)

Module Ingest.
Import Pandas.

(** An uploaded file: its name, and the table each pandas reader returns
    on its content (only the reader chosen by the extension is used). *)
Record UploadedFile : Type := mkFile {
  file_name : string;
  read_csv : DataFrame;
  read_excel : DataFrame
}.

Inductive outcome : Type :=
| Loaded (df : DataFrame)
| ValueError (msg : string).

(** [s.endswith(suffix)]. *)
Fixpoint endswith (s suffix : string) : bool :=
  String.eqb s suffix
  || match s with
     | EmptyString => false
     | String _ s' => endswith s' suffix
     end.

(** [df["Source_File"] = file.name]. *)
Definition stamp (file_name : string) (df : DataFrame) : DataFrame :=
  assign "Source_File" textual (fun _ => Str file_name) df.

Definition load_file (file : UploadedFile) : outcome :=
  if endswith (file_name file) ".csv" then
    Loaded (stamp (file_name file) (read_csv file))
  else if endswith (file_name file) ".xlsx" || endswith (file_name file) ".xls" then
    Loaded (stamp (file_name file) (read_excel file))
  else ValueError "Unsupported file format. Please upload CSV or Excel.".

End Ingest.

(* ===================================================================== *)
(** ** Further notions used in statements                                 *)
(* ===================================================================== *)

Module Props.
Import Pandas.

(** The characters a normalised key is made of. *)
Definition key_char (c : ascii) : Prop :=
  (PyStr.isalnum c = true /\ PyStr.lower_char c = c)
  \/ c = " "%char \/ c = "("%char \/ c = ")"%char \/ c = "/"%char.

(** The test of [format_cell] for a cell shown as missing. *)
Definition shown_as_missing (value : cell) : bool :=
  isna value
  || mem (PyStr.lower (PyStr.strip (str value)))
         [EmptyString; "nan"; "na"; "none"].

Definition no_definition : string :=
  "<span style='color:red;'>No Definition</span>".

(** Markup removal: everything from a [<] to the next [>] is dropped. *)
Fixpoint strip_tags_from (inside : bool) (s : string) : string :=
  match s with
  | EmptyString => EmptyString
  | String c s' =>
      if inside then
        if Ascii.eqb c ">" then strip_tags_from false s'
        else strip_tags_from true s'
      else if Ascii.eqb c "<" then strip_tags_from true s'
      else String c (strip_tags_from false s')
  end.

Definition strip_tags (s : string) : string := strip_tags_from false s.

(** A column hidden from the selection table because of its name. *)
Definition definition_column (c : string) : bool :=
  PyStr.contains "definition" (PyStr.lower c).

(** Whether the key column, the second one, is textual. *)
Definition second_is_textual (d : DataFrame) : bool :=
  match header d with
  | _ :: (_, textual) :: _ => true
  | _ => false
  end.

(** The key of a row as the specification words it: the normaliser on
    the second cell itself (a value that is not a string passes through
    it), cells of other columns being untouched. *)
Definition claimed_key (d : DataFrame) (r : Row) : cell :=
  if second_is_textual d then normalize_text (iloc r 1) else iloc r 1.

(** The key under which rows are compared: in a textual column the
    normalised string form of the second cell, otherwise the cell. *)
Definition compared_key (d : DataFrame) (r : Row) : cell :=
  if second_is_textual d then Str (Normalizer.normalize (str (iloc r 1)))
  else iloc r 1.

(** Two second cells that count as the same. *)
Definition same_compared (d : DataFrame) (v w : cell) : Prop :=
  if second_is_textual d
  then Normalizer.normalize (str v) = Normalizer.normalize (str w)
  else v = w.

(** [kept] and [removed] split [all]. *)
Definition splits (all kept removed : list Row) : Prop :=
  Permutation (kept ++ removed) all
  /\ (forall r, In r kept -> ~ In r removed)
  /\ Spec.subseq kept all
  /\ Spec.subseq removed all.

(** Of the rows that share a key, the first (in the order of [all]) is
    in [kept] and all later ones are in [removed]. *)
Definition first_of_each_key (key : Row -> cell) (all kept removed : list Row)
    : Prop :=
  forall i r,
    nth_error all i = Some r ->
    (In r kept <->
       forall j r', j < i -> nth_error all j = Some r' -> key r' <> key r)
    /\ (In r removed <->
          exists j r', j < i /\ nth_error all j = Some r' /\ key r' = key r).

(** Non-string cells "compared by raw equality": a row whose second cell
    is not a string is removed only when an earlier row holds an equal
    cell. *)
Definition removed_only_for_equal_cells (d : DataFrame) : Prop :=
  forall i r,
    nth_error (rows d) i = Some r ->
    isinstance_str (iloc r 1) = false ->
    In r (rows (App.removed_df (App.deduplication d))) ->
    exists j r', j < i /\ nth_error (rows d) j = Some r' /\ iloc r' 1 = iloc r 1.

(** A sheet that holds the values [vs] in its first column, one per
    row, and a sheet that holds them in its first row, one per column. *)
Definition in_one_column (vs : list cell) (i j : nat) : option cell :=
  if Nat.eqb j 0 then nth_error vs i else None.

Definition in_one_row (vs : list cell) (i j : nat) : option cell :=
  if Nat.eqb i 0 then nth_error vs j else None.

(** The case-insensitive parent value of a row. *)
Definition parent_key (r : Row) : cell :=
  Str (PyStr.lower (str (iloc r 0))).

End Props.

(* ===================================================================== *)
(** ** The export, said without the program's tables                      *)
(* ===================================================================== *)

Module Selection.
Import Pandas Props.

(** A column of the displayed table that the selection table shows:
    neither the parent column nor a column with "definition" in its
    name. *)
Definition shown_column (parent_col c : string) : bool :=
  negb (String.eqb c parent_col) && negb (definition_column c).

(** The shown columns of a displayed table, in its column order. *)
Definition selection_columns (filtered : DataFrame) : list string :=
  match columns filtered with
  | [] => []
  | parent_col :: _ => filter (shown_column parent_col) (columns filtered)
  end.

Definition shown_mask (filtered : DataFrame) : list bool :=
  match columns filtered with
  | [] => []
  | parent_col :: _ => map (shown_column parent_col) (columns filtered)
  end.

Definition selection_header (filtered : DataFrame) : list (string * dtype) :=
  select_mask (shown_mask filtered) (header filtered).

(** The cells of a row under the shown columns. *)
Definition shown_values (filtered : DataFrame) (r : Row) : list cell :=
  select_mask (shown_mask filtered) (values r).

(** The first column, among [cols], that is not the provenance column. *)
Definition first_but_provenance (cols : list string) : option string :=
  find (fun c => negb (String.eqb c App.Source_File)) cols.

(** The label of a row's check box: the string form of its first shown
    cell, or of the unticked state when no column is shown. *)
Definition box_label (filtered : DataFrame) (r : Row) : string :=
  match selection_columns filtered with
  | c :: _ => str (at_col filtered r c)
  | [] => "False"
  end.

(** The key of the check box number [i] of a group: the value the group
    is shown under, an underscore and [i]. *)
Definition box_key (group : list Row) (i : nat) : string :=
  (str (match group with r :: _ => iloc r 0 | [] => NaN end)
   ++ "_" ++ PyStr.str_of_nat i)%string.

Definition ticked (checkbox : App.checkboxes) (filtered : DataFrame)
    (group : list Row) (ir : nat * Row) : bool :=
  checkbox (box_label filtered (snd ir)) (box_key group (fst ir)).

(** The ticked rows of the displayed table, group after group in order
    of first occurrence and, inside a group, in table order. *)
Definition ticked_rows (checkbox : App.checkboxes) (filtered : DataFrame)
    : list Row :=
  flat_map (fun k =>
              let group := Spec.members parent_key k (rows filtered) in
              map snd (filter (ticked checkbox filtered group) (enumerate group)))
           (Spec.first_seen (map parent_key (rows filtered))).

(** The non-missing values of column [target] on the rows [rs]. *)
Definition values_of (target : option string) (filtered : DataFrame)
    (rs : list Row) : list cell :=
  match target with
  | Some c => dropna (map (fun r => at_col filtered r c) rs)
  | None => []
  end.

(** The row of the selection table for the row number [fst ir] of a
    group. *)
Definition selection_row (checkbox : App.checkboxes) (filtered : DataFrame)
    (group : list Row) (ir : nat * Row) : Row :=
  mkRow (name (snd ir))
        (shown_values filtered (snd ir)
         ++ [Bool (ticked checkbox filtered group ir)])%list.

(** The cell of column [c] in a list of cells laid out as [cols]. *)
Definition cell_in (cols : list string) (vs : list cell) (c : string) : cell :=
  match index_of c cols with
  | Some i => nth i vs NaN
  | None => NaN
  end.

(** Column names that do not collide with the working columns and are
    not empty. *)
Definition plain_names (filtered : DataFrame) : Prop :=
  ~ In App.Select (columns filtered)
  /\ ~ In group_key_col (columns filtered)
  /\ ~ In EmptyString (columns filtered).

End Selection.

Module Fixtures.

(** An engine that rejects every pattern it is asked about. *)
Definition strict : Regex.engine := fun _ => None.

(** An engine that knows the one pattern [a|b]. *)
Definition a_or_b : Regex.engine :=
  fun pat =>
    if String.eqb pat "a|b" then
      Some (fun text => PyStr.contains "a" (PyStr.lower text)
                        || PyStr.contains "b" (PyStr.lower text))
    else None.

Definition survey_csv : Ingest.UploadedFile :=
  Ingest.mkFile "survey.csv"
    (mkDF [("Concept", textual); ("Definition", textual)]
          [mkRow 0 [Str "Age"; Str "years old"];
           mkRow 1 [Str "Height"; NaN]])
    Pandas.empty_frame.

(** A textual code column read with mixed cell types: the text "5",
    then the number 5 twice. *)
Definition fives : DataFrame :=
  mkDF [("Concept", textual); ("Code", textual)]
       [mkRow 0 [Str "first"; Str "5"];
        mkRow 1 [Str "second"; Num 5];
        mkRow 2 [Str "third"; Num 5]].

(** Two rows without a definition. *)
Definition gaps : DataFrame :=
  mkDF [("Concept", textual); ("Definition", textual)]
       [mkRow 0 [Str "Age"; NaN];
        mkRow 1 [Str "Height"; Str "cm"];
        mkRow 2 [Str "Weight"; NaN]].

(** A displayed table with a definition column and two further columns. *)
Definition catalogue : DataFrame :=
  mkDF [("Concept", textual); ("Definition", textual);
        ("Field", textual); ("Unit", textual)]
       [mkRow 0 [Str "Age"; Str "years old"; Str "age_years"; Str "a"];
        mkRow 3 [Str "age"; Str "in months"; Str "age_months"; NaN];
        mkRow 5 [Str "Height"; Str "size"; Str "height_cm"; Str "cm"]].

(** Only numbers. *)
Definition counts : DataFrame :=
  mkDF [("Year", other); ("Total", other)]
       [mkRow 0 [Num 2020; Num 12]; mkRow 1 [Num 2021; Num 20]].

(** Check boxes of which two are ticked: the one with key [Age_1] and
    the one labelled [height_cm]. *)
Definition some_selected : App.checkboxes :=
  fun label key => String.eqb key "Age_1" || String.eqb label "height_cm".

End Fixtures.

(** Proof steps used more than once. *)
Ltac each_char c := destruct c as [[] [] [] [] [] [] [] []]; vm_compute.

Ltac distinct_labels :=
  simpl; repeat (constructor; [simpl; intuition discriminate|]); constructor.

(* ===================================================================== *)
(** ** Facts about characters and string primitives                       *)
(* ===================================================================== *)

Module PyStrFacts.
Import PyStr Spec.

Lemma lower_char_idem (c : ascii) : lower_char (lower_char c) = lower_char c.
Proof. each_char c; reflexivity. Qed.

Lemma is_blank_eq (c : ascii) : is_blank c = true <-> c = " "%char.
Proof. unfold is_blank. apply Ascii.eqb_eq. Qed.

Lemma is_blank_space (c : ascii) : is_blank c = true -> isspace c = true.
Proof. intros H. apply is_blank_eq in H. subst c. reflexivity. Qed.

Lemma every_impl (P Q : ascii -> Prop) (s : string) :
  (forall c, P c -> Q c) -> every P s -> every Q s.
Proof.
  intros HPQ. induction s as [|c s IH]; simpl; [trivial|].
  intros [Hc Hs]. split; auto.
Qed.

Lemma every_and (P Q : ascii -> Prop) (s : string) :
  every P s -> every Q s -> every (fun c => P c /\ Q c) s.
Proof.
  induction s as [|c s IH]; simpl; [trivial|].
  intros [Hc Hs] [Hc' Hs']. auto.
Qed.

Lemma every_lower (s : string) : every (fun c => lower_char c = c) (lower s).
Proof.
  induction s as [|c s IH]; simpl; [trivial|].
  split; [apply lower_char_idem | exact IH].
Qed.

Lemma lower_fixed (s : string) : every (fun c => lower_char c = c) s -> lower s = s.
Proof.
  induction s as [|c s IH]; simpl; [trivial|].
  intros [Hc Hs]. rewrite Hc, IH by exact Hs. reflexivity.
Qed.

Lemma every_lstrip (P : ascii -> Prop) (s : string) :
  every P s -> every P (lstrip s).
Proof.
  induction s as [|c s IH]; simpl; [trivial|].
  intros [Hc Hs]. destruct (isspace c); simpl; auto.
Qed.

Lemma every_rstrip (P : ascii -> Prop) (s : string) :
  every P s -> every P (rstrip s).
Proof.
  induction s as [|c s IH]; simpl; [trivial|].
  intros [Hc Hs]. specialize (IH Hs).
  destruct (rstrip s) as [|d r].
  - destruct (isspace c); simpl; auto.
  - simpl. auto.
Qed.

Lemma every_strip (P : ascii -> Prop) (s : string) :
  every P s -> every P (strip s).
Proof. intros H. unfold strip. apply every_lstrip, every_rstrip, H. Qed.

Lemma every_sub_runs (P : ascii -> Prop) (cls : ascii -> bool) (b : bool) (s : string) :
  P " "%char -> every P s -> every P (sub_runs_from cls " " b s).
Proof.
  intros Hsp. revert b. induction s as [|c s IH]; intros b; simpl; [trivial|].
  intros [Hc Hs]. destruct (cls c).
  - destruct b; simpl; auto.
  - simpl. auto.
Qed.

Lemma sub_runs_out (cls : ascii -> bool) (b : bool) (s : string) :
  every (fun c => cls c = true -> c = " "%char) (sub_runs_from cls " " b s).
Proof.
  revert b. induction s as [|c s IH]; intros b; simpl; [trivial|].
  destruct (cls c) eqn:E.
  - destruct b; simpl; auto.
  - simpl. split; [congruence | apply IH].
Qed.

Lemma sub_runs_id (cls : ascii -> bool) (repl : string) (b : bool) (s : string) :
  every (fun c => cls c = false) s -> sub_runs_from cls repl b s = s.
Proof.
  revert b. induction s as [|c s IH]; intros b; simpl; [trivial|].
  intros [Hc Hs]. rewrite Hc, IH by exact Hs. reflexivity.
Qed.

Lemma every_sub_each (P : ascii -> Prop) (cls : ascii -> bool) (s : string) :
  every P s -> every P (sub_each cls EmptyString s).
Proof.
  induction s as [|c s IH]; simpl; [trivial|].
  intros [Hc Hs]. destruct (cls c); simpl; auto.
Qed.

Lemma sub_each_out (cls : ascii -> bool) (s : string) :
  every (fun c => cls c = false) (sub_each cls EmptyString s).
Proof.
  induction s as [|c s IH]; simpl; [trivial|].
  destruct (cls c) eqn:E; simpl; auto.
Qed.

Lemma sub_each_id (cls : ascii -> bool) (repl : string) (s : string) :
  every (fun c => cls c = false) s -> sub_each cls repl s = s.
Proof.
  induction s as [|c s IH]; simpl; [trivial|].
  intros [Hc Hs]. rewrite Hc, IH by exact Hs. reflexivity.
Qed.

End PyStrFacts.

(* ===================================================================== *)
(** ** The normaliser                                                     *)
(* ===================================================================== *)

Module NormalizerFacts.
Import PyStr Normalizer Spec PyStrFacts.

Lemma not_space_not_blank (c : ascii) : isspace c = false -> is_blank c = false.
Proof.
  intros H. destruct (is_blank c) eqn:E; [|reflexivity].
  apply is_blank_space in E. congruence.
Qed.

Lemma lstrip_no_lead (s : string) : leading_ws (lstrip s) = false.
Proof.
  induction s as [|c s IH]; simpl; [reflexivity|].
  destruct (isspace c) eqn:E; [exact IH | simpl; exact E].
Qed.

Lemma trailing_cons (c d : ascii) (s : string) :
  trailing_ws (String c (String d s)) = trailing_ws (String d s).
Proof. reflexivity. Qed.

Lemma ends_cons (c d : ascii) (s : string) :
  ends_with_space (String c (String d s)) = ends_with_space (String d s).
Proof. reflexivity. Qed.

Lemma rstrip_no_trail (s : string) : trailing_ws (rstrip s) = false.
Proof.
  induction s as [|c s IH]; [reflexivity|].
  simpl rstrip. destruct (rstrip s) as [|d r].
  - destruct (isspace c) eqn:E; simpl; [reflexivity | exact E].
  - rewrite trailing_cons. exact IH.
Qed.

Lemma lstrip_keeps_end (s : string) :
  trailing_ws s = false -> trailing_ws (lstrip s) = false.
Proof.
  induction s as [|c s IH]; [reflexivity|].
  intros H. simpl lstrip. destruct (isspace c) eqn:E; [|exact H].
  destruct s as [|d s']; [reflexivity|].
  apply IH. rewrite trailing_cons in H. exact H.
Qed.

Lemma strip_edges (s : string) :
  leading_ws (strip s) = false /\ trailing_ws (strip s) = false.
Proof.
  unfold strip. split.
  - apply lstrip_no_lead.
  - apply lstrip_keeps_end, rstrip_no_trail.
Qed.

(** *** Shape of a collapsed string *)

Lemma collapse_lead (b : bool) (w : string) :
  leading_ws w = false ->
  starts_with_space (sub_runs_from isspace " " b w) = false.
Proof.
  destruct w as [|c w]; simpl; [reflexivity|].
  intros H. rewrite H. simpl. apply not_space_not_blank, H.
Qed.

Lemma sub_runs_cons (cls : ascii -> bool) (repl : string) (b : bool)
    (c : ascii) (s : string) :
  sub_runs_from cls repl b (String c s)
  = if cls c then
      if b then sub_runs_from cls repl true s
      else (repl ++ sub_runs_from cls repl true s)%string
    else String c (sub_runs_from cls repl false s).
Proof. reflexivity. Qed.

Lemma collapse_trail (w : string) :
  trailing_ws w = false ->
  forall b,
    ends_with_space (sub_runs_from isspace " " b w) = false
    /\ (w <> EmptyString -> sub_runs_from isspace " " b w <> EmptyString).
Proof.
  induction w as [|c w IH]; intros H b.
  - split; [reflexivity | congruence].
  - destruct w as [|d w'].
    + simpl in H. simpl. rewrite H. simpl.
      split; [apply not_space_not_blank, H | congruence].
    + rewrite trailing_cons in H. specialize (IH H).
      assert (Hne : String d w' <> EmptyString) by congruence.
      rewrite (sub_runs_cons isspace " " b c).
      destruct (isspace c) eqn:E.
      * destruct b.
        -- destruct (IH true) as [H1 H2]. split; [exact H1 | intros _; exact (H2 Hne)].
        -- destruct (IH true) as [H1 H2]. specialize (H2 Hne).
           change (" " ++ sub_runs_from isspace " " true (String d w'))
             with (String " " (sub_runs_from isspace " " true (String d w'))).
           destruct (sub_runs_from isspace " " true (String d w')) as [|x X] eqn:EX;
             [congruence|].
           rewrite ends_cons. split; [exact H1 | congruence].
      * destruct (IH false) as [H1 H2]. specialize (H2 Hne).
        destruct (sub_runs_from isspace " " false (String d w')) as [|x X] eqn:EX;
          [congruence|].
        rewrite ends_cons. split; [exact H1 | congruence].
Qed.

Lemma collapse_single (w : string) :
  forall b,
    double_space (sub_runs_from isspace " " b w) = false
    /\ (b = true -> starts_with_space (sub_runs_from isspace " " b w) = false).
Proof.
  induction w as [|c w IH]; intros b; simpl.
  - split; reflexivity.
  - destruct (isspace c) eqn:E.
    + destruct b.
      * apply IH.
      * destruct (IH true) as [H1 H2].
        change (" " ++ sub_runs_from isspace " " true w)
          with (String " " (sub_runs_from isspace " " true w)).
        simpl. rewrite H1, H2 by reflexivity.
        split; [reflexivity | discriminate].
    + destruct (IH false) as [H1 _]. simpl.
      rewrite (not_space_not_blank c E), H1. split; reflexivity.
Qed.

Lemma tidy_collapse_strip (u : string) :
  tidy (sub_runs isspace " " (strip u)) = true.
Proof.
  unfold tidy, sub_runs.
  destruct (strip_edges u) as [Hl Ht].
  rewrite (collapse_lead false _ Hl).
  rewrite (proj1 (collapse_trail _ Ht false)).
  rewrite (proj1 (collapse_single _ false)).
  reflexivity.
Qed.

(** *** A tidy string is left alone by trimming and collapsing *)

Lemma blank_ws_not_blank (c : ascii) :
  blank_ws c -> is_blank c = false -> isspace c = false.
Proof.
  intros Hc Hb. destruct (isspace c) eqn:E; [|reflexivity].
  rewrite (Hc E) in Hb. discriminate.
Qed.

Lemma lstrip_tidy (t : string) :
  every blank_ws t -> starts_with_space t = false -> lstrip t = t.
Proof.
  destruct t as [|c t]; simpl; [reflexivity|].
  intros [Hc _] Hb. rewrite (blank_ws_not_blank c Hc Hb). reflexivity.
Qed.

Lemma rstrip_tidy (t : string) :
  every blank_ws t -> ends_with_space t = false -> rstrip t = t.
Proof.
  induction t as [|c t IH]; [reflexivity|].
  intros [Hc Ht] He. destruct t as [|d t'].
  - simpl in He. simpl. rewrite (blank_ws_not_blank c Hc He). reflexivity.
  - rewrite ends_cons in He. specialize (IH Ht He).
    change (rstrip (String c (String d t')))
      with (match rstrip (String d t') with
            | EmptyString => if isspace c then EmptyString else String c EmptyString
            | r => String c r
            end).
    rewrite IH. reflexivity.
Qed.

Lemma collapse_tidy (t : string) :
  every blank_ws t -> double_space t = false ->
  forall b, (b = true -> starts_with_space t = false) ->
  sub_runs_from isspace " " b t = t.
Proof.
  induction t as [|c t IH]; [reflexivity|].
  intros [Hc Ht] Hd b Hb. simpl in Hd.
  apply orb_false_iff in Hd. destruct Hd as [Hd1 Hd2].
  rewrite sub_runs_cons. destruct (isspace c) eqn:E.
  - pose proof (Hc E) as ->.
    destruct b; [specialize (Hb eq_refl); discriminate|].
    simpl in Hd1. rewrite (IH Ht Hd2 true (fun _ => Hd1)). reflexivity.
  - rewrite (IH Ht Hd2 false) by discriminate. reflexivity.
Qed.

Lemma trim_collapse_tidy (t : string) :
  every blank_ws t -> tidy t = true -> sub_runs isspace " " (strip t) = t.
Proof.
  intros Hw Ht. unfold tidy in Ht.
  apply andb_true_iff in Ht. destruct Ht as [Ht Hd].
  apply andb_true_iff in Ht. destruct Ht as [Hs He].
  apply negb_true_iff in Hs, He, Hd.
  unfold strip, sub_runs.
  rewrite (rstrip_tidy t Hw He), (lstrip_tidy t Hw Hs).
  apply collapse_tidy; [exact Hw | exact Hd | discriminate].
Qed.

(** *** What [normalize] returns, and what it does to its own results *)

Lemma normalize_settled (s : string) : every settled (normalize s).
Proof.
  unfold normalize, sub_runs.
  set (s1 := strip (lower s)).
  assert (H1 : every (fun c => lower_char c = c) s1)
    by apply every_strip, every_lower.
  set (s2 := sub_runs_from is_separator " " false s1).
  assert (H2 : every (fun c => lower_char c = c /\ is_separator c = false) s2).
  { apply every_and.
    - apply every_sub_runs; [reflexivity | exact H1].
    - eapply every_impl; [|apply sub_runs_out].
      intros c Hc. destruct (is_separator c) eqn:E; [|reflexivity].
      pose proof (Hc E) as ->. discriminate. }
  set (s3 := sub_runs_from isspace " " false s2).
  assert (H3 : every (fun c => (lower_char c = c /\ is_separator c = false)
                               /\ blank_ws c) s3).
  { apply every_and.
    - apply every_sub_runs; [split; reflexivity | exact H2].
    - apply sub_runs_out. }
  eapply every_impl;
    [|apply every_and; [apply every_sub_each, H3 | apply (sub_each_out is_special)]].
  intros c [[[Ha Hb] Hc] Hd]. unfold settled. auto.
Qed.

Lemma normalize_on_settled (t : string) :
  every settled t -> normalize t = sub_runs isspace " " (strip t).
Proof.
  intros Ht. unfold normalize.
  rewrite (lower_fixed t) by (eapply every_impl; [|exact Ht]; intros c H; apply H).
  assert (Hs : every settled (strip t)) by apply every_strip, Ht.
  unfold sub_runs at 2.
  rewrite (sub_runs_id is_separator)
    by (eapply every_impl; [|exact Hs]; intros c H; apply H).
  rewrite (sub_each_id is_special).
  - reflexivity.
  - apply every_sub_runs; [reflexivity|].
    eapply every_impl; [|exact Hs]. intros c H; apply H.
Qed.

Lemma settled_blank_ws (t : string) : every settled t -> every blank_ws t.
Proof. apply every_impl. intros c (_ & _ & _ & H). exact H. Qed.

(** C3, refuted as stated: normalising the key of ["_a"] once more
    changes it, because the separator is turned into a space only after
    the trimming step. *)
Lemma normalize_not_idempotent :
  normalize "_a" = " a"
  /\ normalize (normalize "_a") = "a"
  /\ normalize (normalize "_a") <> normalize "_a".
Proof. vm_compute. repeat split. discriminate. Qed.

(** C3, amended: a second pass of [normalize] leaves a key unchanged
    exactly when the key has no space at either end and no two adjacent
    spaces; on every other key it changes it. *)
Theorem normalize_idempotent_iff_tidy (s : string) :
  String.eqb (normalize (normalize s)) (normalize s) = tidy (normalize s).
Proof.
  pose proof (normalize_settled s) as Hset.
  rewrite (normalize_on_settled _ Hset).
  destruct (tidy (normalize s)) eqn:Ht.
  - rewrite (trim_collapse_tidy _ (settled_blank_ws _ Hset) Ht).
    apply String.eqb_refl.
  - apply String.eqb_neq. intros Heq.
    pose proof (tidy_collapse_strip (normalize s)) as Hc.
    rewrite Heq in Hc. congruence.
Qed.

(** From the second pass on the key is stable. *)
Lemma normalize_stable_after_two (s : string) :
  normalize (normalize (normalize s)) = normalize (normalize s).
Proof.
  pose proof (normalize_settled (normalize s)) as Hset.
  rewrite (normalize_on_settled _ Hset).
  apply trim_collapse_tidy; [apply settled_blank_ws, Hset|].
  rewrite (normalize_on_settled _ (normalize_settled s)).
  apply tidy_collapse_strip.
Qed.

Lemma normalize_example : normalize " Sensor_ID (Raw) " = "sensor id (raw)".
Proof. reflexivity. Qed.

End NormalizerFacts.

(* ===================================================================== *)
(** ** Facts about the DataFrame operations                               *)
(* ===================================================================== *)

Module PandasFacts.
Import Pandas Spec.
Local Open Scope list_scope.

Lemma cell_eqb_eq (a b : cell) : cell_eqb a b = true <-> a = b.
Proof.
  destruct a, b; simpl; try (split; congruence).
  - rewrite String.eqb_eq. split; congruence.
  - rewrite Z.eqb_eq. split; congruence.
  - rewrite Bool.eqb_true_iff. split; congruence.
Qed.

Lemma cell_eqb_refl (a : cell) : cell_eqb a a = true.
Proof. apply cell_eqb_eq. reflexivity. Qed.

Lemma cell_eqb_neq (a b : cell) : cell_eqb a b = false <-> a <> b.
Proof.
  rewrite <- cell_eqb_eq. destruct (cell_eqb a b); split; congruence.
Qed.

Lemma cell_eqb_sym (a b : cell) : cell_eqb a b = cell_eqb b a.
Proof.
  destruct (cell_eqb b a) eqn:E.
  - apply cell_eqb_eq. apply cell_eqb_eq in E. congruence.
  - apply cell_eqb_neq. apply cell_eqb_neq in E. congruence.
Qed.

(** *** Boolean indexing *)

Lemma subseq_nil_l {A : Type} (l : list A) : subseq [] l.
Proof. induction l; constructor; assumption. Qed.

Lemma select_subseq {A : Type} (mask : list bool) (l : list A) :
  subseq (select_mask mask l) l.
Proof.
  revert mask. induction l as [|x l IH]; intros [|b mask]; simpl;
    try apply subseq_nil_l.
  destruct b; constructor; apply IH.
Qed.

Lemma select_perm {A : Type} (mask : list bool) (l : list A) :
  List.length mask = List.length l ->
  Permutation (select_mask (map negb mask) l ++ select_mask mask l) l.
Proof.
  revert mask. induction l as [|x l IH]; intros [|b mask] H; simpl in *;
    try discriminate; [constructor|].
  injection H as H. destruct b; simpl.
  - apply Permutation_sym, Permutation_cons_app, Permutation_sym, IH, H.
  - constructor. apply IH, H.
Qed.

Lemma select_In {A : Type} (mask : list bool) (l : list A) (x : A) :
  In x (select_mask mask l) <->
  exists i, nth_error mask i = Some true /\ nth_error l i = Some x.
Proof.
  revert mask. induction l as [|y l IH]; intros [|b mask]; simpl.
  - split; [tauto | intros [[|i] [H _]]; discriminate].
  - split; [tauto | intros [[|i] [_ H]]; discriminate].
  - split; [tauto | intros [[|i] [H _]]; discriminate].
  - destruct b; simpl; rewrite IH; split.
    + intros [-> | [i Hi]]; [exists 0; auto | exists (S i); exact Hi].
    + intros [[|i] [H1 H2]]; simpl in *; [left; congruence | right; eauto].
    + intros [i Hi]. exists (S i). exact Hi.
    + intros [[|i] [H1 H2]]; simpl in *; [discriminate | eauto].
Qed.

(** *** [duplicated] *)

Lemma duplicated_length (keys seen : list cell) :
  List.length (duplicated_from seen keys) = List.length keys.
Proof.
  revert seen. induction keys as [|k keys IH]; intros seen; simpl; [reflexivity|].
  destruct (existsb (cell_eqb k) seen); simpl; rewrite IH; reflexivity.
Qed.

Lemma existsb_same (k k0 : cell) (seen : list cell) :
  cell_eqb k k0 = true ->
  existsb (cell_eqb k) seen = existsb (cell_eqb k0) seen.
Proof. intros H. apply cell_eqb_eq in H. subst. reflexivity. Qed.

Lemma duplicated_nth (keys : list cell) :
  forall seen i k,
    nth_error keys i = Some k ->
    nth_error (duplicated_from seen keys) i
    = Some (existsb (cell_eqb k) seen || existsb (cell_eqb k) (firstn i keys)).
Proof.
  induction keys as [|k0 keys IH]; intros seen [|i] k H; simpl in H;
    try discriminate.
  - injection H as ->. simpl.
    destruct (existsb (cell_eqb k) seen); reflexivity.
  - simpl. destruct (existsb (cell_eqb k0) seen) eqn:E; simpl;
      rewrite (IH _ _ _ H); f_equal; simpl.
    + destruct (cell_eqb k k0) eqn:Ek; simpl; [|reflexivity].
      rewrite (existsb_same _ _ _ Ek), E. reflexivity.
    + destruct (cell_eqb k k0), (existsb (cell_eqb k) seen); reflexivity.
Qed.

Lemma existsb_firstn (keys : list cell) (i : nat) (k : cell) :
  existsb (cell_eqb k) (firstn i keys) = true <->
  exists j, j < i /\ nth_error keys j = Some k.
Proof.
  revert i. induction keys as [|k0 keys IH]; intros [|i]; simpl.
  - split; [discriminate | intros [j [H _]]; lia].
  - split; [discriminate | intros [[|j] [_ H]]; discriminate].
  - split; [discriminate | intros [j [H _]]; lia].
  - rewrite orb_true_iff, IH, cell_eqb_eq. split.
    + intros [-> | [j [Hj Hn]]]; [exists 0; split; [lia | reflexivity]|].
      exists (S j). split; [lia | exact Hn].
    + intros [[|j] [Hj Hn]]; simpl in Hn; [left; congruence|].
      right. exists j. split; [lia | exact Hn].
Qed.

(** A row is flagged exactly when an earlier row carries its key. *)
Lemma duplicated_spec (keys : list cell) (i : nat) (k : cell) :
  nth_error keys i = Some k ->
  exists b,
    nth_error (duplicated keys) i = Some b
    /\ (b = true <-> exists j, j < i /\ nth_error keys j = Some k).
Proof.
  intros H. unfold duplicated. rewrite (duplicated_nth _ _ _ _ H). simpl.
  eexists. split; [reflexivity|]. apply existsb_firstn.
Qed.

End PandasFacts.

(* ===================================================================== *)
(** ** De-duplication                                                     *)
(* ===================================================================== *)

Module DedupFacts.
Import Pandas App Spec Props PandasFacts.
Local Open Scope list_scope.

Lemma duplicates_mask_keys (d : DataFrame) :
  duplicates_mask d = duplicated (map (dedup_key d) (rows d)).
Proof.
  unfold duplicates_mask, second_col, normalized_df. simpl.
  rewrite map_map. reflexivity.
Qed.

Lemma duplicates_mask_length (d : DataFrame) :
  List.length (duplicates_mask d) = List.length (rows d).
Proof.
  rewrite duplicates_mask_keys. unfold duplicated.
  rewrite duplicated_length. apply length_map.
Qed.

(** The flag of the row at position [i]. *)
Lemma duplicates_mask_at (d : DataFrame) (i : nat) (r : Row) :
  nth_error (rows d) i = Some r ->
  exists b,
    nth_error (duplicates_mask d) i = Some b
    /\ (b = true <->
        exists j r', j < i /\ nth_error (rows d) j = Some r'
                     /\ dedup_key d r' = dedup_key d r).
Proof.
  intros H. rewrite duplicates_mask_keys.
  destruct (duplicated_spec (map (dedup_key d) (rows d)) i (dedup_key d r))
    as [b [Hb Hiff]].
  { rewrite nth_error_map, H. reflexivity. }
  exists b. split; [exact Hb|]. rewrite Hiff. split.
  - intros [j [Hj Hn]]. rewrite nth_error_map in Hn.
    destruct (nth_error (rows d) j) as [r'|] eqn:E; [|discriminate].
    exists j, r'. simpl in Hn. repeat split; congruence.
  - intros [j [r' [Hj [Hn Hk]]]]. exists j. split; [exact Hj|].
    rewrite nth_error_map, Hn. simpl. congruence.
Qed.

Lemma nth_error_unique {A : Type} (l : list A) (i j : nat) (x : A) :
  NoDup l -> nth_error l i = Some x -> nth_error l j = Some x -> i = j.
Proof.
  intros Hnd Hi Hj. rewrite NoDup_nth_error in Hnd. apply Hnd.
  - apply nth_error_Some. congruence.
  - congruence.
Qed.

Lemma rows_NoDup (d : DataFrame) : NoDup (map name (rows d)) -> NoDup (rows d).
Proof. apply NoDup_map_inv. Qed.

(** Membership in a selection, for a row whose position is known. *)
Lemma select_at (mask : list bool) (l : list Row) (i : nat) (r : Row) :
  NoDup l -> nth_error l i = Some r ->
  (In r (select_mask mask l) <-> nth_error mask i = Some true).
Proof.
  intros Hnd Hi. rewrite select_In. split.
  - intros [j [Hm Hj]]. rewrite (nth_error_unique l i j r Hnd Hi Hj). exact Hm.
  - intros Hm. exists i. auto.
Qed.

(** The split in terms of the shadow table's key cell. *)
Lemma partition_by_shadow_key (df_working : DataFrame)
    (Hcols : 1 < ncols df_working)
    (Hlabels : NoDup (map name (rows df_working))) :
  let all := rows df_working in
  let kept := rows (df (deduplication df_working)) in
  let removed := rows (removed_df (deduplication df_working)) in
  Permutation (kept ++ removed) all
  /\ (forall r, In r kept -> ~ In r removed)
  /\ subseq kept all
  /\ subseq removed all
  /\ (forall i r, nth_error all i = Some r ->
        (In r kept <->
           forall j r', j < i -> nth_error all j = Some r' ->
                        dedup_key df_working r' <> dedup_key df_working r)
        /\ (In r removed <->
              exists j r', j < i /\ nth_error all j = Some r'
                           /\ dedup_key df_working r' = dedup_key df_working r)).
Proof.
  intros all kept removed.
  assert (Hbranch : (1 <? ncols (normalized_df df_working))%nat = true).
  { apply Nat.ltb_lt. exact Hcols. }
  assert (Hkept : kept = select_mask (keep_mask df_working) all).
  { unfold kept, deduplication. rewrite Hbranch. reflexivity. }
  assert (Hrem : removed = select_mask (duplicates_mask df_working) all).
  { unfold removed, deduplication. rewrite Hbranch. reflexivity. }
  pose proof (rows_NoDup _ Hlabels) as Hnd. fold all in Hnd.
  assert (Hpos : forall i r, nth_error all i = Some r ->
            (In r kept <-> nth_error (duplicates_mask df_working) i = Some false)
            /\ (In r removed <-> nth_error (duplicates_mask df_working) i = Some true)).
  { intros i r Hi. rewrite Hkept, Hrem.
    rewrite (select_at _ all i r Hnd Hi), (select_at _ all i r Hnd Hi).
    split; [|reflexivity].
    unfold keep_mask. rewrite nth_error_map.
    destruct (nth_error (duplicates_mask df_working) i) as [[|]|]; simpl;
      split; congruence. }
  repeat split.
  - rewrite Hkept, Hrem. unfold keep_mask.
    apply select_perm, duplicates_mask_length.
  - intros r Hk Hr.
    assert (Hin : exists i, nth_error all i = Some r).
    { rewrite Hkept in Hk. apply select_In in Hk.
      destruct Hk as [i [_ Hi]]. eauto. }
    destruct Hin as [i Hi]. destruct (Hpos i r Hi) as [H1 H2].
    apply H1 in Hk. apply H2 in Hr. congruence.
  - rewrite Hkept. apply select_subseq.
  - rewrite Hrem. apply select_subseq.
  - intros Hk j r' Hj Hn Hkey.
    destruct (duplicates_mask_at df_working i r H) as [b [Hb Hiff]].
    apply (Hpos i r H) in Hk. rewrite Hb in Hk. injection Hk as ->.
    assert (false = true) by (apply Hiff; eauto). discriminate.
  - intros Hfirst.
    destruct (duplicates_mask_at df_working i r H) as [b [Hb Hiff]].
    apply (Hpos i r H). rewrite Hb. f_equal.
    destruct b; [|reflexivity].
    destruct (proj1 Hiff eq_refl) as [j [r' [Hj [Hn Hk]]]].
    exfalso. exact (Hfirst j r' Hj Hn Hk).
  - intros Hr.
    destruct (duplicates_mask_at df_working i r H) as [b [Hb Hiff]].
    apply (Hpos i r H) in Hr. rewrite Hb in Hr. injection Hr as ->.
    apply Hiff. reflexivity.
  - intros Hex.
    destruct (duplicates_mask_at df_working i r H) as [b [Hb Hiff]].
    apply (Hpos i r H). rewrite Hb. f_equal. apply Hiff. exact Hex.
Qed.

(** The specification's example: the two rows whose definitions
    normalise to the same key are split, the first one being kept. *)
Lemma deduplication_example :
  map name (rows (df (deduplication Samples.concepts))) = [0; 2]
  /\ map name (rows (removed_df (deduplication Samples.concepts))) = [1].
Proof. vm_compute. split; reflexivity. Qed.

(** C9: a table with exactly one column is not de-duplicated: the kept
    table is the input, the removed table is empty, and the outcome is a
    warning, not a failure. *)
Theorem one_column_skips_deduplication (df_working : DataFrame)
    (Hone : ncols df_working = 1) :
  deduplication df_working
  = mkDedup df_working empty_frame
      ["Dataset has only one column; skipping second-column deduplication."].
Proof.
  unfold deduplication.
  replace (ncols (normalized_df df_working)) with 1 by (symmetry; exact Hone).
  reflexivity.
Qed.

Lemma one_column_skips_deduplication_witness :
  ncols Samples.lonely = 1
  /\ deduplication Samples.lonely
     = mkDedup Samples.lonely empty_frame
         ["Dataset has only one column; skipping second-column deduplication."].
Proof.
  split; [reflexivity|].
  apply (one_column_skips_deduplication Samples.lonely). reflexivity.
Defined.

(** *** The key, spelled out *)

Lemma second_column (d : DataFrame) :
  1 < ncols d ->
  exists h0 c1 d1 rest,
    header d = h0 :: (c1, d1) :: rest
    /\ second_is_textual d = is_textual d1.
Proof.
  unfold ncols, second_is_textual. intros H.
  destruct (header d) as [|h0 [|[c1 d1] rest]]; simpl in H; try lia.
  exists h0, c1, d1, rest. split; [reflexivity|]. destruct d1; reflexivity.
Qed.

(** On a full row the shadow table's key cell is the compared key. *)
Lemma dedup_key_compared (d : DataFrame) (r : Row) :
  1 < ncols d ->
  List.length (values r) = ncols d ->
  dedup_key d r = compared_key d r.
Proof.
  intros Hcols Hlen.
  destruct (second_column d Hcols) as (h0 & c1 & d1 & rest & Hh & Ht).
  unfold compared_key. rewrite Ht.
  unfold dedup_key, normalize_row, iloc, ncols in *. simpl.
  rewrite Hh in *. simpl in Hlen.
  destruct (values r) as [|v0 [|v1 vs]]; simpl in Hlen; try lia.
  destruct h0 as [c0 d0]. simpl. destruct d1; reflexivity.
Qed.

Lemma row_is_full (d : DataFrame) (i : nat) (r : Row) :
  rectangular d -> nth_error (rows d) i = Some r ->
  List.length (values r) = ncols d.
Proof.
  intros Hrect Hi. unfold rectangular in Hrect. rewrite Forall_forall in Hrect.
  apply Hrect. apply nth_error_In in Hi. exact Hi.
Qed.

(** The first-occurrence rule, for the compared key. *)
Lemma first_of_each_compared_key (d : DataFrame) :
  1 < ncols d ->
  NoDup (map name (rows d)) ->
  rectangular d ->
  first_of_each_key (compared_key d) (rows d)
                    (rows (df (deduplication d)))
                    (rows (removed_df (deduplication d))).
Proof.
  intros Hcols Hlabels Hrect i r Hi.
  destruct (partition_by_shadow_key d Hcols Hlabels)
    as (_ & _ & _ & _ & Hfirst).
  destruct (Hfirst i r Hi) as [Hkept Hremoved].
  rewrite <- (dedup_key_compared d r Hcols (row_is_full d i r Hrect Hi)).
  split.
  - rewrite Hkept. split; intros H j r' Hj Hn.
    + rewrite <- (dedup_key_compared d r' Hcols (row_is_full d j r' Hrect Hn)).
      exact (H j r' Hj Hn).
    + rewrite (dedup_key_compared d r' Hcols (row_is_full d j r' Hrect Hn)).
      exact (H j r' Hj Hn).
  - rewrite Hremoved. split; intros (j & r' & Hj & Hn & Hk); exists j, r';
      repeat split; try assumption.
    + rewrite <- (dedup_key_compared d r' Hcols (row_is_full d j r' Hrect Hn)).
      exact Hk.
    + rewrite (dedup_key_compared d r' Hcols (row_is_full d j r' Hrect Hn)).
      exact Hk.
Qed.

(** C5, refuted as stated: in the textual column "5", 5, 5 the key the
    normaliser gives the number 5 occurs twice, first on the second row,
    and yet that row is removed: the cells are compared through their
    string form, under which all three are the same. *)
Lemma first_number_is_removed :
  ~ first_of_each_key (claimed_key Fixtures.fives) (rows Fixtures.fives)
      (rows (df (deduplication Fixtures.fives)))
      (rows (removed_df (deduplication Fixtures.fives))).
Proof.
  intros H.
  destruct (H 1 (mkRow 1 [Str "second"; Num 5]) eq_refl) as [Hkept _].
  assert (Hin : In (mkRow 1 [Str "second"; Num 5])
                   (rows (df (deduplication Fixtures.fives)))).
  { apply Hkept. intros j r' Hj Hn.
    destruct j as [|j]; [|lia]. injection Hn as <-.
    vm_compute. discriminate. }
  vm_compute in Hin. destruct Hin as [Hin | []]. discriminate.
Qed.

(** C5, amended: with two columns or more, the kept and the removed rows
    split the table (together they are its rows as a multiset, no row is
    in both, each part keeps the original order), and of the rows that
    share a key exactly the first is kept and all later ones are
    removed, the key of a row being the normalised string form of its
    second cell when the second column is textual and the second cell
    itself otherwise. *)
Theorem deduplication_splits_by_compared_key (df_working : DataFrame)
    (Hcols : 1 < ncols df_working)
    (Hlabels : NoDup (map name (rows df_working)))
    (Hrect : rectangular df_working) :
  splits (rows df_working)
         (rows (df (deduplication df_working)))
         (rows (removed_df (deduplication df_working)))
  /\ first_of_each_key (compared_key df_working) (rows df_working)
       (rows (df (deduplication df_working)))
       (rows (removed_df (deduplication df_working))).
Proof.
  split.
  - destruct (partition_by_shadow_key df_working Hcols Hlabels)
      as (H1 & H2 & H3 & H4 & _).
    unfold splits. auto.
  - apply first_of_each_compared_key; assumption.
Qed.

Lemma deduplication_splits_by_compared_key_witness :
  1 < ncols Fixtures.fives
  /\ NoDup (map name (rows Fixtures.fives))
  /\ rectangular Fixtures.fives
  /\ splits (rows Fixtures.fives)
            (rows (df (deduplication Fixtures.fives)))
            (rows (removed_df (deduplication Fixtures.fives)))
  /\ first_of_each_key (compared_key Fixtures.fives) (rows Fixtures.fives)
       (rows (df (deduplication Fixtures.fives)))
       (rows (removed_df (deduplication Fixtures.fives))).
Proof.
  assert (H1 : 1 < ncols Fixtures.fives) by (vm_compute; lia).
  assert (H2 : NoDup (map name (rows Fixtures.fives))) by distinct_labels.
  assert (H3 : rectangular Fixtures.fives)
    by (unfold rectangular; simpl; repeat constructor).
  split; [exact H1 | split; [exact H2 | split; [exact H3|]]].
  exact (deduplication_splits_by_compared_key Fixtures.fives H1 H2 H3).
Defined.

(** *** Cells that are not strings *)

(** C8, refuted as stated: in a textual key column the number 5 is
    removed as a duplicate although the only earlier cell is the text
    "5", a different value: the column is converted to strings before it
    is normalised. *)
Lemma number_removed_for_text : ~ removed_only_for_equal_cells Samples.mixed.
Proof.
  intros H.
  destruct (H 1 (mkRow 1 [Str "second"; Num 5]) eq_refl eq_refl)
    as (j & r' & Hj & Hn & Heq).
  - vm_compute. left. reflexivity.
  - destruct j as [|j]; [|lia]. injection Hn as <-. discriminate.
Qed.

Lemma mixed_cells_not_compared_raw : ~ compares_raw Samples.mixed.
Proof.
  intros H.
  specialize (H (mkRow 1 [Str "second"; Num 5]) (mkRow 0 [Str "first"; Str "5"])).
  assert (Habs : Num 5 = Str "5"); [|discriminate].
  apply H.
  - simpl. auto.
  - simpl. auto.
  - reflexivity.
  - vm_compute. reflexivity.
Qed.

Lemma mixed_cells_deduplicated :
  rows (removed_df (deduplication Samples.mixed)) = [mkRow 1 [Str "second"; Num 5]].
Proof. vm_compute. reflexivity. Qed.

Lemma compared_key_same (d : DataFrame) (r r' : Row) :
  compared_key d r' = compared_key d r
  <-> same_compared d (iloc r' 1) (iloc r 1).
Proof.
  unfold compared_key, same_compared.
  destruct (second_is_textual d); [|reflexivity].
  split; congruence.
Qed.

(** C8, amended: [normalize_text] returns a value that is not a string as
    it is (no error).  In duplicate detection, a row is removed exactly
    when an earlier row has the same second cell, where "the same" is
    raw equality when the second column is not textual, and equality of
    the normalised string forms, for strings and other values alike,
    when it is textual. *)
Theorem non_string_cells_in_deduplication :
  (forall v, isinstance_str v = false -> normalize_text v = v)
  /\ (forall d,
        1 < ncols d ->
        NoDup (map name (rows d)) ->
        rectangular d ->
        forall i r,
          nth_error (rows d) i = Some r ->
          (In r (rows (removed_df (deduplication d))) <->
           exists j r',
             j < i /\ nth_error (rows d) j = Some r'
             /\ same_compared d (iloc r' 1) (iloc r 1))).
Proof.
  split.
  - intros [s| | |] H; [discriminate | reflexivity..].
  - intros d Hcols Hlabels Hrect i r Hi.
    destruct (first_of_each_compared_key d Hcols Hlabels Hrect i r Hi) as [_ H].
    rewrite H. split; intros (j & r' & Hj & Hn & Hk); exists j, r';
      repeat split; try assumption; apply compared_key_same; exact Hk.
Qed.

Lemma non_string_cells_in_deduplication_witness :
  isinstance_str (Num 5) = false
  /\ normalize_text (Num 5) = Num 5
  /\ 1 < ncols Samples.mixed
  /\ NoDup (map name (rows Samples.mixed))
  /\ rectangular Samples.mixed
  /\ nth_error (rows Samples.mixed) 1 = Some (mkRow 1 [Str "second"; Num 5])
  /\ (In (mkRow 1 [Str "second"; Num 5])
          (rows (removed_df (deduplication Samples.mixed))) <->
      exists j r',
        j < 1 /\ nth_error (rows Samples.mixed) j = Some r'
        /\ same_compared Samples.mixed (iloc r' 1)
                         (iloc (mkRow 1 [Str "second"; Num 5]) 1)).
Proof.
  assert (H0 : isinstance_str (Num 5) = false) by reflexivity.
  assert (H1 : 1 < ncols Samples.mixed) by (vm_compute; lia).
  assert (H2 : NoDup (map name (rows Samples.mixed))) by distinct_labels.
  assert (H3 : rectangular Samples.mixed)
    by (unfold rectangular; simpl; repeat constructor).
  split; [exact H0|].
  split; [exact (proj1 non_string_cells_in_deduplication (Num 5) H0)|].
  split; [exact H1 | split; [exact H2 | split; [exact H3|]]].
  split; [reflexivity|].
  exact (proj2 non_string_cells_in_deduplication Samples.mixed H1 H2 H3
               1 (mkRow 1 [Str "second"; Num 5]) eq_refl).
Defined.

End DedupFacts.

(* ===================================================================== *)
(** ** Grouping                                                           *)
(* ===================================================================== *)

Module GroupingFacts.
Import Pandas Spec PandasFacts.
Local Open Scope list_scope.

(** *** Keys in order of first occurrence *)

Lemma existsb_filter_other (k a : cell) (l : list cell) :
  cell_eqb k a = false ->
  existsb (cell_eqb k) (filter (fun x => negb (cell_eqb x a)) l)
  = existsb (cell_eqb k) l.
Proof.
  intros Hka. induction l as [|x l IH]; simpl; [reflexivity|].
  destruct (cell_eqb x a) eqn:Exa; simpl.
  - rewrite IH. apply cell_eqb_eq in Exa. subst x. rewrite Hka. reflexivity.
  - rewrite IH. reflexivity.
Qed.

Lemma existsb_first_seen (k : cell) (ks : list cell) :
  existsb (cell_eqb k) (first_seen ks) = existsb (cell_eqb k) ks.
Proof.
  induction ks as [|a ks IH]; simpl; [reflexivity|].
  destruct (cell_eqb k a) eqn:E; simpl; [reflexivity|].
  rewrite (existsb_filter_other _ _ _ E). exact IH.
Qed.

Lemma existsb_In (k : cell) (l : list cell) :
  existsb (cell_eqb k) l = true <-> In k l.
Proof.
  rewrite existsb_exists. split.
  - intros [x [Hx E]]. apply cell_eqb_eq in E. subst. exact Hx.
  - intros H. exists k. split; [exact H | apply cell_eqb_refl].
Qed.

Lemma first_seen_NoDup (ks : list cell) : NoDup (first_seen ks).
Proof.
  induction ks as [|a ks IH]; simpl; constructor.
  - rewrite filter_In. intros [_ H]. rewrite cell_eqb_refl in H. discriminate.
  - apply NoDup_filter, IH.
Qed.

Lemma first_seen_snoc (ks : list cell) (k : cell) :
  first_seen (ks ++ [k])
  = if existsb (cell_eqb k) ks then first_seen ks else first_seen ks ++ [k].
Proof.
  induction ks as [|a ks IH]; simpl; [reflexivity|].
  rewrite IH. destruct (existsb (cell_eqb k) ks) eqn:E.
  - rewrite orb_true_r. reflexivity.
  - rewrite orb_false_r, filter_app. simpl.
    destruct (cell_eqb k a); simpl; [rewrite app_nil_r|]; reflexivity.
Qed.

(** *** The groups of a scan *)

Lemma members_snoc (key : Row -> cell) (k : cell) (rs : list Row) (r : Row) :
  members key k (rs ++ [r])
  = members key k rs ++ (if cell_eqb (key r) k then [r] else []).
Proof. unfold members. rewrite filter_app. reflexivity. Qed.

Lemma members_absent (key : Row -> cell) (k : cell) (rs : list Row) :
  existsb (cell_eqb k) (map key rs) = false -> members key k rs = [].
Proof.
  induction rs as [|r rs IH]; simpl; [reflexivity|].
  intros H. apply orb_false_iff in H. destruct H as [H1 H2].
  rewrite cell_eqb_sym, H1. apply IH, H2.
Qed.

Lemma add_to_group_members (key : Row -> cell) (rs : list Row) (r : Row)
    (L : list cell) :
  NoDup L ->
  add_to_group (key r) r (map (fun k => (k, members key k rs)) L)
  = if existsb (cell_eqb (key r)) L
    then map (fun k => (k, members key k (rs ++ [r]))) L
    else map (fun k => (k, members key k (rs ++ [r]))) L ++ [(key r, [r])].
Proof.
  induction L as [|k L IH]; intros Hnd; simpl; [reflexivity|].
  inversion Hnd as [|? ? Hnotin Hnd']; subst.
  rewrite members_snoc.
  destruct (cell_eqb (key r) k) eqn:E; simpl.
  - f_equal. apply map_ext_in. intros x Hx.
    rewrite members_snoc.
    assert (Hne : cell_eqb (key r) x = false).
    { apply cell_eqb_neq. apply cell_eqb_eq in E. intros Heq.
      apply Hnotin. rewrite <- E, Heq. exact Hx. }
    rewrite Hne, app_nil_r. reflexivity.
  - rewrite app_nil_r, (IH Hnd').
    destruct (existsb (cell_eqb (key r)) L); reflexivity.
Qed.

Lemma groupby_rows_snoc (key : Row -> cell) (rs : list Row) (r : Row) :
  isna (key r) = false ->
  groupby_rows key (rs ++ [r]) = add_to_group (key r) r (groupby_rows key rs).
Proof.
  intros H. unfold groupby_rows. rewrite fold_left_app. simpl.
  rewrite H. reflexivity.
Qed.

(** [groupby(sort=False)] lists the distinct keys in order of first
    occurrence and gives each the rows that carry it, in scan order. *)
Lemma groupby_rows_spec (key : Row -> cell) (rs : list Row) :
  Forall (fun r => isna (key r) = false) rs ->
  groupby_rows key rs
  = map (fun k => (k, members key k rs)) (first_seen (map key rs)).
Proof.
  induction rs as [|r rs IH] using rev_ind; intros Hna; [reflexivity|].
  apply Forall_app in Hna. destruct Hna as [Hrs Hr].
  inversion Hr as [|? ? Hr1 _]; subst.
  rewrite (groupby_rows_snoc _ _ _ Hr1), (IH Hrs).
  rewrite (add_to_group_members key rs r _ (first_seen_NoDup _)).
  rewrite existsb_first_seen, map_app. simpl. rewrite first_seen_snoc.
  destruct (existsb (cell_eqb (key r)) (map key rs)) eqn:E; [reflexivity|].
  rewrite map_app. simpl. rewrite members_snoc, cell_eqb_refl.
  rewrite (members_absent _ _ _ E). reflexivity.
Qed.

End GroupingFacts.

(* ===================================================================== *)
(** ** The grouped preview                                                *)
(* ===================================================================== *)

Module PreviewFacts.
Import Pandas Spec PandasFacts GroupingFacts.
Local Open Scope list_scope.

(** *** Column positions and in-place updates *)

Lemma index_of_Some (c : string) (cols : list string) (i : nat) :
  index_of c cols = Some i -> nth_error cols i = Some c.
Proof.
  revert i. induction cols as [|c' cols IH]; intros i; simpl; [discriminate|].
  destruct (String.eqb c c') eqn:E.
  - intros [= <-]. apply String.eqb_eq in E. subst. reflexivity.
  - destruct (index_of c cols) as [j|]; simpl; [|discriminate].
    intros [= <-]. simpl. apply IH. reflexivity.
Qed.

Lemma index_of_In (c : string) (cols : list string) :
  In c cols -> exists i, index_of c cols = Some i.
Proof.
  induction cols as [|c' cols IH]; simpl; [tauto|].
  intros H. destruct (String.eqb c c') eqn:E; [eauto|].
  apply String.eqb_neq in E. destruct H as [H|H]; [congruence|].
  destruct (IH H) as [i Hi]. rewrite Hi. simpl. eauto.
Qed.

Lemma index_of_None (c : string) (cols : list string) :
  ~ In c cols -> index_of c cols = None.
Proof.
  intros H. destruct (index_of c cols) as [i|] eqn:E; [|reflexivity].
  exfalso. apply H. apply index_of_Some in E.
  apply nth_error_In in E. exact E.
Qed.

Lemma index_of_None_inv (c : string) (cols : list string) :
  index_of c cols = None -> ~ In c cols.
Proof.
  intros H Hin. destruct (index_of_In c cols Hin) as [i Hi]. congruence.
Qed.

Lemma index_of_appended (c : string) (cols : list string) :
  index_of c cols = None -> index_of c (cols ++ [c]) = Some (List.length cols).
Proof.
  induction cols as [|c' cols IH]; simpl.
  - intros _. rewrite String.eqb_refl. reflexivity.
  - destruct (String.eqb c c'); [discriminate|].
    destruct (index_of c cols) as [j|]; simpl; [discriminate|].
    intros _. rewrite IH by reflexivity. reflexivity.
Qed.

Lemma set_nth_same {A : Type} (l : list A) (i : nat) (x : A) :
  nth_error l i = Some x -> set_nth i x l = l.
Proof.
  revert i. induction l as [|y l IH]; intros [|i]; simpl; try discriminate.
  - intros [= ->]. reflexivity.
  - intros H. rewrite IH by exact H. reflexivity.
Qed.

Lemma map_set_nth {A B : Type} (f : A -> B) (l : list A) (i : nat) (x : A) :
  map f (set_nth i x l) = set_nth i (f x) (map f l).
Proof.
  revert i. induction l as [|y l IH]; intros [|i]; simpl; try reflexivity.
  rewrite IH. reflexivity.
Qed.

Lemma nth_set_nth {A : Type} (l : list A) (i : nat) (x d : A) :
  i < List.length l -> nth i (set_nth i x l) d = x.
Proof.
  revert i. induction l as [|y l IH]; intros [|i]; simpl; try lia.
  - reflexivity.
  - intros H. apply IH. lia.
Qed.

Lemma columns_assign (c : string) (dt : dtype) (f : Row -> cell) (d : DataFrame) :
  columns (assign c dt f d)
  = match index_of c (columns d) with
    | Some _ => columns d
    | None => columns d ++ [c]
    end.
Proof.
  unfold assign, columns at 1. simpl.
  destruct (index_of c (columns d)) as [i|] eqn:E.
  - rewrite map_set_nth. simpl. apply set_nth_same, index_of_Some, E.
  - rewrite map_app. reflexivity.
Qed.

(** Reading back the assigned column gives the assigned cell. *)
Lemma assign_at (c : string) (dt : dtype) (f : Row -> cell) (d : DataFrame)
    (r : Row) :
  List.length (values r) = ncols d ->
  at_col (assign c dt f d) (assign_row (index_of c (columns d)) f r) c = f r.
Proof.
  intros Hlen. unfold at_col. rewrite columns_assign.
  assert (Hn : ncols d = List.length (columns d)).
  { unfold ncols, columns. rewrite length_map. reflexivity. }
  destruct (index_of c (columns d)) as [i|] eqn:E.
  - rewrite E. unfold iloc. simpl. apply nth_set_nth.
    apply index_of_Some in E.
    assert (i < List.length (columns d)) by (apply nth_error_Some; congruence).
    lia.
  - rewrite (index_of_appended _ _ E). unfold iloc. simpl.
    rewrite <- Hn, <- Hlen. apply nth_middle.
Qed.

(** *** Group order *)

Lemma filter_map_swap {A B : Type} (p : B -> bool) (f : A -> B) (l : list A) :
  filter p (map f l) = map f (filter (fun x => p (f x)) l).
Proof.
  induction l as [|x l IH]; simpl; [reflexivity|].
  destruct (p (f x)); simpl; rewrite IH; reflexivity.
Qed.

Lemma add_group_key_assign (parent_col : string) (child_cols : list string)
    (d : DataFrame) :
  columns d = parent_col :: child_cols ->
  add_group_key parent_col d
  = assign group_key_col textual
      (fun r => Str (PyStr.lower (str (iloc r 0)))) d.
Proof.
  intros Hcols. unfold add_group_key, assign. f_equal.
  apply map_ext. intros r. unfold assign_row, at_col.
  rewrite Hcols. simpl. rewrite String.eqb_refl. reflexivity.
Qed.

(** C6: the groups of the preview come in the order in which their
    lower-cased parent value first occurs from top to bottom, and each
    group holds the rows with that value in their original order (every
    row carrying the temporary key cell the grouping works with). *)
Theorem parent_groups_in_first_seen_order (d : DataFrame)
    (parent_col : string) (child_cols : list string)
    (Hcols : columns d = parent_col :: child_cols)
    (Hrect : rectangular d) :
  let key := fun r => Str (PyStr.lower (str (iloc r 0))) in
  let keyed := add_group_key parent_col d in
  let with_key := assign_row (index_of group_key_col (columns d)) key in
  groupby group_key_col keyed
  = map (fun k => (k, mkDF (header keyed)
                           (map with_key (members key k (rows d)))))
        (first_seen (map key (rows d))).
Proof.
  intros key keyed with_key.
  assert (Hkeyed : keyed = assign group_key_col textual key d)
    by apply (add_group_key_assign _ _ _ Hcols).
  assert (Hat : forall r, In r (rows d) ->
                  at_col keyed (with_key r) group_key_col = key r).
  { intros r Hr. rewrite Hkeyed. apply assign_at.
    unfold rectangular in Hrect. rewrite Forall_forall in Hrect. auto. }
  assert (Hrows : rows keyed = map with_key (rows d))
    by (rewrite Hkeyed; reflexivity).
  unfold groupby. rewrite Hrows, groupby_rows_spec.
  - rewrite map_map. simpl.
    rewrite (map_map with_key), (map_ext_in _ key _ Hat).
    apply map_ext. intros k. f_equal. f_equal.
    unfold members. rewrite filter_map_swap. f_equal.
    apply filter_ext_in. intros r Hr. rewrite (Hat r Hr). reflexivity.
  - apply Forall_map, Forall_forall. intros r Hr.
    rewrite (Hat r Hr). reflexivity.
Qed.

(** The specification's example: parent values B, A, B, C. *)
Lemma parent_groups_example :
  let groups := groupby group_key_col (add_group_key "Parent" Samples.parents) in
  map (fun g => first_parent (snd g) "Parent") groups = [Str "B"; Str "A"; Str "C"]
  /\ map (fun g => map name (rows (snd g))) groups = [[0; 2]; [1]; [3]].
Proof. vm_compute. split; reflexivity. Qed.

Lemma parent_groups_in_first_seen_order_witness :
  columns Samples.parents = ["Parent"; "Field"]
  /\ rectangular Samples.parents
  /\ (let key := fun r => Str (PyStr.lower (str (iloc r 0))) in
      let keyed := add_group_key "Parent" Samples.parents in
      let with_key :=
        assign_row (index_of group_key_col (columns Samples.parents)) key in
      groupby group_key_col keyed
      = map (fun k => (k, mkDF (header keyed)
                               (map with_key (members key k (rows Samples.parents)))))
            (first_seen (map key (rows Samples.parents)))).
Proof.
  assert (H1 : columns Samples.parents = ["Parent"; "Field"]) by reflexivity.
  assert (H2 : rectangular Samples.parents)
    by (unfold rectangular; simpl; repeat constructor).
  split; [exact H1 | split; [exact H2|]].
  exact (parent_groups_in_first_seen_order Samples.parents "Parent" ["Field"] H1 H2).
Defined.

(** *** The frame after the call *)

Lemma select_mask_app {A : Type} (m1 m2 : list bool) (l1 l2 : list A) :
  List.length m1 = List.length l1 ->
  select_mask (m1 ++ m2) (l1 ++ l2) = select_mask m1 l1 ++ select_mask m2 l2.
Proof.
  revert l1. induction m1 as [|b m1 IH]; intros [|x l1] H; simpl in *;
    try discriminate; [reflexivity|].
  injection H as H. rewrite (IH _ H). destruct b; reflexivity.
Qed.

Lemma select_mask_all {A : Type} (m : list bool) (l : list A) :
  Forall (fun b => b = true) m -> List.length m = List.length l ->
  select_mask m l = l.
Proof.
  revert l. induction m as [|b m IH]; intros [|x l] Hall H; simpl in *;
    try discriminate; [reflexivity|].
  inversion Hall as [|? ? Hb Hm]; subst. injection H as H.
  rewrite (IH _ Hm H). reflexivity.
Qed.

Lemma drop_assign_fresh (c : string) (dt : dtype) (f : Row -> cell)
    (d : DataFrame) :
  ~ In c (columns d) -> rectangular d -> drop [c] (assign c dt f d) = d.
Proof.
  intros Hfree Hrect. unfold drop, keep_columns.
  set (keep := fun x : string => negb (mem x [c])).
  rewrite columns_assign. unfold assign.
  rewrite (index_of_None _ _ Hfree).
  assert (Hkeep : Forall (fun b => b = true) (map keep (columns d))).
  { apply Forall_map, Forall_forall. intros x Hx. unfold keep, mem. simpl.
    assert (String.eqb x c = false) by (apply String.eqb_neq; congruence).
    rewrite H. reflexivity. }
  assert (Hc : keep c = false).
  { unfold keep, mem. simpl. rewrite String.eqb_refl. reflexivity. }
  assert (Hlen : List.length (map keep (columns d)) = ncols d).
  { unfold ncols, columns. rewrite !length_map. reflexivity. }
  rewrite map_app. change (map keep [c]) with [keep c]. rewrite Hc.
  unfold header at 1, rows at 1.
  rewrite select_mask_app by exact Hlen.
  rewrite (select_mask_all _ _ Hkeep Hlen). simpl select_mask. rewrite app_nil_r.
  rewrite map_map.
  rewrite (map_ext_in _ (fun r => r)); [rewrite map_id; destruct d; reflexivity|].
  intros r Hr. simpl.
  unfold rectangular in Hrect. rewrite Forall_forall in Hrect.
  rewrite select_mask_app by (rewrite Hlen; symmetry; apply Hrect, Hr).
  rewrite select_mask_all;
    [| exact Hkeep | rewrite Hlen; symmetry; apply Hrect, Hr].
  simpl. rewrite app_nil_r. destruct r; reflexivity.
Qed.

(** C10, refuted as stated: a table that has a column called
    [_group_key] comes back without it. *)
Lemma preview_drops_user_column : ~ frame_preserved Samples.clash None.
Proof.
  intros H.
  assert (E : exists html,
             generate_parent_grouped_html Samples.clash None
             = Some (html, mkDF [("Concept", textual)] [mkRow 0 [Str "Age"]]))
    by (eexists; vm_compute; reflexivity).
  destruct E as [html E]. specialize (H _ _ E). discriminate.
Qed.

(** C10, amended: on a table with at least one column and no column
    called [_group_key], the call returns and leaves the table with the
    columns and cells it had. *)
Theorem preview_restores_frame (d : DataFrame) (search_term : option string)
    (Hcols : columns d <> [])
    (Hrect : rectangular d)
    (Hfree : ~ In group_key_col (columns d)) :
  (exists html, generate_parent_grouped_html d search_term = Some (html, d))
  /\ frame_preserved d search_term.
Proof.
  assert (Hret : exists html,
             generate_parent_grouped_html d search_term = Some (html, d)).
  { unfold generate_parent_grouped_html.
    destruct (columns d) as [|parent_col child_cols] eqn:E; [congruence|].
    eexists. f_equal. f_equal. unfold add_group_key.
    apply drop_assign_fresh; [rewrite E; exact Hfree | exact Hrect]. }
  split; [exact Hret|].
  destruct Hret as [html Hhtml]. intros html' d' H. congruence.
Qed.

Lemma preview_restores_frame_witness :
  columns Samples.parents <> []
  /\ rectangular Samples.parents
  /\ ~ In group_key_col (columns Samples.parents)
  /\ (exists html,
        generate_parent_grouped_html Samples.parents (Some "b")
        = Some (html, Samples.parents))
  /\ frame_preserved Samples.parents (Some "b").
Proof.
  assert (H1 : columns Samples.parents <> []) by discriminate.
  assert (H2 : rectangular Samples.parents)
    by (unfold rectangular; simpl; repeat constructor).
  assert (H3 : ~ In group_key_col (columns Samples.parents))
    by (simpl; intros [H|[H|[]]]; discriminate).
  split; [exact H1 | split; [exact H2 | split; [exact H3|]]].
  exact (preview_restores_frame Samples.parents (Some "b") H1 H2 H3).
Defined.

End PreviewFacts.

(* ===================================================================== *)
(** ** Global search                                                      *)
(* ===================================================================== *)

Module SearchFacts.
Import Pandas Spec.
Local Open Scope list_scope.

Lemma text_search_empty_query (re : Regex.engine) (d : DataFrame) :
  text_search re d EmptyString = Some d /\ search d EmptyString = d.
Proof. split; reflexivity. Qed.

(** A query without pattern characters is read as itself. *)
Lemma simple_plain (q : string) :
  every (fun c => Regex.is_meta c = false) q ->
  Regex.simple q = Some (Regex.compile_escaped q).
Proof.
  induction q as [|c q IH]; simpl; [reflexivity|].
  intros [Hc Hq].
  assert (Hdot : PyStr.is_code 46 c = false).
  { destruct (PyStr.is_code 46 c) eqn:E; [|reflexivity].
    apply Nat.eqb_eq in E.
    assert (c = "."%char) as ->
      by (rewrite <- (ascii_nat_embedding c); unfold PyStr.code in E;
          rewrite E; reflexivity).
    discriminate. }
  rewrite Hdot, Hc, (IH Hq). reflexivity.
Qed.

Lemma match_here_literal (q text : string) :
  Regex.match_here (Regex.compile_escaped q) text
  = prefix (PyStr.lower q) (PyStr.lower text).
Proof.
  revert text. induction q as [|c q IH]; intros [|t text]; simpl;
    try reflexivity.
  rewrite IH. unfold Regex.item_matches.
  destruct (ascii_dec (PyStr.lower_char c) (PyStr.lower_char t)) as [E|E].
  - rewrite E, Ascii.eqb_refl. reflexivity.
  - apply Ascii.eqb_neq in E. rewrite E. reflexivity.
Qed.

Lemma search_literal (q text : string) :
  Regex.search (Regex.compile_escaped q) text
  = PyStr.contains (PyStr.lower q) (PyStr.lower text).
Proof.
  induction text as [|t text IH].
  - simpl. rewrite match_here_literal. reflexivity.
  - simpl Regex.search. simpl PyStr.lower at 2. simpl PyStr.contains.
    rewrite IH, match_here_literal. reflexivity.
Qed.

(** The mask entry of a row, read off the table's header. *)
Lemma row_hit_header (found : string -> bool) (d : DataFrame) (r : Row) :
  row_hit found (textual_columns d) r
  = existsb (fun ic => is_textual (snd (snd ic))
                       && found (str (iloc r (fst ic))))
            (enumerate (header d)).
Proof.
  unfold row_hit, textual_columns.
  induction (enumerate (header d)) as [|ic l IH]; simpl; [reflexivity|].
  destruct (is_textual (snd (snd ic))); simpl; rewrite IH; reflexivity.
Qed.

(** On a query made of ordinary characters only, [text_search] is the
    search of the specification. *)
Lemma text_search_plain_query (re : Regex.engine) (d : DataFrame) (q : string) :
  every (fun c => Regex.is_meta c = false) q ->
  text_search re d q = Some (search d q).
Proof.
  intros Hq. unfold text_search, search.
  destruct (PyStr.truthy q); simpl; [|reflexivity].
  assert (Hhit : forall r,
            row_hit (Regex.search (Regex.compile_escaped q)) (textual_columns d) r
            = literal_hit d q r).
  { intros r. rewrite row_hit_header. unfold literal_hit.
    induction (enumerate (header d)) as [|ic l IH]; simpl; [reflexivity|].
    rewrite IH, search_literal. reflexivity. }
  unfold Regex.compile. rewrite (simple_plain q Hq).
  destruct (textual_columns d) as [|i cols] eqn:E.
  - do 2 f_equal. apply map_ext. intros r.
    rewrite <- Hhit. reflexivity.
  - do 2 f_equal. apply map_ext. intros r. apply Hhit.
Qed.

(** C4 on the query ["a.c"]: the program reads the dot as a wildcard and
    returns the row "abc", which does not contain the three characters
    of the query; the cell formatter, which escapes the same term, finds
    nothing to highlight in that row. *)
Theorem text_search_reads_query_as_pattern (re : Regex.engine) :
  text_search re Samples.letters "a.c" = Some Samples.letters
  /\ search Samples.letters "a.c" = mkDF (header Samples.letters) []
  /\ PyStr.contains (PyStr.lower "a.c") (PyStr.lower "abc") = false
  /\ format_cell (Str "abc") (Some "a.c") = "abc".
Proof. vm_compute. repeat split. Qed.

End SearchFacts.

(* ===================================================================== *)
(** ** Export                                                             *)
(* ===================================================================== *)

Module ExportFacts.
Import Pandas App Spec Props PandasFacts PreviewFacts.
Local Open Scope list_scope.

(** *** The exported column *)

Lemma first_exportable_Some (cols : list string) (c : string) :
  first_exportable cols = Some c -> first_non_provenance cols c.
Proof.
  induction cols as [|x cols IH]; simpl; [discriminate|].
  destruct (String.eqb x Source_File) eqn:E; simpl.
  - intros H. destruct (IH H) as [before [after [H1 [H2 H3]]]].
    exists (x :: before), after. rewrite H1. repeat split; auto.
    constructor; [apply String.eqb_eq, E | exact H3].
  - intros [= ->]. exists [], cols. repeat split; auto.
    apply String.eqb_neq, E.
Qed.

Lemma first_exportable_None (cols : list string) :
  first_exportable cols = None -> forall c, ~ first_non_provenance cols c.
Proof.
  intros H c [before [after [H1 [H2 H3]]]].
  unfold first_exportable in H.
  assert (Hin : In c cols)
    by (rewrite H1; apply in_or_app; right; left; reflexivity).
  pose proof (find_none _ _ H c Hin) as Hf.
  apply negb_false_iff, String.eqb_eq in Hf. contradiction.
Qed.

Lemma first_non_provenance_unique (cols : list string) (c c' : string) :
  first_non_provenance cols c -> first_exportable cols = Some c' -> c' = c.
Proof.
  intros [before [after [-> [H2 H3]]]].
  induction before as [|x before IH]; simpl.
  - apply String.eqb_neq in H2. rewrite H2. simpl. congruence.
  - inversion H3 as [|? ? Hx Hb]; subst.
    rewrite String.eqb_refl. simpl. apply IH, Hb.
Qed.

Lemma first_exportable_iff (cols : list string) (c : string) :
  first_exportable cols = Some c <-> first_non_provenance cols c.
Proof.
  split; [apply first_exportable_Some|].
  intros H. destruct (first_exportable cols) as [c'|] eqn:E.
  - f_equal. apply (first_non_provenance_unique cols c c' H E).
  - exfalso. apply (first_exportable_None cols E c H).
Qed.

(** The frame whose columns the export section goes through. *)
Lemma column_to_export_frame (final shown : DataFrame) :
  column_to_export final shown
  = match (if negb (empty final) then Some final
           else if negb (empty shown) then Some shown
           else None) with
    | Some frame => first_exportable (columns frame)
    | None => None
    end.
Proof.
  unfold column_to_export.
  destruct (negb (empty final)); [reflexivity|].
  destruct (negb (empty shown)); reflexivity.
Qed.

Lemma export_example :
  assemble_export Samples.all_selected Samples.displayed
  = [Str "age_years"; Str "height_cm"; Str "weight_kg"].
Proof. vm_compute. reflexivity. Qed.

(** *** The written sheet *)

Lemma sheet_is_not_one_column :
  sheet (export Samples.all_selected Samples.displayed)
  <> one_column (assemble_export Samples.all_selected Samples.displayed).
Proof. vm_compute. discriminate. Qed.

Lemma export_frame_is_one_row (checkbox : checkboxes) (filtered : DataFrame) :
  sheet (export checkbox filtered) = [assemble_export checkbox filtered].
Proof. reflexivity. Qed.

(** The cells of a row of values written from column [start] on. *)
Lemma find_in_row (vs : list cell) :
  forall start i j,
    option_map snd
      (find (fun c : nat * nat * cell =>
               Nat.eqb (fst (fst c)) i && Nat.eqb (snd (fst c)) j)
            (map (fun jv : nat * cell => ((0, fst jv), snd jv))
                 (combine (seq start (List.length vs)) vs)))
    = if Nat.eqb i 0 && Nat.leb start j then nth_error vs (j - start) else None.
Proof.
  induction vs as [|v vs IH]; intros start i j; simpl.
  - destruct (Nat.eqb i 0 && Nat.leb start j); [|reflexivity].
    destruct (j - start); reflexivity.
  - destruct i as [|i]; simpl.
    + destruct (Nat.eqb start j) eqn:E.
      * apply Nat.eqb_eq in E. subst j.
        rewrite Nat.leb_refl, Nat.sub_diag. reflexivity.
      * apply Nat.eqb_neq in E. rewrite IH. cbn [Nat.eqb andb].
        destruct (Nat.leb start j) eqn:L.
        -- apply Nat.leb_le in L.
           assert (L' : Nat.leb (S start) j = true) by (apply Nat.leb_le; lia).
           rewrite L'. replace (j - start) with (S (j - S start)) by lia.
           reflexivity.
        -- apply Nat.leb_gt in L.
           assert (L' : Nat.leb (S start) j = false) by (apply Nat.leb_gt; lia).
           rewrite L'. reflexivity.
    + rewrite IH. reflexivity.
Qed.

Lemma row_written (vs : list cell) (i j : nat) :
  Workbook.cell_at (Workbook.to_excel [vs]) i j = in_one_row vs i j.
Proof.
  unfold Workbook.cell_at, Workbook.to_excel, enumerate, in_one_row. simpl.
  rewrite app_nil_r, find_in_row. rewrite Nat.sub_0_r.
  destruct (Nat.eqb i 0); reflexivity.
Qed.

(** C2, refuted as stated: with three ticked rows the second value is
    written to the second column of the first row, where a sheet of one
    column has no cell. *)
Lemma second_value_is_in_second_column :
  ~ (forall i j,
       Workbook.cell_at (Workbook.written Samples.all_selected Samples.displayed) i j
       = in_one_column (assemble_export Samples.all_selected Samples.displayed) i j).
Proof.
  intros H. specialize (H 0 1). vm_compute in H. discriminate.
Qed.

(** C2, amended: the download is called [new_meta_schema.xlsx]; its
    sheet, written without header and without index, holds the values of
    the export in its first row, the value number [j] in column number
    [j], and no other cell (no cell at all when nothing is exported). *)
Theorem sheet_is_one_row (checkbox : checkboxes) (filtered : DataFrame) :
  download (export checkbox filtered) = "new_meta_schema.xlsx"
  /\ (forall i j,
        Workbook.cell_at (Workbook.written checkbox filtered) i j
        = in_one_row (assemble_export checkbox filtered) i j)
  /\ List.length (Workbook.written checkbox filtered)
     = List.length (assemble_export checkbox filtered).
Proof.
  split; [reflexivity|]. unfold Workbook.written.
  rewrite export_frame_is_one_row. split.
  - intros i j. apply row_written.
  - unfold Workbook.to_excel, enumerate. simpl.
    rewrite app_nil_r, length_map, length_combine, length_seq.
    apply Nat.min_id.
Qed.

(** *** Export without a ticked row *)

Lemma export_values_of_empty (final : DataFrame) (column : option string) :
  empty final = true -> export_values final column = [].
Proof.
  intros H. destruct column as [c|]; simpl; [|reflexivity].
  rewrite H. destruct (PyStr.truthy c); reflexivity.
Qed.

Lemma select_mask_none {A : Type} (m : list bool) (l : list A) :
  Forall (fun b => b = false) m -> select_mask m l = [].
Proof.
  revert l. induction m as [|b m IH]; intros [|x l] H; simpl; try reflexivity.
  inversion H as [|? ? Hb Hm]; subst. apply IH, Hm.
Qed.

Lemma unticked_cell (i : nat) (vs : list cell) :
  is_True (nth i (set_nth i (Bool false) vs) NaN) = false.
Proof.
  revert i. induction vs as [|v vs IH]; intros [|i]; simpl; try reflexivity.
  apply IH.
Qed.

(** With no box ticked, every row of a group's selection table has
    [Select] unset. *)
Lemma select_group_unticked (parent_col : string) (group : DataFrame) (r : Row) :
  In r (rows (select_group Samples.none_selected parent_col group)) ->
  is_True (at_col (select_group Samples.none_selected parent_col group) r Select)
  = false.
Proof.
  intros Hr. unfold select_group in *.
  set (shown := assign Select other (fun _ => Bool false)
                       (display_group parent_col group)) in *.
  cbv zeta in *. unfold at_col.
  change (columns {| header := header shown; rows := ?x |}) with (columns shown).
  cbn [rows] in Hr. apply in_map_iff in Hr. destruct Hr as [[i row] [<- _]].
  destruct (index_of Select (columns shown)) as [j|]; [|reflexivity].
  unfold iloc. cbn [values snd]. apply unticked_cell.
Qed.

Lemma select_group_header (checkbox : checkboxes) (parent_col : string)
    (h : list (string * dtype)) (rs rs' : list Row) :
  header (select_group checkbox parent_col (mkDF h rs))
  = header (select_group checkbox parent_col (mkDF h rs')).
Proof. reflexivity. Qed.

Lemma relabel_values (rs : list Row) (r : Row) :
  In r (relabel rs) -> exists r0, In r0 rs /\ values r = values r0.
Proof.
  unfold relabel. intros H. apply in_map_iff in H.
  destruct H as [[i r0] [<- Hin]]. apply in_combine_r in Hin.
  exists r0. split; [exact Hin | reflexivity].
Qed.

(** Without a ticked row nothing is exported, whatever is displayed. *)
Lemma nothing_ticked_nothing_exported (filtered : DataFrame) :
  assemble_export Samples.none_selected filtered = []
  /\ sheet (export Samples.none_selected filtered) = [[]].
Proof.
  assert (Hexp : assemble_export Samples.none_selected filtered = []).
  { unfold assemble_export. apply export_values_of_empty.
    unfold final_filtered.
    set (editable := editable_table Samples.none_selected filtered).
    destruct (negb (empty editable)) eqn:Ee; [|reflexivity].
    unfold empty. apply orb_true_iff. left. apply Nat.eqb_eq.
    unfold nrows, drop, keep_columns, select_rows. simpl.
    rewrite length_map.
    rewrite select_mask_none; [reflexivity|].
    apply Forall_map, Forall_forall. intros r Hr.
    unfold editable, editable_table in *.
    destruct (editable_rows Samples.none_selected filtered)
      as [|f frames] eqn:Erows; [destruct Hr|].
    unfold editable_rows in Erows.
    destruct (empty filtered); [discriminate|].
    destruct (columns filtered) as [|parent_col rest]; [discriminate|].
    unfold groupby in Erows. rewrite map_map in Erows. simpl in Erows.
    set (h := header (keyed filtered)) in *.
    set (groups := groupby_rows _ _) in Erows.
    change (In r (relabel (flat_map rows (f :: frames)))) in Hr.
    apply relabel_values in Hr. destruct Hr as [r0 [Hin Hval]].
    rewrite <- Erows in Hin. apply in_flat_map in Hin.
    destruct Hin as [fr [Hfr Hr0]]. apply in_map_iff in Hfr.
    destruct Hfr as [g [<- Hg]].
    pose proof (select_group_unticked parent_col (mkDF h (snd g)) r0 Hr0) as Hu.
    assert (Hf : header f
                 = header (select_group Samples.none_selected parent_col
                                        (mkDF h (snd g)))).
    { destruct groups as [|g0 groups']; [discriminate|].
      simpl in Erows. injection Erows as <- _. apply select_group_header. }
    unfold at_col, concat, columns in *. simpl header.
    rewrite Hf. unfold iloc in *. rewrite Hval. exact Hu. }
  split; [exact Hexp|].
  unfold export, col_data. unfold assemble_export in Hexp. rewrite Hexp.
  reflexivity.
Qed.

(** C1 on a displayed table of three rows with no box ticked: the
    fall-back picks the column [Concept] of the displayed table, whose
    three values are all present, and still the export is empty. *)
Theorem export_without_selection_is_empty :
  let final :=
    final_filtered (editable_table Samples.none_selected Samples.displayed) in
  column_to_export final (keyed Samples.displayed) = Some "Concept"
  /\ non_empty_values (keyed Samples.displayed) "Concept"
     = [Str "Age"; Str "Height"; Str "Weight"]
  /\ assemble_export Samples.none_selected Samples.displayed = []
  /\ sheet (export Samples.none_selected Samples.displayed) = [[]].
Proof. vm_compute. repeat split. Qed.

End ExportFacts.

(* ===================================================================== *)
(** ** More on the normaliser                                             *)
(* ===================================================================== *)

Module NormalizerMore.
Import PyStr Normalizer Spec Props PyStrFacts NormalizerFacts.

Lemma settled_key_char (c : ascii) : settled c -> key_char c.
Proof.
  each_char c; intros (H1 & H2 & H3 & H4);
    first [ discriminate H1 | discriminate H2 | discriminate H3
          | (specialize (H4 eq_refl); discriminate H4)
          | (left; split; reflexivity)
          | (right; left; reflexivity)
          | (right; right; left; reflexivity)
          | (right; right; right; left; reflexivity)
          | (right; right; right; right; reflexivity) ].
Qed.

(** Every character of a key is alphanumeric and unchanged by
    lower-casing, or is a space, a parenthesis or a slash: no
    underscore, no hyphen and no white space other than the plain space
    survives. *)
Theorem normalize_alphabet (s : string) : every key_char (normalize s).
Proof.
  eapply every_impl; [apply settled_key_char | apply normalize_settled].
Qed.

(** *** Letter case and surrounding white space do not matter *)

Lemma isspace_lower_char (c : ascii) : isspace (lower_char c) = isspace c.
Proof. each_char c; reflexivity. Qed.

Lemma lower_lstrip (s : string) : lower (lstrip s) = lstrip (lower s).
Proof.
  induction s as [|c s IH]; simpl; [reflexivity|].
  rewrite isspace_lower_char. destruct (isspace c); [exact IH | reflexivity].
Qed.

Lemma lower_rstrip (s : string) : lower (rstrip s) = rstrip (lower s).
Proof.
  induction s as [|c s IH]; simpl; [reflexivity|].
  rewrite <- IH, isspace_lower_char.
  destruct (rstrip s) as [|d r]; simpl; [|reflexivity].
  destruct (isspace c); reflexivity.
Qed.

Lemma lower_strip (s : string) : lower (strip s) = strip (lower s).
Proof. unfold strip. rewrite lower_lstrip, lower_rstrip. reflexivity. Qed.

Lemma lstrip_fixed (t : string) : leading_ws t = false -> lstrip t = t.
Proof. destruct t as [|c t]; simpl; [reflexivity|]. intros ->. reflexivity. Qed.

Lemma rstrip_fixed (t : string) : trailing_ws t = false -> rstrip t = t.
Proof.
  induction t as [|c t IH]; [reflexivity|].
  intros H. destruct t as [|d t'].
  - simpl in H. simpl. rewrite H. reflexivity.
  - rewrite trailing_cons in H.
    change (rstrip (String c (String d t')))
      with (match rstrip (String d t') with
            | EmptyString => if isspace c then EmptyString else String c EmptyString
            | r => String c r
            end).
    rewrite (IH H). reflexivity.
Qed.

Lemma strip_idem (s : string) : strip (strip s) = strip s.
Proof.
  destruct (strip_edges s) as [Hl Ht].
  unfold strip at 1. rewrite (rstrip_fixed _ Ht). apply lstrip_fixed, Hl.
Qed.

Lemma lower_idem (s : string) : lower (lower s) = lower s.
Proof. apply lower_fixed, every_lower. Qed.

(** Two strings that differ only in letter case, or only in white space
    around them, have the same key. *)
Theorem normalize_ignores_case_and_margins (s : string) :
  normalize (lower s) = normalize s /\ normalize (strip s) = normalize s.
Proof.
  unfold normalize. split.
  - rewrite lower_idem. reflexivity.
  - rewrite lower_strip, strip_idem. reflexivity.
Qed.

End NormalizerMore.

(* ===================================================================== *)
(** ** More on de-duplication                                             *)
(* ===================================================================== *)

Module DedupMore.
Import Pandas App Spec Props PandasFacts DedupFacts PreviewFacts.
Local Open Scope list_scope.

Lemma select_mask_map {A B : Type} (f : A -> B) (mask : list bool) (l : list A) :
  select_mask mask (map f l) = map f (select_mask mask l).
Proof.
  revert mask. induction l as [|x l IH]; intros [|b mask]; simpl;
    try reflexivity.
  rewrite IH. destruct b; reflexivity.
Qed.

(** The keys that are not flagged are pairwise distinct and new. *)
Lemma unflagged_keys (keys : list cell) :
  forall seen,
    NoDup (select_mask (map negb (duplicated_from seen keys)) keys)
    /\ (forall k,
          In k (select_mask (map negb (duplicated_from seen keys)) keys) ->
          existsb (cell_eqb k) seen = false).
Proof.
  induction keys as [|k keys IH]; intros seen; simpl.
  - split; [constructor | intros k []].
  - destruct (existsb (cell_eqb k) seen) eqn:E; simpl.
    + apply IH.
    + destruct (IH (k :: seen)) as [Hnd Hnew]. split.
      * constructor; [|exact Hnd]. intros Hin.
        specialize (Hnew k Hin). simpl in Hnew.
        rewrite cell_eqb_refl in Hnew. discriminate.
      * intros k' [<- | Hin]; [exact E|].
        specialize (Hnew k' Hin). simpl in Hnew.
        apply orb_false_iff in Hnew. apply Hnew.
Qed.

(** Distinct new keys are never flagged. *)
Lemma duplicated_fresh (keys : list cell) :
  forall seen,
    NoDup keys ->
    (forall k, In k keys -> existsb (cell_eqb k) seen = false) ->
    duplicated_from seen keys = map (fun _ => false) keys.
Proof.
  induction keys as [|k keys IH]; intros seen Hnd Hnew; simpl; [reflexivity|].
  inversion Hnd as [|? ? Hk Hnd']; subst.
  rewrite (Hnew k) by (left; reflexivity). f_equal.
  apply IH; [exact Hnd'|]. intros k' Hin. simpl.
  rewrite (Hnew k') by (right; exact Hin).
  rewrite orb_false_r. apply cell_eqb_neq. intros ->. contradiction.
Qed.

Lemma two_columns_branch (d : DataFrame) :
  1 < ncols d ->
  deduplication d
  = mkDedup (select_rows (keep_mask d) d) (select_rows (duplicates_mask d) d) [].
Proof.
  intros H. unfold deduplication.
  assert (E : (1 <? ncols (normalized_df d))%nat = true) by (apply Nat.ltb_lt; exact H).
  rewrite E. reflexivity.
Qed.

Lemma kept_keys (d : DataFrame) :
  map (dedup_key d) (select_mask (keep_mask d) (rows d))
  = select_mask (map negb (duplicated (map (dedup_key d) (rows d))))
                (map (dedup_key d) (rows d)).
Proof.
  unfold keep_mask. rewrite duplicates_mask_keys, select_mask_map. reflexivity.
Qed.

Lemma kept_shadow_keys_distinct (d : DataFrame) :
  1 < ncols d ->
  NoDup (map (dedup_key d) (rows (df (deduplication d)))).
Proof.
  intros Hcols. rewrite (two_columns_branch d Hcols). simpl. rewrite kept_keys.
  apply (unflagged_keys _ []).
Qed.

Lemma kept_row_is_full (d : DataFrame) (r : Row) :
  rectangular d ->
  In r (rows (df (deduplication d))) ->
  List.length (values r) = ncols d.
Proof.
  intros Hrect Hin. unfold rectangular in Hrect. rewrite Forall_forall in Hrect.
  apply Hrect. unfold deduplication in Hin.
  destruct (1 <? ncols (normalized_df d))%nat; simpl in Hin; [|exact Hin].
  apply select_In in Hin. destruct Hin as [i [_ Hi]].
  apply nth_error_In in Hi. exact Hi.
Qed.

(** After de-duplication no two kept rows have the same key, the key of
    a row being the normalised string form of its second cell when the
    second column is textual and the second cell itself otherwise. *)
Theorem kept_keys_distinct (d : DataFrame)
    (Hcols : 1 < ncols d)
    (Hrect : rectangular d) :
  NoDup (map (compared_key d) (rows (df (deduplication d)))).
Proof.
  rewrite <- (map_ext_in (dedup_key d) (compared_key d)).
  - apply kept_shadow_keys_distinct, Hcols.
  - intros r Hr. apply dedup_key_compared; [exact Hcols|].
    apply kept_row_is_full; assumption.
Qed.

Lemma kept_keys_distinct_witness :
  1 < ncols Samples.concepts
  /\ rectangular Samples.concepts
  /\ map (compared_key Samples.concepts)
         (rows (df (deduplication Samples.concepts)))
     = [Str "years old"; Str "cm"]
  /\ NoDup (map (compared_key Samples.concepts)
                (rows (df (deduplication Samples.concepts)))).
Proof.
  assert (H1 : 1 < ncols Samples.concepts) by (vm_compute; lia).
  assert (H2 : rectangular Samples.concepts)
    by (unfold rectangular; simpl; repeat constructor).
  split; [exact H1 | split; [exact H2 | split; [reflexivity|]]].
  exact (kept_keys_distinct Samples.concepts H1 H2).
Defined.

Lemma all_false_none {A : Type} (l : list A) (xs : list A) :
  select_mask (map (fun _ => false) l) xs = [].
Proof.
  revert xs. induction l as [|y l IH]; intros [|x xs]; simpl; auto.
Qed.

Lemma all_true_every {A B : Type} (l : list B) :
  forall xs : list A, List.length l = List.length xs ->
  select_mask (map negb (map (fun _ => false) l)) xs = xs.
Proof.
  induction l as [|y l IH]; intros [|x xs] H; simpl in *; try discriminate;
    [reflexivity|].
  injection H as H. rewrite (IH _ H). reflexivity.
Qed.

(** De-duplicating the kept table again keeps all of it and removes
    nothing. *)
Theorem deduplication_idempotent (d : DataFrame) (Hcols : 1 < ncols d) :
  let kept := df (deduplication d) in
  df (deduplication kept) = kept
  /\ rows (removed_df (deduplication kept)) = []
  /\ warnings (deduplication kept) = [].
Proof.
  intros kept.
  assert (Hkept : kept = select_rows (keep_mask d) d)
    by (unfold kept; rewrite (two_columns_branch d Hcols); reflexivity).
  assert (Hcols' : 1 < ncols kept) by (rewrite Hkept; exact Hcols).
  assert (Hkeys : map (dedup_key kept) (rows kept)
                  = map (dedup_key d) (rows kept)).
  { apply map_ext. intros r. rewrite Hkept. reflexivity. }
  assert (Hmask : duplicates_mask kept = map (fun _ => false) (rows kept)).
  { rewrite duplicates_mask_keys, Hkeys. unfold duplicated.
    assert (Hnd : NoDup (map (dedup_key d) (rows kept))).
    { rewrite Hkept. simpl. rewrite kept_keys. apply (unflagged_keys _ []). }
    rewrite (duplicated_fresh _ [] Hnd) by reflexivity.
    rewrite map_map. reflexivity. }
  rewrite (two_columns_branch kept Hcols'). simpl.
  unfold keep_mask. rewrite Hmask. repeat split.
  - unfold select_rows. rewrite all_true_every by reflexivity.
    destruct kept; reflexivity.
  - apply all_false_none.
Qed.

Lemma deduplication_idempotent_witness :
  1 < ncols Samples.concepts
  /\ (let kept := df (deduplication Samples.concepts) in
      df (deduplication kept) = kept
      /\ rows (removed_df (deduplication kept)) = []
      /\ warnings (deduplication kept) = []).
Proof.
  assert (H : 1 < ncols Samples.concepts) by (vm_compute; lia).
  split; [exact H | exact (deduplication_idempotent Samples.concepts H)].
Defined.

Lemma first_never_flagged (keys : list cell) :
  hd_error (duplicated keys) = hd_error (map (fun _ => false) keys).
Proof. destruct keys; reflexivity. Qed.

(** The two tables share out the rows: their sizes add up to the size
    of the input (the "rows removed" figure is the size of the removed
    table), and the first row of the input is always kept. *)
Theorem deduplication_counts (d : DataFrame) :
  nrows (df (deduplication d)) + nrows (removed_df (deduplication d)) = nrows d
  /\ hd_error (rows (df (deduplication d))) = hd_error (rows d).
Proof.
  unfold deduplication.
  destruct (1 <? ncols (normalized_df d))%nat; simpl.
  - split.
    + unfold nrows. simpl. rewrite <- length_app.
      apply Permutation_length. unfold keep_mask.
      apply select_perm, duplicates_mask_length.
    + unfold keep_mask. rewrite duplicates_mask_keys.
      destruct (rows d) as [|r rs]; reflexivity.
  - split; [unfold nrows; simpl; lia | reflexivity].
Qed.

(** In a textual key column all missing cells share one key: of the rows
    without a second cell only the first is kept. *)
Theorem missing_keys_are_duplicates (d : DataFrame)
    (h0 : string * dtype) (c1 : string) (rest : list (string * dtype))
    (i j : nat) (ri rj : Row) (vi vj : cell) (ti tj : list cell)
    (Hheader : header d = h0 :: (c1, textual) :: rest)
    (Hlabels : NoDup (map name (rows d)))
    (Hij : i < j)
    (Hi : nth_error (rows d) i = Some ri)
    (Hj : nth_error (rows d) j = Some rj)
    (Hvi : values ri = vi :: NaN :: ti)
    (Hvj : values rj = vj :: NaN :: tj) :
  In rj (rows (removed_df (deduplication d)))
  /\ ~ In rj (rows (df (deduplication d))).
Proof.
  assert (Hcols : 1 < ncols d) by (unfold ncols; rewrite Hheader; simpl; lia).
  assert (Hkey : forall r v t, values r = v :: NaN :: t -> dedup_key d r = Str "nan").
  { intros r v t Hv. unfold dedup_key, normalize_row, iloc. simpl.
    rewrite Hheader, Hv. destruct h0. reflexivity. }
  rewrite (two_columns_branch d Hcols). simpl.
  pose proof (rows_NoDup _ Hlabels) as Hnd.
  destruct (duplicates_mask_at d j rj Hj) as [b [Hb Hiff]].
  assert (b = true) as ->.
  { apply Hiff. exists i, ri. repeat split; [exact Hij | exact Hi|].
    rewrite (Hkey _ _ _ Hvi), (Hkey _ _ _ Hvj). reflexivity. }
  split.
  - apply (select_at _ _ j rj Hnd Hj). exact Hb.
  - intros Hin. apply (select_at _ _ j rj Hnd Hj) in Hin.
    unfold keep_mask in Hin. rewrite nth_error_map, Hb in Hin. discriminate.
Qed.

Lemma missing_keys_are_duplicates_witness :
  In (mkRow 2 [Str "Weight"; NaN])
     (rows (removed_df (deduplication Fixtures.gaps)))
  /\ ~ In (mkRow 2 [Str "Weight"; NaN])
          (rows (df (deduplication Fixtures.gaps))).
Proof.
  apply (missing_keys_are_duplicates Fixtures.gaps
           ("Concept", textual) "Definition" [] 0 2
           (mkRow 0 [Str "Age"; NaN]) (mkRow 2 [Str "Weight"; NaN])
           (Str "Age") (Str "Weight") [] []);
    try reflexivity; [distinct_labels | lia].
Defined.

End DedupMore.

(* ===================================================================== *)
(** ** More on the global search                                          *)
(* ===================================================================== *)

Module SearchMore.
Import Pandas Spec Props PandasFacts SearchFacts.
Local Open Scope list_scope.

Lemma select_mask_filter {A : Type} (f : A -> bool) (l : list A) :
  select_mask (map f l) l = filter f l.
Proof.
  induction l as [|x l IH]; simpl; [reflexivity|].
  rewrite IH. reflexivity.
Qed.

Lemma filter_idem {A : Type} (f : A -> bool) (l : list A) :
  filter f (filter f l) = filter f l.
Proof.
  induction l as [|x l IH]; simpl; [reflexivity|].
  destruct (f x) eqn:E; simpl; [rewrite E|]; rewrite IH; reflexivity.
Qed.

Lemma textual_columns_header (d d2 : DataFrame) :
  header d2 = header d -> textual_columns d2 = textual_columns d.
Proof. unfold textual_columns. intros ->. reflexivity. Qed.

(** A search with a non-empty query that returns is a row filter, the
    same one on every table with the same header. *)
Lemma text_search_filters (re : Regex.engine) (d d' : DataFrame) (q : string) :
  PyStr.truthy q = true ->
  text_search re d q = Some d' ->
  exists hit,
    forall d2, header d2 = header d ->
               text_search re d2 q = Some (mkDF (header d2) (filter hit (rows d2))).
Proof.
  intros Hq Hres. unfold text_search in Hres. rewrite Hq in Hres. simpl in Hres.
  destruct (textual_columns d) as [|i cols] eqn:E.
  - exists (fun _ => false). intros d2 Hh. unfold text_search.
    rewrite Hq, (textual_columns_header d d2 Hh), E. simpl.
    unfold select_rows. rewrite select_mask_filter. reflexivity.
  - destruct (Regex.compile re q) as [found|] eqn:Ec; [|discriminate].
    exists (row_hit found (i :: cols)). intros d2 Hh. unfold text_search.
    rewrite Hq, (textual_columns_header d d2 Hh), E, Ec. simpl.
    unfold select_rows. rewrite select_mask_filter. reflexivity.
Qed.

Lemma text_search_untouched (re : Regex.engine) (d d' : DataFrame) (q : string) :
  PyStr.truthy q = false -> text_search re d q = Some d' -> d' = d.
Proof.
  intros Hq Hres. unfold text_search in Hres. rewrite Hq in Hres.
  simpl in Hres. congruence.
Qed.





(** Whatever the query, searching the result of a search again with the
    same query returns that result. *)
Theorem text_search_idempotent (re : Regex.engine) (d d' : DataFrame)
    (q : string) (Hres : text_search re d q = Some d') :
  text_search re d' q = Some d'.
Proof.
  destruct (PyStr.truthy q) eqn:Hq.
  - destruct (text_search_filters re d d' q Hq Hres) as [hit Hhit].
    pose proof Hres as Hd'. rewrite (Hhit d eq_refl) in Hd'.
    injection Hd' as <-.
    rewrite (Hhit (mkDF (header d) (filter hit (rows d))) eq_refl).
    simpl. rewrite filter_idem. reflexivity.
  - pose proof (text_search_untouched re d d' q Hq Hres) as Heq.
    subst d'. exact Hres.
Qed.

Lemma text_search_idempotent_witness :
  text_search Fixtures.strict Fixtures.catalogue "age"
  = Some (mkDF (header Fixtures.catalogue)
      [mkRow 0 [Str "Age"; Str "years old"; Str "age_years"; Str "a"];
       mkRow 3 [Str "age"; Str "in months"; Str "age_months"; NaN]])
  /\ text_search Fixtures.strict
       (mkDF (header Fixtures.catalogue)
          [mkRow 0 [Str "Age"; Str "years old"; Str "age_years"; Str "a"];
           mkRow 3 [Str "age"; Str "in months"; Str "age_months"; NaN]])
       "age"
     = Some (mkDF (header Fixtures.catalogue)
          [mkRow 0 [Str "Age"; Str "years old"; Str "age_years"; Str "a"];
           mkRow 3 [Str "age"; Str "in months"; Str "age_months"; NaN]]).
Proof.
  assert (H : text_search Fixtures.strict Fixtures.catalogue "age"
              = Some (mkDF (header Fixtures.catalogue)
      [mkRow 0 [Str "Age"; Str "years old"; Str "age_years"; Str "a"];
       mkRow 3 [Str "age"; Str "in months"; Str "age_months"; NaN]]))
    by reflexivity.
  split; [exact H | exact (text_search_idempotent _ _ _ _ H)].
Defined.

Lemma no_textual_column (d : DataFrame) :
  Forall (fun h => snd h = other) (header d) -> textual_columns d = [].
Proof.
  intros Hall. unfold textual_columns.
  assert (H : filter (fun ic : nat * (string * dtype) => is_textual (snd (snd ic)))
                     (enumerate (header d)) = []); [|rewrite H; reflexivity].
  assert (Hin : forall ic, In ic (enumerate (header d)) ->
                           is_textual (snd (snd ic)) = false).
  { intros [i h] Hic. apply in_combine_r in Hic.
    rewrite Forall_forall in Hall. simpl. rewrite (Hall h Hic). reflexivity. }
  induction (enumerate (header d)) as [|ic l IH]; simpl; [reflexivity|].
  rewrite (Hin ic) by (left; reflexivity).
  apply IH. intros ic' H'. apply Hin. right. exact H'.
Qed.

Lemma filter_none {A : Type} (f : A -> bool) (l : list A) :
  (forall x, f x = false) -> filter f l = [].
Proof.
  intros H. induction l as [|x l IH]; simpl; [reflexivity|].
  rewrite H. exact IH.
Qed.

(** Columns that are not textual are never searched: on a table without
    a textual column every non-empty query, valid pattern or not,
    returns the table without its rows. *)
Theorem text_search_skips_other_columns (re : Regex.engine) (d : DataFrame)
    (q : string)
    (Hcols : Forall (fun h => snd h = other) (header d))
    (Hq : PyStr.truthy q = true) :
  text_search re d q = Some (mkDF (header d) []).
Proof.
  unfold text_search. rewrite Hq, (no_textual_column d Hcols). simpl.
  unfold select_rows. rewrite select_mask_filter, filter_none; reflexivity.
Qed.

Lemma text_search_skips_other_columns_witness :
  Forall (fun h => snd h = other) (header Fixtures.counts)
  /\ PyStr.truthy "(" = true
  /\ text_search Fixtures.strict Fixtures.counts "("
     = Some (mkDF (header Fixtures.counts) []).
Proof.
  assert (H1 : Forall (fun h => snd h = other) (header Fixtures.counts))
    by (simpl; repeat constructor).
  assert (H2 : PyStr.truthy "(" = true) by reflexivity.
  split; [exact H1 | split; [exact H2|]].
  exact (text_search_skips_other_columns Fixtures.strict _ _ H1 H2).
Defined.

Lemma text_search_plain_query_witness :
  every (fun c => Regex.is_meta c = false) "years"
  /\ text_search Fixtures.strict Samples.concepts "years"
     = Some (search Samples.concepts "years").
Proof.
  assert (H : every (fun c => Regex.is_meta c = false) "years")
    by (simpl; repeat split).
  split; [exact H|].
  exact (text_search_plain_query Fixtures.strict Samples.concepts "years" H).
Defined.

End SearchMore.

(* ===================================================================== *)
(** ** More on grouping and the preview                                   *)
(* ===================================================================== *)

Module PreviewMore.
Import Pandas Spec Props PandasFacts GroupingFacts PreviewFacts.
Local Open Scope list_scope.

(** *** Groups share out the rows *)

Lemma flat_map_members_snoc (key : Row -> cell) (rs : list Row) (r : Row)
    (L : list cell) :
  NoDup L ->
  Permutation
    (flat_map (fun k => members key k (rs ++ [r])) L)
    (flat_map (fun k => members key k rs) L
     ++ (if existsb (cell_eqb (key r)) L then [r] else [])).
Proof.
  induction L as [|k L IH]; intros Hnd; simpl; [constructor|].
  inversion Hnd as [|? ? Hk Hnd']; subst. specialize (IH Hnd').
  rewrite members_snoc.
  destruct (cell_eqb (key r) k) eqn:E; simpl.
  - assert (Hnot : existsb (cell_eqb (key r)) L = false).
    { destruct (existsb (cell_eqb (key r)) L) eqn:E'; [|reflexivity].
      apply existsb_In in E'. apply cell_eqb_eq in E. congruence. }
    rewrite Hnot, app_nil_r in IH.
    rewrite <- !app_assoc. apply Permutation_app_head.
    simpl. rewrite IH. apply Permutation_cons_append.
  - rewrite app_nil_r, <- app_assoc. apply Permutation_app_head, IH.
Qed.

Lemma members_partition (key : Row -> cell) (rs : list Row) :
  Permutation (flat_map (fun k => members key k rs) (first_seen (map key rs))) rs.
Proof.
  induction rs as [|r rs IH] using rev_ind; [constructor|].
  rewrite map_app. simpl. rewrite first_seen_snoc.
  destruct (existsb (cell_eqb (key r)) (map key rs)) eqn:E.
  - rewrite (flat_map_members_snoc key rs r _ (first_seen_NoDup _)).
    rewrite existsb_first_seen, E. apply Permutation_app_tail, IH.
  - rewrite flat_map_app. simpl. rewrite app_nil_r.
    rewrite (flat_map_members_snoc key rs r _ (first_seen_NoDup _)).
    rewrite existsb_first_seen, E, app_nil_r.
    rewrite members_snoc, cell_eqb_refl, (members_absent _ _ _ E). simpl.
    apply Permutation_app_tail, IH.
Qed.

Lemma members_present (key : Row -> cell) (k : cell) (rs : list Row) :
  In k (first_seen (map key rs)) -> members key k rs <> [].
Proof.
  intros Hin. apply existsb_In in Hin. rewrite existsb_first_seen in Hin.
  apply existsb_In, in_map_iff in Hin. destruct Hin as [r [Hk Hr]].
  intros Hnil.
  assert (Hm : In r (members key k rs)).
  { unfold members. apply filter_In. split; [exact Hr|].
    apply cell_eqb_eq, Hk. }
  rewrite Hnil in Hm. destruct Hm.
Qed.

Lemma flat_map_map {A B C : Type} (f : B -> list C) (g : A -> B) (l : list A) :
  flat_map f (map g l) = flat_map (fun x => f (g x)) l.
Proof.
  induction l as [|x l IH]; simpl; [reflexivity|]. rewrite IH. reflexivity.
Qed.

Lemma flat_map_map_out {A B C : Type} (f : A -> list B) (g : B -> C) (l : list A) :
  flat_map (fun x => map g (f x)) l = map g (flat_map f l).
Proof.
  induction l as [|x l IH]; simpl; [reflexivity|].
  rewrite IH, map_app. reflexivity.
Qed.

(** The groups of the table keyed on its first column. *)
Lemma keyed_groups (d : DataFrame) (parent_col : string) (child_cols : list string) :
  columns d = parent_col :: child_cols ->
  rectangular d ->
  groupby group_key_col (add_group_key parent_col d)
  = map (fun k =>
           (k, mkDF (header (add_group_key parent_col d))
                    (map (assign_row (index_of group_key_col (columns d)) parent_key)
                         (members parent_key k (rows d)))))
        (first_seen (map parent_key (rows d))).
Proof.
  intros Hcols Hrect.
  set (with_key := assign_row (index_of group_key_col (columns d)) parent_key).
  assert (Hkeyed : add_group_key parent_col d
                   = assign group_key_col textual parent_key d)
    by apply (add_group_key_assign _ _ _ Hcols).
  rewrite Hkeyed.
  assert (Hat : forall r, In r (rows d) ->
                  at_col (assign group_key_col textual parent_key d)
                         (with_key r) group_key_col
                  = parent_key r).
  { intros r Hr. apply assign_at.
    unfold rectangular in Hrect. rewrite Forall_forall in Hrect. auto. }
  unfold groupby.
  change (rows (assign group_key_col textual parent_key d))
    with (map with_key (rows d)).
  rewrite groupby_rows_spec.
  - rewrite map_map. simpl.
    rewrite (map_map with_key), (map_ext_in _ parent_key _ Hat).
    apply map_ext. intros k. f_equal. f_equal.
    unfold members. rewrite filter_map_swap. f_equal.
    apply filter_ext_in. intros r Hr. rewrite (Hat r Hr). reflexivity.
  - apply Forall_map, Forall_forall. intros r Hr.
    rewrite (Hat r Hr). reflexivity.
Qed.

(** Grouping loses no row and repeats none: the groups, taken together,
    hold the rows of the table once each; no group is empty and no two
    groups have the same key. *)
Theorem groups_share_out_rows (d : DataFrame)
    (parent_col : string) (child_cols : list string)
    (Hcols : columns d = parent_col :: child_cols)
    (Hrect : rectangular d) :
  let keyed := add_group_key parent_col d in
  let groups := groupby group_key_col keyed in
  Permutation (flat_map (fun g => rows (snd g)) groups) (rows keyed)
  /\ Forall (fun g => rows (snd g) <> []) groups
  /\ NoDup (map fst groups).
Proof.
  intros keyed groups. unfold groups, keyed.
  rewrite (keyed_groups d parent_col child_cols Hcols Hrect).
  set (with_key := assign_row (index_of group_key_col (columns d)) parent_key).
  assert (Hrows : rows (add_group_key parent_col d) = map with_key (rows d)).
  { rewrite (add_group_key_assign _ _ _ Hcols). reflexivity. }
  repeat split.
  - rewrite Hrows, flat_map_map. cbn [snd rows].
    rewrite (flat_map_map_out (fun k => members parent_key k (rows d)) with_key).
    apply Permutation_map, members_partition.
  - apply Forall_map, Forall_forall. intros k Hk. simpl.
    intros Hnil. apply map_eq_nil in Hnil.
    exact (members_present parent_key k (rows d) Hk Hnil).
  - rewrite map_map. simpl. rewrite map_id. apply first_seen_NoDup.
Qed.

Lemma groups_share_out_rows_witness :
  columns Samples.parents = ["Parent"; "Field"]
  /\ rectangular Samples.parents
  /\ (let keyed := add_group_key "Parent" Samples.parents in
      let groups := groupby group_key_col keyed in
      Permutation (flat_map (fun g => rows (snd g)) groups) (rows keyed)
      /\ Forall (fun g => rows (snd g) <> []) groups
      /\ NoDup (map fst groups)).
Proof.
  assert (H1 : columns Samples.parents = ["Parent"; "Field"]) by reflexivity.
  assert (H2 : rectangular Samples.parents)
    by (unfold rectangular; simpl; repeat constructor).
  split; [exact H1 | split; [exact H2|]].
  exact (groups_share_out_rows Samples.parents "Parent" ["Field"] H1 H2).
Defined.

(** *** The value a group is shown under *)

(** A group is shown under the parent value of the first row of the
    table that carries its key, in that row's own letter case. *)
Theorem group_display_value (d : DataFrame)
    (parent_col : string) (child_cols : list string)
    (Hcols : columns d = parent_col :: child_cols)
    (Hrect : rectangular d)
    (Hfree : ~ In group_key_col (columns d)) :
  forall k g,
    In (k, g) (groupby group_key_col (add_group_key parent_col d)) ->
    exists r,
      hd_error (members parent_key k (rows d)) = Some r
      /\ first_parent g parent_col = iloc r 0.
Proof.
  intros k g Hin.
  rewrite (keyed_groups d parent_col child_cols Hcols Hrect) in Hin.
  apply in_map_iff in Hin. destruct Hin as [k' [[= -> <-] Hk]].
  destruct (members parent_key k (rows d)) as [|r rest] eqn:Em.
  { exfalso. exact (members_present parent_key k (rows d) Hk Em). }
  exists r. split; [reflexivity|].
  assert (Hr : In r (rows d)).
  { assert (H : In r (members parent_key k (rows d)))
      by (rewrite Em; left; reflexivity).
    unfold members in H. apply filter_In in H. apply H. }
  unfold rectangular in Hrect. rewrite Forall_forall in Hrect.
  specialize (Hrect r Hr).
  assert (Hn : ncols d = S (List.length child_cols)).
  { unfold ncols. unfold columns in Hcols.
    rewrite <- (length_map fst), Hcols. reflexivity. }
  unfold first_parent. simpl rows. unfold at_col.
  change (columns {| header := header (add_group_key parent_col d); rows := ?x |})
    with (columns (add_group_key parent_col d)).
  rewrite (index_of_None _ _ Hfree).
  unfold columns at 1. cbn [header]. rewrite map_app.
  fold (columns d). rewrite Hcols. simpl.
  rewrite String.eqb_refl. unfold iloc. simpl.
  destruct (values r) as [|v vs]; [simpl in Hrect; lia | reflexivity].
Qed.

Lemma group_display_value_witness :
  columns Samples.parents = ["Parent"; "Field"]
  /\ rectangular Samples.parents
  /\ ~ In group_key_col (columns Samples.parents)
  /\ (forall k g,
        In (k, g) (groupby group_key_col (add_group_key "Parent" Samples.parents)) ->
        exists r,
          hd_error (members parent_key k (rows Samples.parents)) = Some r
          /\ first_parent g "Parent" = iloc r 0).
Proof.
  assert (H1 : columns Samples.parents = ["Parent"; "Field"]) by reflexivity.
  assert (H2 : rectangular Samples.parents)
    by (unfold rectangular; simpl; repeat constructor).
  assert (H3 : ~ In group_key_col (columns Samples.parents))
    by (simpl; intros [H|[H|[]]]; discriminate).
  split; [exact H1 | split; [exact H2 | split; [exact H3|]]].
  exact (group_display_value Samples.parents "Parent" ["Field"] H1 H2 H3).
Defined.

(** *** When the preview cannot be drawn *)

Lemma columns_keep_columns (keep : string -> bool) (d : DataFrame) :
  columns (keep_columns keep d) = filter keep (columns d).
Proof.
  unfold keep_columns, columns. simpl.
  induction (header d) as [|h hdr IH]; simpl; [reflexivity|].
  destruct (keep (fst h)); simpl; rewrite IH; reflexivity.
Qed.

Lemma text_search_header (re : Regex.engine) (d d' : DataFrame) (q : string) :
  text_search re d q = Some d' -> header d' = header d.
Proof.
  unfold text_search. destruct (negb (PyStr.truthy q)); [intros [= <-]; reflexivity|].
  destruct (textual_columns d); [intros [= <-]; reflexivity|].
  destruct (Regex.compile re q); [|discriminate]. intros [= <-]. reflexivity.
Qed.

Lemma filtered_df_columns (re : Regex.engine) (d filtered : DataFrame)
    (q : string) :
  App.filtered_df re d q = Some filtered ->
  columns filtered
  = filter (fun c => negb (String.eqb c App.Source_File)) (columns d).
Proof.
  unfold App.filtered_df. intros H.
  assert (Hsome : exists d', header d' = header d
                             /\ filtered = App.display_cols d').
  { destruct (PyStr.truthy q).
    - destruct (text_search re d q) as [d'|] eqn:E; [|discriminate].
      injection H as <-. exists d'. split; [|reflexivity].
      apply (text_search_header _ _ _ _ E).
    - injection H as <-. exists d. split; reflexivity. }
  destruct Hsome as [d' [Hh ->]]. unfold App.display_cols.
  rewrite columns_keep_columns. unfold columns. rewrite Hh.
  apply filter_ext. intros c. unfold mem. simpl. rewrite orb_false_r. reflexivity.
Qed.

Lemma filter_nil_iff {A : Type} (f : A -> bool) (l : list A) :
  filter f l = [] <-> Forall (fun x => f x = false) l.
Proof.
  induction l as [|x l IH]; simpl; [split; [constructor | reflexivity]|].
  destruct (f x) eqn:E.
  - split; [discriminate|]. intros H. inversion H; subst. congruence.
  - rewrite IH. split; [intros H; constructor; assumption|].
    intros H. inversion H; subst. assumption.
Qed.

(** Whatever the query, once the search has returned the displayed
    table, its preview fails (with the [IndexError] of [df.columns[0]])
    exactly when the table has no column besides [Source_File]; in every
    other case it returns. *)
Theorem preview_needs_a_data_column (re : Regex.engine)
    (d filtered : DataFrame) (q : string) (search_term : option string)
    (Hshown : App.filtered_df re d q = Some filtered) :
  generate_parent_grouped_html filtered search_term = None
  <-> Forall (fun c => c = App.Source_File) (columns d).
Proof.
  pose proof (filtered_df_columns re d filtered q Hshown) as Hc.
  assert (Hnone : generate_parent_grouped_html filtered search_term = None
                  <-> columns filtered = []).
  { unfold generate_parent_grouped_html.
    destruct (columns filtered); split; congruence. }
  rewrite Hnone, Hc, filter_nil_iff. split; intros H.
  - eapply Forall_impl; [|exact H]. intros c Hf. simpl in Hf.
    apply negb_false_iff, String.eqb_eq in Hf. exact Hf.
  - eapply Forall_impl; [|exact H]. intros c ->. reflexivity.
Qed.

Lemma preview_needs_a_data_column_witness :
  App.filtered_df Fixtures.a_or_b Samples.lonely "a|b"
  = Some (mkDF [] [mkRow 0 []; mkRow 1 []])
  /\ (generate_parent_grouped_html (mkDF [] [mkRow 0 []; mkRow 1 []]) None = None
      <-> Forall (fun c => c = App.Source_File) (columns Samples.lonely)).
Proof.
  assert (H : App.filtered_df Fixtures.a_or_b Samples.lonely "a|b"
              = Some (mkDF [] [mkRow 0 []; mkRow 1 []])) by reflexivity.
  split; [exact H|].
  exact (preview_needs_a_data_column Fixtures.a_or_b Samples.lonely _ "a|b" None H).
Defined.

(** *** Cell formatting *)

Lemma format_cell_cases (v : cell) (term : option string) :
  format_cell v term
  = if shown_as_missing v then no_definition
    else match term with
         | Some t =>
             if PyStr.truthy t
             then Regex.sub_mark (Regex.compile_escaped t) 0 (str v)
             else str v
         | None => str v
         end.
Proof. reflexivity. Qed.

Lemma strip_tags_plain (text : string) :
  every (fun c => c <> "<"%char) text -> strip_tags_from false text = text.
Proof.
  induction text as [|c text IH]; simpl; [reflexivity|].
  intros [Hc Ht]. apply Ascii.eqb_neq in Hc. rewrite Hc, (IH Ht). reflexivity.
Qed.

Lemma strip_tags_close (k : nat) (rest : string) :
  strip_tags_from false (Regex.close_mark k ++ rest) = strip_tags_from false rest.
Proof. unfold Regex.close_mark. destruct (k =? 0)%nat; reflexivity. Qed.

Lemma strip_tags_sub_mark (items : list Regex.item) (text : string) :
  every (fun c => c <> "<"%char) text ->
  forall pending,
    strip_tags_from false (Regex.sub_mark items pending text) = text.
Proof.
  induction text as [|c text IH]; intros Hall pending; [reflexivity|].
  destruct Hall as [Hc Ht]. apply Ascii.eqb_neq in Hc.
  simpl Regex.sub_mark. destruct pending as [|k].
  - destruct (Regex.match_here items (String c text)).
    + change (strip_tags_from false
                (String c (Regex.close_mark (List.length items - 1)
                           ++ Regex.sub_mark items (List.length items - 1) text))
              = String c text).
      simpl. rewrite Hc, strip_tags_close, (IH Ht). reflexivity.
    + simpl. rewrite Hc, (IH Ht). reflexivity.
  - simpl. rewrite Hc, strip_tags_close, (IH Ht). reflexivity.
Qed.

(** Highlighting only adds markup: once the tags are removed, a cell
    that is not shown as missing reads as its own text again. *)
Theorem format_cell_adds_only_marks (v : cell) (term : option string)
    (Hshown : shown_as_missing v = false)
    (Hplain : every (fun c => c <> "<"%char) (str v)) :
  strip_tags (format_cell v term) = str v.
Proof.
  rewrite format_cell_cases, Hshown. unfold strip_tags.
  destruct term as [t|]; [|apply strip_tags_plain, Hplain].
  destruct (PyStr.truthy t); [|apply strip_tags_plain, Hplain].
  apply strip_tags_sub_mark, Hplain.
Qed.

Lemma format_cell_adds_only_marks_witness :
  shown_as_missing (Str "Age in years (AGE)") = false
  /\ every (fun c => c <> "<"%char) (str (Str "Age in years (AGE)"))
  /\ format_cell (Str "Age in years (AGE)") (Some "age")
     = "<mark>Age</mark> in years (<mark>AGE</mark>)"
  /\ strip_tags (format_cell (Str "Age in years (AGE)") (Some "age"))
     = str (Str "Age in years (AGE)").
Proof.
  assert (H1 : shown_as_missing (Str "Age in years (AGE)") = false)
    by reflexivity.
  assert (H2 : every (fun c => c <> "<"%char) (str (Str "Age in years (AGE)")))
    by (simpl; repeat split; discriminate).
  split; [exact H1 | split; [exact H2 | split; [reflexivity|]]].
  exact (format_cell_adds_only_marks _ (Some "age") H1 H2).
Defined.

Lemma sub_mark_no_match (items : list Regex.item) (text : string) :
  Regex.search items text = false -> Regex.sub_mark items 0 text = text.
Proof.
  induction text as [|c text IH]; [reflexivity|].
  intros H. simpl in H. apply orb_false_iff in H. destruct H as [H1 H2].
  simpl Regex.sub_mark. rewrite H1, (IH H2). reflexivity.
Qed.

(** A cell in which the search term does not occur, letter case aside,
    is shown as its plain text. *)
Theorem format_cell_without_match (v : cell) (term : string)
    (Hshown : shown_as_missing v = false)
    (Habsent : PyStr.contains (PyStr.lower term) (PyStr.lower (str v)) = false) :
  format_cell v (Some term) = str v.
Proof.
  rewrite format_cell_cases, Hshown.
  destruct (PyStr.truthy term); [|reflexivity].
  apply sub_mark_no_match. rewrite SearchFacts.search_literal. exact Habsent.
Qed.

Lemma format_cell_without_match_witness :
  shown_as_missing (Str "Height") = false
  /\ PyStr.contains (PyStr.lower "age") (PyStr.lower (str (Str "Height"))) = false
  /\ format_cell (Str "Height") (Some "age") = str (Str "Height").
Proof.
  assert (H1 : shown_as_missing (Str "Height") = false) by reflexivity.
  assert (H2 : PyStr.contains (PyStr.lower "age")
                              (PyStr.lower (str (Str "Height"))) = false)
    by reflexivity.
  split; [exact H1 | split; [exact H2|]].
  exact (format_cell_without_match _ _ H1 H2).
Defined.

Lemma rstrip_blank (s : string) :
  every (fun c => PyStr.isspace c = true) s -> PyStr.rstrip s = EmptyString.
Proof.
  induction s as [|c s IH]; simpl; [reflexivity|].
  intros [Hc Hs]. rewrite (IH Hs), Hc. reflexivity.
Qed.

(** A missing cell and a cell of white space only are both shown as
    "No Definition", whatever the search term. *)
Theorem format_cell_blank (v : cell) (term : option string)
    (Hblank : isna v = true \/ every (fun c => PyStr.isspace c = true) (str v)) :
  format_cell v term = no_definition.
Proof.
  rewrite format_cell_cases. unfold shown_as_missing.
  destruct Hblank as [-> | H]; [reflexivity|].
  unfold PyStr.strip. rewrite (rstrip_blank _ H). simpl.
  rewrite orb_true_r. reflexivity.
Qed.

Lemma format_cell_blank_witness :
  (isna (Str "   ") = true
   \/ every (fun c => PyStr.isspace c = true) (str (Str "   ")))
  /\ format_cell (Str "   ") (Some "a") = no_definition.
Proof.
  assert (H : isna (Str "   ") = true
              \/ every (fun c => PyStr.isspace c = true) (str (Str "   ")))
    by (right; simpl; repeat split).
  split; [exact H | exact (format_cell_blank _ (Some "a") H)].
Defined.

End PreviewMore.

(* ===================================================================== *)
(** ** Ingest                                                             *)
(* ===================================================================== *)

Module IngestFacts.
Import Pandas Spec Ingest PandasFacts PreviewFacts.
Local Open Scope list_scope.

Lemma nth_set_nth_other {A : Type} (l : list A) (i j : nat) (x d : A) :
  i <> j -> nth j (set_nth i x l) d = nth j l d.
Proof.
  revert i j. induction l as [|y l IH]; intros [|i] [|j] H; simpl;
    try reflexivity; try congruence.
  apply IH. congruence.
Qed.

Lemma index_of_app_l (c : string) (cols extra : list string) (j : nat) :
  index_of c cols = Some j -> index_of c (cols ++ extra) = Some j.
Proof.
  revert j. induction cols as [|c' cols IH]; intros j; simpl; [discriminate|].
  destruct (String.eqb c c'); [trivial|].
  destruct (index_of c cols) as [k|]; simpl; [|discriminate].
  intros [= <-]. rewrite (IH k eq_refl). reflexivity.
Qed.

Lemma index_of_app_other (c c' : string) (cols : list string) :
  c' <> c -> index_of c' cols = None -> index_of c' (cols ++ [c]) = None.
Proof.
  intros Hne H. apply index_of_None. intros Hin.
  apply in_app_or in Hin. destruct Hin as [Hin | [-> | []]]; [|congruence].
  exact (index_of_None_inv _ _ H Hin).
Qed.

(** Assigning a column leaves the cells of every other column alone. *)
Lemma assign_other (c c' : string) (dt : dtype) (f : Row -> cell)
    (d : DataFrame) (r : Row) :
  c' <> c ->
  List.length (values r) = ncols d ->
  at_col (assign c dt f d) (assign_row (index_of c (columns d)) f r) c'
  = at_col d r c'.
Proof.
  intros Hne Hlen. unfold at_col. rewrite columns_assign.
  assert (Hn : ncols d = List.length (columns d)).
  { unfold ncols, columns. rewrite length_map. reflexivity. }
  destruct (index_of c (columns d)) as [i|] eqn:E.
  - destruct (index_of c' (columns d)) as [j|] eqn:E'; [|reflexivity].
    unfold iloc. simpl. apply nth_set_nth_other. intros ->.
    apply index_of_Some in E. apply index_of_Some in E'. congruence.
  - destruct (index_of c' (columns d)) as [j|] eqn:E'.
    + rewrite (index_of_app_l _ _ _ _ E'). unfold iloc. simpl.
      apply app_nth1. apply index_of_Some in E'.
      assert (j < List.length (columns d)) by (apply nth_error_Some; congruence).
      lia.
    + rewrite (index_of_app_other _ _ _ Hne E'). reflexivity.
Qed.

Lemma assign_has_column (c : string) (dt : dtype) (f : Row -> cell) (d : DataFrame) :
  In c (columns (assign c dt f d)).
Proof.
  rewrite columns_assign. destruct (index_of c (columns d)) as [i|] eqn:E.
  - apply index_of_Some in E. apply nth_error_In in E. exact E.
  - apply in_or_app. right. left. reflexivity.
Qed.

(** The table [load_file] reads for a file name it accepts. *)
Lemma load_file_loaded (file : UploadedFile) (d : DataFrame) :
  load_file file = Loaded d ->
  exists parsed,
    (parsed = read_csv file \/ parsed = read_excel file)
    /\ d = stamp (file_name file) parsed.
Proof.
  unfold load_file. destruct (endswith (file_name file) ".csv").
  - intros [= <-]. eauto.
  - destruct (endswith (file_name file) ".xlsx" || endswith (file_name file) ".xls");
      [|discriminate].
    intros [= <-]. eauto.
Qed.

(** A loaded table has a [Source_File] column that holds the file's name
    on every row; it has the rows of the parsed table, and the cells of
    all other columns are the parsed ones. *)
Theorem load_file_stamps_every_row (file : UploadedFile) (d : DataFrame)
    (Hcsv : rectangular (read_csv file))
    (Hexcel : rectangular (read_excel file))
    (Hload : load_file file = Loaded d) :
  exists parsed,
    (parsed = read_csv file \/ parsed = read_excel file)
    /\ In App.Source_File (columns d)
    /\ nrows d = nrows parsed
    /\ Forall (fun r => at_col d r App.Source_File = Str (file_name file)) (rows d)
    /\ (forall c, c <> App.Source_File ->
                  column_values d c = column_values parsed c).
Proof.
  destruct (load_file_loaded file d Hload) as [parsed [Hwhich ->]].
  exists parsed. split; [exact Hwhich|].
  assert (Hrect : rectangular parsed) by (destruct Hwhich as [-> | ->]; assumption).
  unfold rectangular in Hrect. rewrite Forall_forall in Hrect.
  unfold stamp. repeat split.
  - apply assign_has_column.
  - unfold nrows, assign. simpl. apply length_map.
  - apply Forall_forall. intros r' Hr'. unfold assign in Hr'. simpl in Hr'.
    apply in_map_iff in Hr'. destruct Hr' as [r [<- Hr]].
    apply (assign_at "Source_File" textual (fun _ => Str (file_name file)) parsed r).
    apply Hrect, Hr.
  - intros c Hc. unfold column_values.
    change (rows (assign "Source_File" textual
                         (fun _ => Str (file_name file)) parsed))
      with (map (assign_row (index_of "Source_File" (columns parsed))
                            (fun _ => Str (file_name file)))
                (rows parsed)).
    rewrite map_map. apply map_ext_in. intros r Hr.
    apply assign_other; [exact Hc | apply Hrect, Hr].
Qed.

Lemma load_file_stamps_every_row_witness :
  rectangular (read_csv Fixtures.survey_csv)
  /\ rectangular (read_excel Fixtures.survey_csv)
  /\ exists d,
       load_file Fixtures.survey_csv = Loaded d
       /\ exists parsed,
            (parsed = read_csv Fixtures.survey_csv
             \/ parsed = read_excel Fixtures.survey_csv)
            /\ In App.Source_File (columns d)
            /\ nrows d = nrows parsed
            /\ Forall (fun r => at_col d r App.Source_File
                                = Str (file_name Fixtures.survey_csv)) (rows d)
            /\ (forall c, c <> App.Source_File ->
                          column_values d c = column_values parsed c).
Proof.
  assert (H1 : rectangular (read_csv Fixtures.survey_csv))
    by (unfold rectangular; simpl; repeat constructor).
  assert (H2 : rectangular (read_excel Fixtures.survey_csv))
    by (unfold rectangular; simpl; constructor).
  split; [exact H1 | split; [exact H2|]].
  eexists. split; [reflexivity|].
  exact (load_file_stamps_every_row Fixtures.survey_csv _ H1 H2 eq_refl).
Defined.

End IngestFacts.

(* ===================================================================== *)
(** ** More on selection and export                                       *)
(* ===================================================================== *)

Module ExportMore.
Import Pandas App Spec Props PandasFacts GroupingFacts PreviewFacts PreviewMore.
Local Open Scope list_scope.

(** *** One check box per displayed row *)

Lemma enumerate_length {A : Type} (l : list A) :
  List.length (enumerate l) = List.length l.
Proof.
  unfold enumerate. rewrite length_combine, length_seq. apply Nat.min_id.
Qed.

Lemma select_group_rows (checkbox : checkboxes) (parent_col : string)
    (group : DataFrame) :
  List.length (rows (select_group checkbox parent_col group))
  = List.length (rows group).
Proof.
  unfold select_group. cbn [rows].
  rewrite length_map, enumerate_length.
  unfold assign. cbn [rows]. rewrite length_map.
  unfold display_group, drop, keep_columns. cbn [rows]. apply length_map.
Qed.

Lemma flat_map_length_ext {A B C : Type} (f : A -> list B) (g : A -> list C)
    (l : list A) :
  (forall x, List.length (f x) = List.length (g x)) ->
  List.length (flat_map f l) = List.length (flat_map g l).
Proof.
  intros H. induction l as [|x l IH]; simpl; [reflexivity|].
  rewrite !length_app, H, IH. reflexivity.
Qed.

Lemma relabel_names (rs : list Row) :
  map name (relabel rs) = seq 0 (List.length rs).
Proof.
  unfold relabel. generalize 0 as start.
  induction rs as [|r rs IH]; intros start; simpl; [reflexivity|].
  rewrite IH. reflexivity.
Qed.

Lemma editable_table_names (checkbox : checkboxes) (filtered : DataFrame) :
  map name (rows (editable_table checkbox filtered))
  = seq 0 (List.length (flat_map rows (editable_rows checkbox filtered))).
Proof.
  unfold editable_table.
  destruct (editable_rows checkbox filtered) as [|f frames]; [reflexivity|].
  unfold concat. cbn [rows]. apply relabel_names.
Qed.

Lemma keyed_groups_size (d : DataFrame) (parent_col : string)
    (child_cols : list string) :
  columns d = parent_col :: child_cols ->
  rectangular d ->
  List.length (flat_map (fun g => rows (snd g))
                        (groupby group_key_col (add_group_key parent_col d)))
  = nrows d.
Proof.
  intros Hcols Hrect.
  rewrite (keyed_groups d parent_col child_cols Hcols Hrect).
  rewrite flat_map_map. cbn [snd rows].
  rewrite (flat_map_map_out (fun k => members parent_key k (rows d))).
  rewrite length_map. apply Permutation_length, members_partition.
Qed.

(** Every row of a displayed table gets one row, and so one check box,
    in the selection table, which is numbered from 0. *)
Theorem every_row_gets_a_box (checkbox : checkboxes) (filtered : DataFrame)
    (Hshown : empty filtered = false)
    (Hrect : rectangular filtered) :
  map name (rows (editable_table checkbox filtered)) = seq 0 (nrows filtered).
Proof.
  rewrite editable_table_names. f_equal.
  unfold editable_rows, keyed. rewrite Hshown.
  destruct (columns filtered) as [|parent_col child_cols] eqn:Hcols.
  - exfalso. unfold empty in Hshown. apply orb_false_iff in Hshown.
    destruct Hshown as [_ H]. apply Nat.eqb_neq in H. apply H.
    unfold ncols. unfold columns in Hcols.
    rewrite <- (length_map fst), Hcols. reflexivity.
  - rewrite flat_map_map.
    rewrite (flat_map_length_ext _ (fun g => rows (snd g)))
      by (intros g; apply select_group_rows).
    apply (keyed_groups_size filtered parent_col child_cols Hcols Hrect).
Qed.

Lemma every_row_gets_a_box_witness :
  empty Fixtures.catalogue = false
  /\ rectangular Fixtures.catalogue
  /\ map name (rows (editable_table Samples.all_selected Fixtures.catalogue))
     = seq 0 (nrows Fixtures.catalogue).
Proof.
  assert (H1 : empty Fixtures.catalogue = false) by reflexivity.
  assert (H2 : rectangular Fixtures.catalogue)
    by (unfold rectangular; simpl; repeat constructor).
  split; [exact H1 | split; [exact H2|]].
  exact (every_row_gets_a_box Samples.all_selected Fixtures.catalogue H1 H2).
Defined.

(** *** What an export can hold *)

(** An export never holds a missing value, and it has at most one value
    per ticked row. *)
Theorem export_has_no_missing_value (checkbox : checkboxes) (filtered : DataFrame) :
  Forall (fun v => isna v = false) (assemble_export checkbox filtered)
  /\ List.length (assemble_export checkbox filtered)
     <= nrows (final_filtered (editable_table checkbox filtered)).
Proof.
  unfold assemble_export.
  set (final := final_filtered (editable_table checkbox filtered)).
  generalize (column_to_export final (keyed filtered)). intros column.
  assert (Hdrop : forall c,
            Forall (fun v => isna v = false) (dropna (column_values final c))
            /\ List.length (dropna (column_values final c)) <= nrows final).
  { intros c. split.
    - apply Forall_forall. intros v Hv. unfold dropna in Hv.
      apply filter_In in Hv. apply negb_true_iff, Hv.
    - unfold dropna. etransitivity; [apply filter_length_le|].
      unfold column_values, nrows. rewrite length_map. reflexivity. }
  unfold export_values. destruct column as [c|]; [|split; [constructor | simpl; lia]].
  destruct (PyStr.truthy c); [|split; [constructor | simpl; lia]].
  destruct (negb (empty final)); [apply Hdrop | split; [constructor | simpl; lia]].
Qed.

(** *** Columns that are never exported *)

Lemma mem_In (c : string) (cs : list string) : mem c cs = true <-> In c cs.
Proof.
  unfold mem. rewrite existsb_exists. split.
  - intros [x [Hx E]]. apply String.eqb_eq in E. subst. exact Hx.
  - intros H. exists c. split; [exact H | apply String.eqb_refl].
Qed.

Lemma columns_assign_In (c x : string) (dt : dtype) (f : Row -> cell)
    (d : DataFrame) :
  In x (columns (assign c dt f d)) -> x = c \/ In x (columns d).
Proof.
  rewrite columns_assign. destruct (index_of c (columns d)); [auto|].
  intros H. apply in_app_or in H. destruct H as [H | [<- | []]]; auto.
Qed.

(** The columns of one group's selection table. *)
Lemma select_group_columns (checkbox : checkboxes) (parent_col x : string)
    (group : DataFrame) :
  In x (columns (select_group checkbox parent_col group)) ->
  x = Select
  \/ (In x (columns group)
      /\ x <> parent_col
      /\ definition_column x = false
      /\ x <> group_key_col).
Proof.
  unfold select_group.
  change (columns {| header := ?h; rows := ?r |}) with (map fst h).
  fold (columns (assign Select other (fun _ => Bool false)
                        (display_group parent_col group))).
  intros H. apply columns_assign_In in H. destruct H as [H | H]; [auto|].
  right. unfold display_group, drop in H.
  rewrite columns_keep_columns in H. apply filter_In in H.
  destruct H as [Hin Hkeep]. apply negb_true_iff in Hkeep.
  assert (Hnot : ~ In x ((parent_col
                          :: filter (fun c => PyStr.contains "definition" (PyStr.lower c))
                                    (columns group)) ++ [group_key_col])).
  { intros Hx. apply mem_In in Hx. congruence. }
  repeat split.
  - exact Hin.
  - intros ->. apply Hnot. left. reflexivity.
  - destruct (definition_column x) eqn:E; [|reflexivity].
    exfalso. apply Hnot. apply in_or_app. left. right.
    apply filter_In. split; [exact Hin | exact E].
  - intros ->. apply Hnot. apply in_or_app. right. left. reflexivity.
Qed.

(** When the table of the ticked rows is not empty, that is when a row
    is ticked and the selection table shows at least one column, the
    exported column is a column of the displayed table that the
    selection table shows: it is never the parent column, never a
    column with "definition" in its name, and never one of the working
    columns [Select], [_group_key] or [Source_File]. *)
Theorem exported_column_is_shown (checkbox : checkboxes) (filtered : DataFrame)
    (parent_col : string) (child_cols : list string) (c : string)
    (Hcols : columns filtered = parent_col :: child_cols)
    (Hticked : empty (final_filtered (editable_table checkbox filtered)) = false)
    (Hcolumn : column_to_export (final_filtered (editable_table checkbox filtered))
                                (keyed filtered) = Some c) :
  In c (columns filtered)
  /\ c <> parent_col
  /\ definition_column c = false
  /\ c <> Select /\ c <> group_key_col /\ c <> Source_File.
Proof.
  set (editable := editable_table checkbox filtered) in *.
  unfold column_to_export in Hcolumn. rewrite Hticked in Hcolumn.
  simpl in Hcolumn. unfold first_exportable in Hcolumn.
  apply find_some in Hcolumn. destruct Hcolumn as [Hin Hsrc].
  apply negb_true_iff, String.eqb_neq in Hsrc.
  unfold final_filtered in Hin, Hticked.
  destruct (negb (empty editable)); [|discriminate].
  unfold drop in Hin. rewrite columns_keep_columns in Hin.
  apply filter_In in Hin. destruct Hin as [Hin Hsel].
  assert (Hnsel : c <> Select).
  { intros ->. unfold mem in Hsel. simpl in Hsel. discriminate. }
  change (columns (select_rows ?m editable)) with (columns editable) in Hin.
  unfold editable, editable_table in Hin.
  destruct (editable_rows checkbox filtered) as [|fr frames] eqn:Erows;
    [destruct Hin|].
  change (columns (concat (fr :: frames))) with (columns fr) in Hin.
  unfold editable_rows in Erows.
  destruct (empty filtered) eqn:Eempty; [discriminate|].
  rewrite Hcols in Erows. unfold groupby in Erows.
  destruct (groupby_rows _ _) as [|g gs]; [discriminate|].
  simpl in Erows. injection Erows as <- _.
  apply select_group_columns in Hin.
  destruct Hin as [-> | (Hin & Hp & Hd & Hk)]; [congruence|].
  change (columns {| header := header (keyed filtered); rows := snd g |})
    with (columns (keyed filtered)) in Hin.
  unfold keyed in Hin. rewrite Eempty, Hcols in Hin.
  unfold add_group_key in Hin. apply columns_assign_In in Hin.
  destruct Hin as [-> | Hin]; [congruence|].
  repeat split; assumption.
Qed.

Lemma exported_column_is_shown_witness :
  columns Fixtures.catalogue = ["Concept"; "Definition"; "Field"; "Unit"]
  /\ empty (final_filtered (editable_table Samples.all_selected Fixtures.catalogue))
     = false
  /\ column_to_export
       (final_filtered (editable_table Samples.all_selected Fixtures.catalogue))
       (keyed Fixtures.catalogue) = Some "Field"
  /\ (In "Field" (columns Fixtures.catalogue)
      /\ "Field" <> "Concept"
      /\ definition_column "Field" = false
      /\ "Field" <> Select /\ "Field" <> group_key_col /\ "Field" <> Source_File).
Proof.
  assert (H1 : columns Fixtures.catalogue
               = ["Concept"; "Definition"; "Field"; "Unit"]) by reflexivity.
  assert (H2 : empty (final_filtered
                        (editable_table Samples.all_selected Fixtures.catalogue))
               = false) by reflexivity.
  assert (H3 : column_to_export
                 (final_filtered
                    (editable_table Samples.all_selected Fixtures.catalogue))
                 (keyed Fixtures.catalogue) = Some "Field") by reflexivity.
  split; [exact H1 | split; [exact H2 | split; [exact H3|]]].
  exact (exported_column_is_shown Samples.all_selected Fixtures.catalogue
           "Concept" ["Definition"; "Field"; "Unit"] "Field" H1 H2 H3).
Defined.

End ExportMore.

(* ===================================================================== *)
(** ** The export against the displayed table                             *)
(* ===================================================================== *)

Module ExportRefine.
Import Pandas App Spec Props Selection.
Import PandasFacts GroupingFacts PreviewFacts ExportFacts DedupMore SearchMore.
Import PreviewMore IngestFacts ExportMore.
Local Open Scope list_scope.

(** *** Lists and masks *)

Lemma select_mask_length {A B : Type} (p : B -> bool) (l : list B) (vs : list A) :
  List.length vs = List.length l ->
  List.length (select_mask (map p l) vs) = List.length (filter p l).
Proof.
  revert vs. induction l as [|x l IH]; intros [|v vs]; simpl; try discriminate;
    [reflexivity|].
  intros [= H]. destruct (p x); simpl; rewrite IH by exact H; reflexivity.
Qed.

Lemma select_mask_names {A : Type} (p : A -> bool) (l : list A) :
  select_mask (map p l) l = filter p l.
Proof. apply select_mask_filter. Qed.

Lemma at_col_cell_in (d : DataFrame) (r : Row) (c : string) :
  at_col d r c = cell_in (columns d) (values r) c.
Proof. reflexivity. Qed.

(** Reading a kept column in the kept cells is reading it in the row. *)
Lemma cell_in_filter (p : string -> bool) (cols : list string) (vs : list cell)
    (c : string) :
  List.length vs = List.length cols ->
  p c = true ->
  cell_in (filter p cols) (select_mask (map p cols) vs) c = cell_in cols vs c.
Proof.
  intros Hlen Hp. unfold cell_in. revert vs Hlen.
  induction cols as [|x cols IH]; intros [|v vs]; simpl; try discriminate;
    [reflexivity|].
  intros [= Hlen]. specialize (IH vs Hlen).
  destruct (String.eqb c x) eqn:E.
  - apply String.eqb_eq in E. subst x. rewrite Hp. simpl.
    rewrite String.eqb_refl. reflexivity.
  - destruct (p x); simpl.
    + rewrite E.
      destruct (index_of c (filter p cols)); destruct (index_of c cols);
        simpl; exact IH.
    + destruct (index_of c (filter p cols)); destruct (index_of c cols);
        simpl; exact IH.
Qed.

Lemma set_nth_last {A : Type} (vs : list A) (x y : A) :
  set_nth (List.length vs) x (vs ++ [y]) = vs ++ [x].
Proof. induction vs as [|v vs IH]; simpl; [reflexivity|]. rewrite IH. reflexivity. Qed.

Lemma enumerate_map {A B : Type} (g : A -> B) (l : list A) :
  enumerate (map g l) = map (fun ir => (fst ir, g (snd ir))) (enumerate l).
Proof.
  unfold enumerate. rewrite length_map. generalize 0 as start.
  induction l as [|x l IH]; intros start; simpl; [reflexivity|].
  rewrite IH. reflexivity.
Qed.

Lemma enumerate_In {A : Type} (l : list A) (ir : nat * A) :
  In ir (enumerate l) -> In (snd ir) l.
Proof.
  unfold enumerate. destruct ir as [i r]. intros H.
  apply in_combine_r in H. exact H.
Qed.

Lemma filter_flat_map {A B : Type} (p : B -> bool) (g : A -> list B) (l : list A) :
  filter p (flat_map g l) = flat_map (fun x => filter p (g x)) l.
Proof.
  induction l as [|x l IH]; simpl; [reflexivity|].
  rewrite filter_app, IH. reflexivity.
Qed.

Lemma flat_map_ext_in {A B : Type} (f g : A -> list B) (l : list A) :
  (forall x, In x l -> f x = g x) -> flat_map f l = flat_map g l.
Proof.
  induction l as [|x l IH]; intros H; simpl; [reflexivity|].
  rewrite H by (left; reflexivity). rewrite IH; [reflexivity|].
  intros y Hy. apply H. right. exact Hy.
Qed.

Lemma values_relabel (rs : list Row) : map values (relabel rs) = map values rs.
Proof.
  unfold relabel. generalize 0 as start.
  induction rs as [|r rs IH]; intros start; simpl; [reflexivity|].
  rewrite IH. reflexivity.
Qed.

Lemma column_values_cells (d : DataFrame) (c : string) :
  column_values d c = map (fun vs => cell_in (columns d) vs c) (map values (rows d)).
Proof. unfold column_values. rewrite map_map. reflexivity. Qed.


(** *** The selection table of one group *)

Section Shown.
Variables (checkbox : checkboxes) (filtered : DataFrame).
Variables (parent_col : string) (child_cols : list string).
Hypothesis Hcols : columns filtered = parent_col :: child_cols.
Hypothesis Hrect : rectangular filtered.
Hypothesis Hselect : ~ In Select (columns filtered).
Hypothesis Hkey : ~ In group_key_col (columns filtered).

Lemma shown_mask_columns :
  shown_mask filtered = map (shown_column parent_col) (columns filtered).
Proof. unfold shown_mask. rewrite Hcols. reflexivity. Qed.

Lemma selection_columns_filter :
  selection_columns filtered = filter (shown_column parent_col) (columns filtered).
Proof. unfold selection_columns. rewrite Hcols. reflexivity. Qed.

Lemma selection_header_columns :
  map fst (selection_header filtered) = selection_columns filtered.
Proof.
  rewrite selection_columns_filter. unfold selection_header.
  rewrite <- select_mask_map, shown_mask_columns. apply select_mask_filter.
Qed.

Lemma selection_columns_In (c : string) :
  In c (selection_columns filtered) ->
  In c (columns filtered) /\ shown_column parent_col c = true.
Proof. rewrite selection_columns_filter. apply filter_In. Qed.

Lemma ncols_columns : ncols filtered = List.length (columns filtered).
Proof. unfold ncols, columns. rewrite length_map. reflexivity. Qed.

Lemma row_length (r : Row) :
  In r (rows filtered) -> List.length (values r) = List.length (columns filtered).
Proof.
  intros Hr. unfold rectangular in Hrect. rewrite Forall_forall in Hrect.
  rewrite (Hrect r Hr). apply ncols_columns.
Qed.

Lemma shown_values_length (r : Row) :
  In r (rows filtered) ->
  List.length (shown_values filtered r) = List.length (selection_columns filtered).
Proof.
  intros Hr. unfold shown_values.
  rewrite shown_mask_columns, selection_columns_filter.
  apply select_mask_length, row_length, Hr.
Qed.

(** The displayed table with its key column. *)
Lemma keyed_frame :
  add_group_key parent_col filtered
  = mkDF (header filtered ++ [(group_key_col, textual)])
         (map (fun r => mkRow (name r) (values r ++ [parent_key r]))
              (rows filtered)).
Proof.
  rewrite (add_group_key_assign _ _ _ Hcols). unfold assign.
  rewrite (index_of_None _ _ Hkey). reflexivity.
Qed.

(** The mask of [display_group] on the columns of a group. *)
Lemma display_mask :
  map (fun c => negb (mem c ((parent_col
                               :: filter (fun c => PyStr.contains "definition" (PyStr.lower c))
                                         (columns filtered ++ [group_key_col]))
                              ++ [group_key_col])))
      (columns filtered ++ [group_key_col])
  = shown_mask filtered ++ [false].
Proof.
  rewrite map_app, shown_mask_columns. f_equal.
  - apply map_ext_in. intros c Hc. unfold shown_column.
    set (hidden := filter _ _).
    destruct (mem c ((parent_col :: hidden) ++ [group_key_col])) eqn:E.
    + apply mem_In in E. simpl in E.
      destruct E as [E | E].
      * subst c. rewrite String.eqb_refl. reflexivity.
      * apply in_app_or in E. destruct E as [E | [E | []]].
        -- unfold hidden in E. apply filter_In in E.
           unfold definition_column. rewrite (proj2 E).
           rewrite andb_false_r. reflexivity.
        -- subst c. contradiction.
    + symmetry. apply andb_true_iff. split; apply negb_true_iff.
      * apply String.eqb_neq. intros ->.
        assert (H : mem parent_col ((parent_col :: hidden) ++ [group_key_col]) = true)
          by (apply mem_In; left; reflexivity).
        congruence.
      * destruct (definition_column c) eqn:D; [|reflexivity].
        assert (H : mem c ((parent_col :: hidden) ++ [group_key_col]) = true).
        { apply mem_In. right. apply in_or_app. left. unfold hidden.
          apply filter_In. split; [apply in_or_app; left; exact Hc | exact D]. }
        congruence.
  - cbn [map]. f_equal. apply negb_false_iff, mem_In.
    apply in_or_app. right. left. reflexivity.
Qed.

Lemma shown_mask_length : List.length (shown_mask filtered) = List.length (header filtered).
Proof.
  rewrite shown_mask_columns, length_map. unfold columns. apply length_map.
Qed.

Lemma select_mask_snoc {A : Type} (m : list bool) (l : list A) (x : A) :
  List.length m = List.length l ->
  select_mask (m ++ [false]) (l ++ [x]) = select_mask m l.
Proof.
  intros H. rewrite select_mask_app by exact H. simpl. apply app_nil_r.
Qed.


(** The label of a row's check box is read in the row's shown cells. *)
Lemma first_shown_cell (r : Row) :
  In r (rows filtered) ->
  str (nth 0 (shown_values filtered r ++ [Bool false]) NaN) = box_label filtered r.
Proof.
  intros Hr. pose proof (shown_values_length r Hr) as Hlen.
  unfold box_label.
  destruct (selection_columns filtered) as [|c cs] eqn:Esel.
  - destruct (shown_values filtered r); [reflexivity | discriminate].
  - assert (Hc : shown_column parent_col c = true).
    { apply selection_columns_In. rewrite Esel. left. reflexivity. }
    rewrite at_col_cell_in.
    rewrite <- (cell_in_filter (shown_column parent_col) _ _ _ (row_length r Hr) Hc).
    rewrite <- selection_columns_filter, <- shown_mask_columns, Esel.
    fold (shown_values filtered r).
    unfold cell_in. simpl. rewrite String.eqb_refl.
    destruct (shown_values filtered r); [discriminate | reflexivity].
Qed.

Lemma group_selection (group : list Row) :
  (forall r, In r group -> In r (rows filtered)) ->
  select_group checkbox parent_col
    (mkDF (header filtered ++ [(group_key_col, textual)])
          (map (fun r => mkRow (name r) (values r ++ [parent_key r])) group))
  = mkDF (selection_header filtered ++ [(Select, other)])
         (map (selection_row checkbox filtered group) (enumerate group)).
Proof.
  intros Hgroup.
  set (G := mkDF (header filtered ++ [(group_key_col, textual)])
                 (map (fun r => mkRow (name r) (values r ++ [parent_key r])) group)).
  assert (HG : columns G = columns filtered ++ [group_key_col]).
  { unfold G, columns. cbn [header]. rewrite map_app. reflexivity. }
  assert (Hshown : display_group parent_col G
                   = mkDF (selection_header filtered)
                          (map (fun r => mkRow (name r) (shown_values filtered r))
                               group)).
  { unfold display_group, drop, keep_columns. rewrite HG, display_mask.
    unfold G. cbn [header rows].
    rewrite (select_mask_snoc _ _ _ shown_mask_length).
    fold (selection_header filtered). f_equal.
    rewrite map_map. apply map_ext_in. intros r Hr. cbn [name values].
    f_equal. apply select_mask_snoc.
    rewrite shown_mask_columns, length_map. symmetry.
    apply row_length, Hgroup, Hr. }
  assert (Hnone : index_of Select (selection_columns filtered) = None).
  { apply index_of_None. intros H. apply selection_columns_In in H.
    apply Hselect, H. }
  assert (Hfirst : first_parent G parent_col
                   = match group with r :: _ => iloc r 0 | [] => NaN end).
  { unfold first_parent, G. cbn [rows]. destruct group as [|r0 rest]; [reflexivity|].
    cbn [map]. unfold at_col.
    change (columns _) with (columns G). rewrite HG, Hcols. simpl.
    rewrite String.eqb_refl. unfold iloc. cbn [values].
    assert (Hlen : List.length (values r0) = List.length (columns filtered))
      by (apply row_length, Hgroup; left; reflexivity).
    rewrite Hcols in Hlen. destruct (values r0); [discriminate | reflexivity]. }
  unfold select_group. rewrite Hshown, Hfirst.
  unfold assign. cbn [header rows].
  change (columns {| header := selection_header filtered; rows := ?rs |})
    with (map fst (selection_header filtered)).
  rewrite selection_header_columns, Hnone.
  cbn [header rows].
  change (columns {| header := selection_header filtered ++ [(Select, other)];
                     rows := ?rs |})
    with (map fst (selection_header filtered ++ [(Select, other)])).
  rewrite map_app, selection_header_columns. cbn [map fst].
  rewrite (index_of_appended _ _ Hnone).
  f_equal. rewrite map_map, enumerate_map, map_map.
  apply map_ext_in. intros [i r] Hir. apply enumerate_In in Hir.
  cbn [fst snd] in *. unfold assign_row. cbn [name values].
  unfold selection_row, ticked, box_key. cbn [fst snd].
  pose proof (Hgroup r Hir) as Hr.
  rewrite <- (shown_values_length r Hr), set_nth_last.
  unfold iloc. cbn [values]. rewrite (first_shown_cell r Hr). reflexivity.
Qed.

(** *** The selection table and the ticked rows *)

Lemma members_In (k : cell) (r : Row) :
  In r (members parent_key k (rows filtered)) -> In r (rows filtered).
Proof. unfold members. intros H. apply filter_In in H. apply H. Qed.

Lemma ticked_rows_In (r : Row) :
  In r (ticked_rows checkbox filtered) -> In r (rows filtered).
Proof.
  unfold ticked_rows. intros H. apply in_flat_map in H.
  destruct H as [k [_ H]]. apply in_map_iff in H.
  destruct H as [ir [<- H]]. apply filter_In in H. destruct H as [H _].
  apply enumerate_In in H. apply (members_In k), H.
Qed.

Lemma editable_frames :
  empty filtered = false ->
  editable_rows checkbox filtered
  = map (fun k =>
           mkDF (selection_header filtered ++ [(Select, other)])
                (map (selection_row checkbox filtered
                        (members parent_key k (rows filtered)))
                     (enumerate (members parent_key k (rows filtered)))))
        (first_seen (map parent_key (rows filtered))).
Proof.
  intros Hshown. unfold editable_rows, keyed. rewrite Hshown, Hcols.
  rewrite (keyed_groups _ _ _ Hcols Hrect), map_map. cbn [snd].
  apply map_ext. intros k.
  rewrite (index_of_None _ _ Hkey), keyed_frame. cbn [header].
  apply group_selection. intros r. apply members_In.
Qed.

Lemma no_row_no_key :
  empty filtered = true -> rows filtered = [].
Proof.
  unfold empty. intros H. apply orb_true_iff in H. destruct H as [H | H].
  - apply Nat.eqb_eq in H. unfold nrows in H.
    destruct (rows filtered); [reflexivity | discriminate].
  - apply Nat.eqb_eq in H. rewrite ncols_columns, Hcols in H. discriminate.
Qed.

(** The cells of the selection table, row after row. *)
Lemma editable_values :
  map values (rows (editable_table checkbox filtered))
  = flat_map (fun k =>
                map (fun ir => values (selection_row checkbox filtered
                                         (members parent_key k (rows filtered)) ir))
                    (enumerate (members parent_key k (rows filtered))))
             (first_seen (map parent_key (rows filtered))).
Proof.
  unfold editable_table. destruct (empty filtered) eqn:Hshown.
  - unfold editable_rows. rewrite Hshown, (no_row_no_key Hshown). reflexivity.
  - rewrite (editable_frames Hshown).
    destruct (first_seen (map parent_key (rows filtered))) as [|k ks] eqn:Ekeys;
      [reflexivity|].
    rewrite <- Ekeys. clear Ekeys. set (keys := first_seen _).
    destruct (map _ keys) as [|fr frames] eqn:Eframes.
    + destruct keys; [reflexivity | discriminate].
    + rewrite <- Eframes. unfold concat. rewrite Eframes at 1. cbn [rows].
      rewrite values_relabel, flat_map_map. cbn [rows].
      rewrite <- flat_map_map_out.
      apply flat_map_ext_in. intros k' _. rewrite map_map. reflexivity.
Qed.

Lemma editable_columns :
  editable_rows checkbox filtered <> [] ->
  columns (editable_table checkbox filtered)
  = selection_columns filtered ++ [Select].
Proof.
  intros Hframes. unfold editable_table.
  destruct (empty filtered) eqn:Hshown.
  - exfalso. apply Hframes. unfold editable_rows. rewrite Hshown. reflexivity.
  - rewrite (editable_frames Hshown) in *.
    destruct (first_seen (map parent_key (rows filtered))) as [|k ks];
      [contradiction|].
    cbn [map concat]. unfold columns at 1. cbn [header].
    rewrite map_app, selection_header_columns. reflexivity.
Qed.

Lemma ticked_cell (vs : list cell) (state : bool) :
  List.length vs = List.length (selection_columns filtered) ->
  cell_in (selection_columns filtered ++ [Select]) (vs ++ [Bool state]) Select
  = Bool state.
Proof.
  intros Hlen. unfold cell_in.
  rewrite index_of_appended.
  - rewrite <- Hlen. apply nth_middle.
  - apply index_of_None. intros H. apply selection_columns_In in H.
    apply Hselect, H.
Qed.

Lemma without_select (vs : list cell) (x : cell) :
  List.length vs = List.length (selection_columns filtered) ->
  select_mask (map (fun c => negb (mem c [Select]))
                   (selection_columns filtered ++ [Select]))
              (vs ++ [x])
  = vs.
Proof.
  intros Hlen. rewrite map_app, select_mask_app by (rewrite length_map; auto).
  cbn [map]. replace (negb (mem Select [Select])) with false by reflexivity.
  cbn [select_mask]. rewrite app_nil_r.
  apply select_mask_all; [|rewrite length_map; auto].
  apply Forall_map, Forall_forall. intros c Hc.
  apply negb_true_iff. destruct (mem c [Select]) eqn:E; [|reflexivity].
  apply mem_In in E. destruct E as [<- | []].
  apply selection_columns_In in Hc. exfalso. apply Hselect, Hc.
Qed.

Lemma filter_without_select :
  filter (fun c => negb (mem c [Select])) (selection_columns filtered ++ [Select])
  = selection_columns filtered.
Proof.
  rewrite filter_app. cbn [filter].
  replace (negb (mem Select [Select])) with false by reflexivity.
  rewrite app_nil_r. apply forallb_filter_id, forallb_forall. intros c Hc.
  apply negb_true_iff. destruct (mem c [Select]) eqn:E; [|reflexivity].
  apply mem_In in E. destruct E as [<- | []].
  apply selection_columns_In in Hc. exfalso. apply Hselect, Hc.
Qed.

(** The table of the ticked rows holds the shown cells of the ticked
    rows. *)
Lemma final_values :
  map values (rows (final_filtered (editable_table checkbox filtered)))
  = map (shown_values filtered) (ticked_rows checkbox filtered).
Proof.
  set (editable := editable_table checkbox filtered).
  set (keys := first_seen (map parent_key (rows filtered))).
  set (test := fun vs : list cell =>
                 is_True (cell_in (selection_columns filtered ++ [Select]) vs Select)).
  set (cut := fun vs : list cell =>
                select_mask (map (fun c => negb (mem c [Select]))
                                 (selection_columns filtered ++ [Select])) vs).
  assert (Hticked : map (shown_values filtered) (ticked_rows checkbox filtered)
                    = map cut (filter test (map values (rows editable)))).
  { unfold editable. rewrite editable_values. fold keys.
    unfold ticked_rows. fold keys.
    rewrite filter_flat_map, <- !flat_map_map_out.
    apply flat_map_ext_in. intros k _. cbv zeta.
    set (group := members parent_key k (rows filtered)).
    rewrite filter_map_swap, !map_map.
    assert (Hfilter : forall l : list (nat * Row),
              (forall ir, In ir l -> In (snd ir) (rows filtered)) ->
              map (fun ir => shown_values filtered (snd ir))
                  (filter (ticked checkbox filtered group) l)
              = map (fun ir => cut (values (selection_row checkbox filtered group ir)))
                    (filter (fun ir => test (values (selection_row checkbox
                                                       filtered group ir))) l)).
    { induction l as [|ir l IH]; intros Hl; [reflexivity|].
      assert (Hr : In (snd ir) (rows filtered)) by (apply Hl; left; reflexivity).
      assert (Hrest : forall ir', In ir' l -> In (snd ir') (rows filtered))
        by (intros ir' H; apply Hl; right; exact H).
      cbn [filter]. unfold test at 1, selection_row at 2. cbn [values].
      rewrite (ticked_cell _ _ (shown_values_length _ Hr)). cbn [is_True].
      destruct (ticked checkbox filtered group ir) eqn:Et.
      - cbn [map]. rewrite (IH Hrest). f_equal.
        unfold cut, selection_row. cbn [values].
        symmetry. apply without_select, shown_values_length, Hr.
      - apply IH, Hrest. }
    apply Hfilter. intros ir Hir. apply enumerate_In in Hir.
    apply (members_In k), Hir. }
  rewrite Hticked. unfold final_filtered. fold editable.
  destruct (empty editable) eqn:Hempty; cbn [negb].
  - assert (Hrows : rows editable = []).
    { unfold editable, editable_table in *.
      destruct (editable_rows checkbox filtered) as [|fr frames] eqn:Eframes;
        [reflexivity|].
      unfold empty in Hempty. apply orb_true_iff in Hempty.
      destruct Hempty as [H | H]; apply Nat.eqb_eq in H.
      - unfold nrows in H. destruct (rows (concat (fr :: frames)));
          [reflexivity | discriminate].
      - exfalso.
        assert (Hc : columns (editable_table checkbox filtered)
                     = selection_columns filtered ++ [Select])
          by (apply editable_columns; rewrite Eframes; discriminate).
        unfold editable_table in Hc. rewrite Eframes in Hc.
        unfold ncols in H. unfold columns in Hc at 1.
        rewrite <- (length_map fst), Hc, length_app in H. simpl in H. lia. }
    rewrite Hrows. reflexivity.
  - assert (Hc : columns editable = selection_columns filtered ++ [Select]).
    { apply editable_columns. intros Hnil. unfold editable, editable_table in Hempty.
      rewrite Hnil in Hempty. discriminate. }
    unfold drop, keep_columns, select_rows. cbn [rows header].
    change (columns {| header := header editable; rows := ?rs |})
      with (columns editable).
    rewrite map_map. cbn [values]. rewrite Hc. fold cut.
    rewrite <- (map_map values cut), <- select_mask_map. f_equal.
    rewrite <- (select_mask_filter test). f_equal.
    rewrite map_map. apply map_ext. intros r.
    unfold test. rewrite <- Hc. reflexivity.
Qed.

Lemma final_columns :
  rows (final_filtered (editable_table checkbox filtered)) <> [] ->
  columns (final_filtered (editable_table checkbox filtered))
  = selection_columns filtered.
Proof.
  set (editable := editable_table checkbox filtered).
  unfold final_filtered.
  destruct (empty editable) eqn:Hempty; cbn [negb]; [intros H; contradiction H; reflexivity|].
  intros _. unfold drop. rewrite columns_keep_columns.
  change (columns (select_rows ?m editable)) with (columns editable).
  assert (Hc : columns editable = selection_columns filtered ++ [Select]).
  { apply editable_columns. intros Hnil. unfold editable, editable_table in Hempty.
    rewrite Hnil in Hempty. discriminate. }
  rewrite Hc. apply filter_without_select.
Qed.

End Shown.

(** *** The exported values *)

Lemma no_column_no_export (checkbox : checkboxes) (filtered : DataFrame) :
  columns filtered = [] ->
  final_filtered (editable_table checkbox filtered) = empty_frame.
Proof.
  intros Hcols.
  assert (Hempty : empty filtered = true).
  { unfold empty, ncols. unfold columns in Hcols.
    rewrite <- (length_map fst), Hcols. apply orb_true_r. }
  unfold editable_table, editable_rows. rewrite Hempty. reflexivity.
Qed.

(** The column the export section picks when the table of the ticked
    rows has a row and a column. *)
Lemma picked_column (checkbox : checkboxes) (filtered : DataFrame)
    (parent_col : string) (child_cols : list string) :
  columns filtered = parent_col :: child_cols ->
  rectangular filtered ->
  ~ In Select (columns filtered) ->
  ~ In group_key_col (columns filtered) ->
  ticked_rows checkbox filtered <> [] ->
  selection_columns filtered <> [] ->
  let final := final_filtered (editable_table checkbox filtered) in
  empty final = false
  /\ columns final = selection_columns filtered
  /\ column_to_export final (keyed filtered)
     = first_but_provenance (selection_columns filtered).
Proof.
  intros Hcols Hrect Hselect Hkey Hticked Hshown final.
  pose proof (final_values checkbox filtered parent_col child_cols
                Hcols Hrect Hselect Hkey) as Hv.
  fold final in Hv.
  assert (Hrows : rows final <> []).
  { intros Hnil. rewrite Hnil in Hv.
    destruct (ticked_rows checkbox filtered); [contradiction | discriminate]. }
  pose proof (final_columns checkbox filtered parent_col child_cols
                Hcols Hrect Hselect Hkey Hrows) as Hc.
  fold final in Hc.
  assert (Hne : empty final = false).
  { unfold empty, nrows, ncols. apply orb_false_iff. split; apply Nat.eqb_neq.
    - destruct (rows final); [contradiction | discriminate].
    - rewrite <- (length_map fst). fold (columns final). rewrite Hc.
      destruct (selection_columns filtered); [contradiction | discriminate]. }
  split; [exact Hne | split; [exact Hc|]].
  unfold column_to_export. rewrite Hne, Hc. reflexivity.
Qed.

(** The export holds, for the ticked rows in the order of the selection
    table, the non-missing cells of the first shown column other than
    [Source_File]. *)
Lemma export_of_ticked_rows (checkbox : checkboxes) (filtered : DataFrame) :
  rectangular filtered ->
  plain_names filtered ->
  assemble_export checkbox filtered
  = values_of (first_but_provenance (selection_columns filtered)) filtered
              (ticked_rows checkbox filtered).
Proof.
  intros Hrect (Hselect & Hkey & Hname).
  assert (Hcase : columns filtered = []
                  \/ exists parent_col child_cols,
                       columns filtered = parent_col :: child_cols)
    by (destruct (columns filtered); eauto).
  destruct Hcase as [Hcols | (parent_col & child_cols & Hcols)].
  - unfold assemble_export. rewrite (no_column_no_export _ _ Hcols).
    rewrite export_values_of_empty by reflexivity.
    unfold selection_columns. rewrite Hcols. reflexivity.
  - destruct (ticked_rows checkbox filtered) as [|r0 rest] eqn:Eticked.
    + pose proof (final_values checkbox filtered parent_col child_cols
                    Hcols Hrect Hselect Hkey) as Hv.
      rewrite Eticked in Hv. unfold assemble_export.
      rewrite export_values_of_empty.
      * destruct (first_but_provenance (selection_columns filtered)); reflexivity.
      * unfold empty, nrows.
        destruct (rows (final_filtered (editable_table checkbox filtered)));
          [reflexivity | discriminate].
    + rewrite <- Eticked.
      assert (Hticked : ticked_rows checkbox filtered <> [])
        by (rewrite Eticked; discriminate).
      clear Eticked r0 rest.
      destruct (first_but_provenance (selection_columns filtered)) as [c|] eqn:Etarget.
      * assert (Hin : In c (selection_columns filtered)).
        { unfold first_but_provenance in Etarget.
          apply find_some in Etarget. apply Etarget. }
        assert (Hshown : selection_columns filtered <> []).
        { intros Hnil. rewrite Hnil in Hin. destruct Hin. }
        destruct (picked_column checkbox filtered parent_col child_cols
                    Hcols Hrect Hselect Hkey Hticked Hshown) as (Hne & Hc & Hpick).
        unfold assemble_export. rewrite Hpick, Etarget.
        unfold export_values. rewrite Hne. cbn [negb].
        destruct (selection_columns_In filtered parent_col child_cols Hcols c Hin)
          as [Hcol Hkeep].
        assert (Htruthy : PyStr.truthy c = true).
        { destruct c; [contradiction | reflexivity]. }
        rewrite Htruthy. unfold values_of. f_equal.
        rewrite column_values_cells, Hc.
        rewrite (final_values checkbox filtered parent_col child_cols
                   Hcols Hrect Hselect Hkey).
        rewrite map_map. apply map_ext_in. intros r Hr.
        apply (ticked_rows_In checkbox filtered) in Hr.
        rewrite at_col_cell_in. unfold shown_values.
        rewrite (selection_columns_filter filtered parent_col child_cols Hcols).
        rewrite (shown_mask_columns filtered parent_col child_cols Hcols).
        apply cell_in_filter; [|exact Hkeep].
        apply (row_length filtered Hrect r Hr).
      * unfold values_of, assemble_export.
        destruct (selection_columns filtered) as [|c0 cs] eqn:Eshown.
        -- apply export_values_of_empty.
           pose proof (final_values checkbox filtered parent_col child_cols
                         Hcols Hrect Hselect Hkey) as Hv.
           set (final := final_filtered (editable_table checkbox filtered)) in *.
           assert (Hrows : rows final <> []).
           { intros Hnil. rewrite Hnil in Hv.
             destruct (ticked_rows checkbox filtered); [contradiction | discriminate]. }
           pose proof (final_columns checkbox filtered parent_col child_cols
                         Hcols Hrect Hselect Hkey Hrows) as Hc.
           fold final in Hc. rewrite Eshown in Hc.
           unfold empty, ncols. rewrite <- (length_map fst).
           fold (columns final). rewrite Hc. apply orb_true_r.
        -- assert (Hshown : selection_columns filtered <> [])
             by (rewrite Eshown; discriminate).
           destruct (picked_column checkbox filtered parent_col child_cols
                       Hcols Hrect Hselect Hkey Hticked Hshown) as (_ & _ & Hpick).
           rewrite Hpick, Eshown, Etarget. reflexivity.
Qed.

(** C7, refuted as stated: the first displayed column other than
    [Source_File] is not the exported one: with every box of the
    sample table [Concept, Field] ticked, the export section picks
    [Field] and the export holds the fields, not the concepts. *)
Lemma parent_column_is_not_exported :
  rectangular Samples.displayed
  /\ plain_names Samples.displayed
  /\ ticked_rows Samples.all_selected Samples.displayed = rows Samples.displayed
  /\ first_non_provenance (columns Samples.displayed) "Concept"
  /\ column_to_export
       (final_filtered (editable_table Samples.all_selected Samples.displayed))
       (keyed Samples.displayed)
     <> Some "Concept"
  /\ assemble_export Samples.all_selected Samples.displayed
     <> dropna (map (fun r => at_col Samples.displayed r "Concept")
                    (ticked_rows Samples.all_selected Samples.displayed)).
Proof.
  split; [unfold rectangular; simpl; repeat constructor|].
  split; [unfold plain_names; simpl; intuition discriminate|].
  split; [reflexivity|].
  split; [apply first_exportable_iff; reflexivity|].
  split; vm_compute; discriminate.
Qed.

(** C7, amended: when at least one row is ticked, the exported column
    is the first column of the displayed table that the selection table
    shows (not the first, parent column and no column with "definition"
    in its lower-cased name) and that is not [Source_File]: it is the
    column [column_to_export] holds, and the exported values are its
    non-missing cells on the ticked rows, in the order of the selection
    table (group after group, table order inside a group).  If no such
    column exists the export is empty.  The displayed table is
    rectangular and has no column called [Select], [_group_key] or with
    an empty name. *)
Theorem exported_column_is_first_shown
    (checkbox : checkboxes) (filtered : DataFrame)
    (Hrect : rectangular filtered)
    (Hnames : plain_names filtered)
    (Hticked : ticked_rows checkbox filtered <> []) :
  (forall c,
     first_non_provenance (selection_columns filtered) c ->
     column_to_export (final_filtered (editable_table checkbox filtered))
                      (keyed filtered) = Some c
     /\ assemble_export checkbox filtered
        = dropna (map (fun r => at_col filtered r c)
                      (ticked_rows checkbox filtered)))
  /\ ((forall c, ~ first_non_provenance (selection_columns filtered) c) ->
      assemble_export checkbox filtered = []).
Proof.
  pose proof (export_of_ticked_rows checkbox filtered Hrect Hnames) as Hexport.
  split.
  - intros c Hc. apply first_exportable_iff in Hc.
    change (first_exportable (selection_columns filtered))
      with (first_but_provenance (selection_columns filtered)) in Hc.
    rewrite Hc in Hexport. split; [|exact Hexport].
    destruct Hnames as (Hselect & Hkey & _).
    assert (Hin : In c (selection_columns filtered)).
    { unfold first_but_provenance in Hc. apply find_some in Hc. apply Hc. }
    assert (Hshown : selection_columns filtered <> []).
    { intros Hnil. rewrite Hnil in Hin. destruct Hin. }
    destruct (columns filtered) as [|parent_col child_cols] eqn:Hcols.
    + exfalso. apply Hshown. unfold selection_columns.
      rewrite Hcols. reflexivity.
    + rewrite <- Hcols in Hselect, Hkey.
      destruct (picked_column checkbox filtered parent_col child_cols
                  Hcols Hrect Hselect Hkey Hticked Hshown) as (_ & _ & Hpick).
      rewrite Hpick. exact Hc.
  - intros Hnone.
    destruct (first_but_provenance (selection_columns filtered)) as [c|] eqn:Etarget.
    + exfalso. apply (Hnone c). apply first_exportable_iff. exact Etarget.
    + exact Hexport.
Qed.

Lemma exported_column_is_first_shown_witness :
  rectangular Fixtures.catalogue
  /\ plain_names Fixtures.catalogue
  /\ ticked_rows Fixtures.some_selected Fixtures.catalogue <> []
  /\ first_non_provenance (selection_columns Fixtures.catalogue) "Field"
  /\ column_to_export
       (final_filtered (editable_table Fixtures.some_selected Fixtures.catalogue))
       (keyed Fixtures.catalogue) = Some "Field"
  /\ assemble_export Fixtures.some_selected Fixtures.catalogue
     = [Str "age_months"; Str "height_cm"].
Proof.
  assert (H1 : rectangular Fixtures.catalogue)
    by (unfold rectangular; simpl; repeat constructor).
  assert (H2 : plain_names Fixtures.catalogue)
    by (unfold plain_names; simpl; intuition discriminate).
  assert (H3 : ticked_rows Fixtures.some_selected Fixtures.catalogue <> [])
    by (vm_compute; discriminate).
  assert (H4 : first_non_provenance (selection_columns Fixtures.catalogue) "Field")
    by (apply first_exportable_iff; reflexivity).
  split; [exact H1 | split; [exact H2 | split; [exact H3 | split; [exact H4|]]]].
  exact (proj1 (exported_column_is_first_shown
                  Fixtures.some_selected Fixtures.catalogue H1 H2 H3)
               "Field" H4).
Defined.

End ExportRefine.
